(** * UFunc dispatching and promotion (numpy/core/src/umath/dispatching.c)

    A shallow embedding of the dispatching machinery of the UFunc object:
    the multiple-dispatch matcher [resolve_implementation_info], the
    promoter invocation [call_promoter_and_recurse], the legacy fallback
    [legacy_promote_using_legacy_type_resolver], the two drivers
    [promote_and_get_info_and_ufuncimpl] and [promote_and_get_ufuncimpl],
    and the built-in promoters [default_ufunc_promoter] and
    [object_only_ufunc_promoter].

    C pointers are modelled by their identity, the CPython error indicator
    and the in-place mutated [signature] array are threaded as explicit
    state, and everything the file only calls (the DType flags, the
    subclass test, the common-DType computation, third-party promoters and
    the legacy type resolver) is collected in one record [Runtime]. *)

From Stdlib Require Import ZArith Bool List Lia.
From stdpp Require Import base decidable countable option list gmap.
Import ListNotations.

Local Open Scope Z_scope.

(** ** Pointers and objects *)

(** A [PyArray_DTypeMeta *] or [PyObject *] as the file uses them: the null
    pointer, the [Py_None] singleton, or a DType class known by its
    identity.  Every comparison the file makes on them is pointer equality. *)
Inductive PyPtr : Type :=
  | NULL
  | Py_None
  | DTypeMeta (id : N).

#[global] Instance PyPtr_eq_dec : EqDecision PyPtr.
Proof. solve_decision. Defined.

Definition PyPtr_encode (p : PyPtr) : option (option N) :=
  match p with
  | NULL => None
  | Py_None => Some None
  | DTypeMeta n => Some (Some n)
  end.

Definition PyPtr_decode (o : option (option N)) : PyPtr :=
  match o with
  | None => NULL
  | Some None => Py_None
  | Some (Some n) => DTypeMeta n
  end.

#[global] Instance PyPtr_countable : Countable PyPtr.
Proof.
  apply (inj_countable' PyPtr_encode PyPtr_decode).
  intros []; reflexivity.
Defined.

#[global] Instance PyPtr_inhabited : Inhabited PyPtr := populate NULL.

(** [a == b] on pointers. *)
Definition ptr_eqb (a b : PyPtr) : bool := bool_decide (a = b).

(** [arr[i]] / [PyTuple_GET_ITEM(t, i)].  The arrays of the file hold
    [NPY_MAXARGS] cells and its tuples [nargs] items; a list stands for the
    first [nargs] of them. *)
Definition item (a : list PyPtr) (i : nat) : PyPtr := nth i a NULL.

(** The exceptions the file sets, or lets through from what it calls. *)
Inductive Exception : Type :=
  | NotImplementedError_two_abstract
  | RuntimeError_promoters_matched_equally (given best_dtypes curr_dtypes : list PyPtr)
  | RuntimeError_new_DType_in_signature
  | RecursionError_during_ufunc_promotion
  | NoLoopFoundError (given : list PyPtr)
  | ErrorFromSubclassCheck
  | ErrorFromPromoter
  | ErrorFromTypeResolver.

#[global] Instance Exception_eq_dec : EqDecision Exception.
Proof. solve_decision. Defined.

(** A promoter capsule ([PyCapsule] named "numpy._ufunc_promoter") is known
    by the function it points to. *)
Inductive promoter_function : Type :=
  | default_ufunc_promoter_ptr
  | object_only_ufunc_promoter_ptr
  | other_promoter_ptr (id : N).

(** The second item of an info tuple: an [ArrayMethod] or a promoter capsule
    ([PyUFunc_AddLoop] admits nothing else). *)
Inductive Target : Type :=
  | ArrayMethod (id : N)
  | PromoterCapsule (f : promoter_function).

(** An info tuple [(dtypes, ArrayMethod or promoter)]. *)
Record Info : Type := mkInfo {
  info_dtypes : list PyPtr;
  info_target : Target
}.

#[global] Instance promoter_function_eq_dec : EqDecision promoter_function.
Proof. solve_decision. Defined.
#[global] Instance Target_eq_dec : EqDecision Target.
Proof. solve_decision. Defined.
#[global] Instance Info_eq_dec : EqDecision Info.
Proof. solve_decision. Defined.

(** [PyObject_TypeCheck(PyTuple_GET_ITEM(info, 1), &PyArrayMethod_Type)] *)
Definition is_ArrayMethod (info : Info) : bool :=
  match info_target info with
  | ArrayMethod _ => true
  | PromoterCapsule _ => false
  end.

(** The legacy type resolver a ufunc points to. *)
Inductive TypeResolver : Type :=
  | PyUFunc_SimpleBinaryComparisonTypeResolver
  | other_type_resolver (id : N).

#[global] Instance TypeResolver_eq_dec : EqDecision TypeResolver.
Proof. solve_decision. Defined.

(** The fields of [PyUFuncObject] the file reads.  [type_resolver] is
    [None] for a null function pointer; [userloops] tells whether the
    pointer of that name is non-null.  The dispatch cache is mutable and
    lives in [State] below. *)
Record PyUFuncObject : Type := mkUFunc {
  nin : nat;
  nargs : nat;
  _loops : list Info;
  type_resolver : option TypeResolver;
  ntypes : Z;
  userloops : bool
}.

(** One cell of a local array that was declared without initialiser:
    either still indeterminate or holding the pointer written last. *)
Inductive cell : Type :=
  | Uninit
  | Written (p : PyPtr).

(** What a promoter function leaves behind: its return code was [0] and
    [new_op_dtypes] holds these cells, or it returned [-1], having set an
    exception, or left the error indicator as it was, or cleared it with
    [PyErr_Clear]. *)
Inductive PromoterResult : Type :=
  | PromoterOk (new_op_dtypes : list cell)
  | PromoterFail (exc : option Exception)
  | PromoterFailCleared.

(** What [PyArray_PromoteDTypeSequence] gives: the common DType, a NULL
    with a [TypeError] set, or a NULL with another exception set. *)
Inductive PromoteResult : Type :=
  | CommonDType (common : PyPtr)
  | PromoteTypeError
  | PromoteOtherError.

(** ** The collaborators

    Everything [dispatching.c] calls but does not define.  The legacy type
    resolver is run on the operand arrays, which do not change during one
    resolution, so its answer is a function of the type tuple alone: [None]
    is a negative return, otherwise [out_descrs] is given through the DType
    class of each descriptor.  Promoters and resolvers are taken to leave
    the ufunc's loops and its dispatch cache alone. *)
Record Runtime : Type := mkRuntime {
  NPY_DT_is_abstract : PyPtr -> bool;
  NPY_DT_is_legacy : PyPtr -> bool;
  type_num : PyPtr -> Z;
  NPY_BOOL : Z;
  PyObject_IsSubclass : PyPtr -> PyPtr -> Z;
  PyArray_PromoteDTypeSequence : list PyPtr -> PromoteResult;
  object_DType : PyPtr;
  call_other_promoter :
    N -> PyUFuncObject -> list PyPtr -> list PyPtr -> PromoterResult;
  call_type_resolver :
    TypeResolver -> option (list PyPtr) -> option (nat -> PyPtr)
}.

(** ** The matcher: [resolve_implementation_info] *)

Section Matcher.
Context (rt : Runtime).

(** Outcome of the body of the matching loop at one slot. *)
Inductive slot_outcome : Type :=
  | slot_continue          (* [continue]: the slot matches *)
  | slot_break             (* [matches = NPY_FALSE; break] *)
  | slot_error.            (* [return -1] *)

(** The body of [for (i = 0; i < nargs; i++)] over the given and the
    registered DTypes. *)
Definition match_slot (ufunc : PyUFuncObject) (op_dtypes curr_dtypes : list PyPtr)
    (i : nat) : slot_outcome :=
  let given_dtype := item op_dtypes i in
  let resolver_dtype := item curr_dtypes i in
  if ptr_eqb given_dtype NULL && (nin ufunc <=? i)%nat then slot_continue
  else if ptr_eqb given_dtype NULL
          && ptr_eqb (item curr_dtypes 0) (item curr_dtypes 2) then slot_continue
  else if ptr_eqb resolver_dtype Py_None then slot_continue
  else if ptr_eqb given_dtype resolver_dtype then slot_continue
  else if negb (NPY_DT_is_abstract rt resolver_dtype) then slot_break
  else
    let subclass := PyObject_IsSubclass rt given_dtype resolver_dtype in
    if subclass <? 0 then slot_error
    else if subclass =? 0 then slot_break
    else slot_continue.

(** The matching loop from slot [i] on, [n] slots left. *)
Fixpoint match_from (ufunc : PyUFuncObject) (op_dtypes curr_dtypes : list PyPtr)
    (n i : nat) : slot_outcome :=
  match n with
  | O => slot_continue
  | S n' =>
      match match_slot ufunc op_dtypes curr_dtypes i with
      | slot_continue => match_from ufunc op_dtypes curr_dtypes n' (S i)
      | r => r
      end
  end.

(** [slot_continue] here reads [matches == NPY_TRUE] after the loop. *)
Definition entry_matches (ufunc : PyUFuncObject) (op_dtypes curr_dtypes : list PyPtr)
    : slot_outcome :=
  match_from ufunc op_dtypes curr_dtypes (nargs ufunc) 0.

(** The vote of one slot in the comparison of the running best with the
    new match. *)
Inductive slot_vote : Type :=
  | vote_skip                 (* [continue] before [best] is assigned *)
  | vote_best (best : Z)      (* [best] assigned: -1, 0 or 1 *)
  | vote_not_implemented.     (* both abstract: error and [return -1] *)

Definition compare_slot (op_dtype prev_dtype new_dtype : PyPtr) : slot_vote :=
  if ptr_eqb prev_dtype new_dtype then vote_skip
  else if ptr_eqb op_dtype NULL then vote_skip
  else if ptr_eqb prev_dtype Py_None then vote_best 1
  else if ptr_eqb new_dtype Py_None then vote_best 0
  else if negb (NPY_DT_is_abstract rt prev_dtype)
          && negb (NPY_DT_is_abstract rt new_dtype) then
    if ptr_eqb prev_dtype op_dtype then vote_best 0
    else if ptr_eqb new_dtype op_dtype then vote_best 1
    else vote_best (-1)
  else if negb (NPY_DT_is_abstract rt prev_dtype) then vote_best 0
  else if negb (NPY_DT_is_abstract rt new_dtype) then vote_best 1
  else vote_not_implemented.

(** The comparison loop from slot [i] on, [n] slots left, with the
    running [current_best]; [None] is the [return -1] of the abstract
    case, [Some c] the value of [current_best] when the loop is left. *)
Fixpoint compare_from (ufunc : PyUFuncObject)
    (op_dtypes best_dtypes curr_dtypes : list PyPtr)
    (n i : nat) (current_best : Z) : option Z :=
  match n with
  | O => Some current_best
  | S n' =>
      if (i =? nin ufunc)%nat && negb (current_best =? -1) then Some current_best
      else
        match compare_slot (item op_dtypes i) (item best_dtypes i) (item curr_dtypes i) with
        | vote_skip =>
            compare_from ufunc op_dtypes best_dtypes curr_dtypes n' (S i) current_best
        | vote_not_implemented => None
        | vote_best best =>
            if best =? -1 then
              compare_from ufunc op_dtypes best_dtypes curr_dtypes n' (S i) current_best
            else if negb (current_best =? -1) && negb (current_best =? best) then Some (-1)
            else compare_from ufunc op_dtypes best_dtypes curr_dtypes n' (S i) best
        end
  end.

Definition compare_entries (ufunc : PyUFuncObject)
    (op_dtypes best_dtypes curr_dtypes : list PyPtr) : option Z :=
  compare_from ufunc op_dtypes best_dtypes curr_dtypes (nargs ufunc) 0 (-1).

(** How the loop over [ufunc->_loops] ends. *)
Inductive scan_outcome : Type :=
  | scan_finished (best_resolver_info : option Info)
  | scan_no_clear_best (best_dtypes curr_dtypes : list PyPtr)
  | scan_error (exc : Exception).

(** [for (res_idx = 0; res_idx < size; res_idx++)] over the remaining
    loops, [best] being [best_resolver_info] (and its [best_dtypes]). *)
Fixpoint scan_loops (ufunc : PyUFuncObject) (op_dtypes : list PyPtr)
    (only_promoters : bool) (loops : list Info) (best : option Info) : scan_outcome :=
  match loops with
  | [] => scan_finished best
  | resolver_info :: rest =>
      if only_promoters && is_ArrayMethod resolver_info then
        scan_loops ufunc op_dtypes only_promoters rest best
      else
        let curr_dtypes := info_dtypes resolver_info in
        match entry_matches ufunc op_dtypes curr_dtypes with
        | slot_error => scan_error ErrorFromSubclassCheck
        | slot_break => scan_loops ufunc op_dtypes only_promoters rest best
        | slot_continue =>
            match best with
            | None => scan_loops ufunc op_dtypes only_promoters rest (Some resolver_info)
            | Some best_info =>
                match compare_entries ufunc op_dtypes (info_dtypes best_info) curr_dtypes with
                | None => scan_error NotImplementedError_two_abstract
                | Some current_best =>
                    if current_best =? -1 then
                      scan_no_clear_best (info_dtypes best_info) curr_dtypes
                    else if current_best =? 0 then
                      scan_loops ufunc op_dtypes only_promoters rest best
                    else
                      scan_loops ufunc op_dtypes only_promoters rest (Some resolver_info)
                end
            end
        end
  end.

(** What the caller of [resolve_implementation_info] sees: the return
    code, [*out_info], and the exception the call set, if any. *)
Record resolved : Type := mkResolved {
  return_code : Z;
  out_info : option Info;
  exc_set : option Exception
}.

(** The function with its one recursive call ([only_promoters] set) as a
    parameter. *)
Definition resolve_implementation_info_body (retry : unit -> resolved)
    (ufunc : PyUFuncObject) (op_dtypes : list PyPtr) (only_promoters : bool) : resolved :=
  match scan_loops ufunc op_dtypes only_promoters (_loops ufunc) None with
  | scan_error exc => mkResolved (-1) None (Some exc)
  | scan_no_clear_best best_dtypes curr_dtypes =>
      if negb only_promoters then retry tt
      else
        mkResolved 0 None
          (Some (RuntimeError_promoters_matched_equally op_dtypes best_dtypes curr_dtypes))
  | scan_finished best => mkResolved 0 best None
  end.

(** The retry never recurses again, so the recursion is two calls deep. *)
Definition resolve_implementation_info (ufunc : PyUFuncObject)
    (op_dtypes : list PyPtr) (only_promoters : bool) : resolved :=
  resolve_implementation_info_body
    (fun _ =>
       resolve_implementation_info_body (fun _ => mkResolved 0 None None)
         ufunc op_dtypes true)
    ufunc op_dtypes only_promoters.

End Matcher.

(** ** The built-in promoters *)

(** [for (i = lo; i < hi; i++) body] on the data the loop updates. *)
Definition for_range {A : Type} (lo hi : nat) (body : nat -> A -> A) (acc : A) : A :=
  foldl (fun a i => body i a) acc (seq lo (hi - lo)).

(** [arr[i] = p] *)
Definition store (i : nat) (p : PyPtr) (arr : list cell) : list cell :=
  <[i := Written p]> arr.

Section Promoters.
Context (rt : Runtime).

(** The first loop of [default_ufunc_promoter]: the DType the fixed
    output slots of the signature share, [NULL] when there is none. *)
Fixpoint signature_common (signature : list PyPtr) (n i : nat) (common : PyPtr) : PyPtr :=
  match n with
  | O => common
  | S n' =>
      if negb (ptr_eqb (item signature i) NULL) then
        if ptr_eqb common NULL then
          signature_common signature n' (S i) (item signature i)
        else if negb (ptr_eqb common (item signature i)) then NULL
        else signature_common signature n' (S i) common
      else signature_common signature n' (S i) common
  end.

(** [common] after both attempts: from the signature, else from the
    inputs; [inr] is the [return -1]: [inr None] after a [TypeError] of
    the promotion, when the error indicator has been cleared, and
    [inr (Some exc)] with what the promotion set ([exc]) left as it is. *)
Definition default_common (ufunc : PyUFuncObject) (op_dtypes signature : list PyPtr)
    : PyPtr + option (option Exception) :=
  let common := signature_common signature (nargs ufunc - nin ufunc) (nin ufunc) NULL in
  if ptr_eqb common NULL then
    match PyArray_PromoteDTypeSequence rt (take (nin ufunc) op_dtypes) with
    | CommonDType c => if ptr_eqb c NULL then inr (Some None) else inl c
    | PromoteTypeError => inr None
    | PromoteOtherError => inr (Some (Some ErrorFromPromoter))
    end
  else inl common.

Definition default_ufunc_promoter (ufunc : PyUFuncObject)
    (op_dtypes signature : list PyPtr) (new_op_dtypes : list cell) : PromoterResult :=
  if bool_decide (type_resolver ufunc = Some PyUFunc_SimpleBinaryComparisonTypeResolver)
     && ptr_eqb (item signature 0) NULL && ptr_eqb (item signature 1) NULL
     && negb (ptr_eqb (item signature 2) NULL)
     && negb (type_num rt (item signature 2) =? NPY_BOOL rt)
  then PromoterFail None
  else if ptr_eqb (item op_dtypes 0) NULL then
    PromoterOk
      (store 2 (item op_dtypes 1)
         (store 1 (item op_dtypes 1)
            (store 0 (item op_dtypes 1) new_op_dtypes)))
  else
    match default_common ufunc op_dtypes signature with
    | inr (Some exc) => PromoterFail exc
    | inr None => PromoterFailCleared
    | inl common =>
        let filled :=
          for_range 0 (nargs ufunc)
            (fun i arr =>
               let tmp :=
                 if negb (ptr_eqb (item signature i) NULL) then item signature i
                 else common in
               store i tmp arr)
            new_op_dtypes in
        PromoterOk
          (for_range (nin ufunc) (nargs ufunc)
             (fun i arr => store i (item op_dtypes i) arr)
             filled)
    end.

Definition object_only_ufunc_promoter (ufunc : PyUFuncObject)
    (op_dtypes signature : list PyPtr) (new_op_dtypes : list cell) : PromoterResult :=
  PromoterOk
    (for_range 0 (nargs ufunc)
       (fun i arr =>
          if ptr_eqb (item signature i) NULL then store i (object_DType rt) arr
          else arr)
       new_op_dtypes).

(** The call through the function pointer of the capsule.  A promoter
    that is not one of the two above is the runtime's; it answers with
    the cells it wrote. *)
Definition call_promoter_function (promoter : promoter_function)
    (ufunc : PyUFuncObject) (op_dtypes signature : list PyPtr)
    (new_op_dtypes : list cell) : PromoterResult :=
  match promoter with
  | default_ufunc_promoter_ptr =>
      default_ufunc_promoter ufunc op_dtypes signature new_op_dtypes
  | object_only_ufunc_promoter_ptr =>
      object_only_ufunc_promoter ufunc op_dtypes signature new_op_dtypes
  | other_promoter_ptr id => call_other_promoter rt id ufunc op_dtypes signature
  end.

End Promoters.

(** ** State: the dispatch cache, the signature and the error indicator *)

(** What a resolution reads and updates in place: [ufunc->_dispatch_cache],
    the caller's [signature] array, the thread's error indicator, and the
    history of calls made to [ufunc->type_resolver] (each with the type
    tuple it was given, [None] for a null tuple). *)
Record State : Type := mkState {
  _dispatch_cache : gmap (list PyPtr) Info;
  signature : list PyPtr;
  PyErr_Occurred : option Exception;
  type_resolver_calls : list (option (list PyPtr))
}.

Definition PyErr_Set (exc : Exception) (st : State) : State :=
  mkState (_dispatch_cache st) (signature st) (Some exc) (type_resolver_calls st).

(** [PyErr_Clear()] *)
Definition PyErr_Clear (st : State) : State :=
  mkState (_dispatch_cache st) (signature st) None (type_resolver_calls st).

(** The state after a call that may have set an exception. *)
Definition PyErr_Left (exc : option Exception) (st : State) : State :=
  match exc with
  | Some e => PyErr_Set e st
  | None => st
  end.

(** Modelled from the spec: [PyArrayIdentityHash_GetItem] of
    npy_hashtable.c, which this file only calls.  The cache is a map from
    the exact tuple of operand DType pointers to an info tuple. *)
Definition PyArrayIdentityHash_GetItem (tb : gmap (list PyPtr) Info)
    (key : list PyPtr) : option Info :=
  tb !! key.

(** Modelled from the spec: [PyArrayIdentityHash_SetItem] of
    npy_hashtable.c, which this file only calls.  A write overwrites (last
    writer wins) and does not fail; a null value leaves the key unmapped. *)
Definition PyArrayIdentityHash_SetItem (tb : gmap (list PyPtr) Info)
    (key : list PyPtr) (value : option Info) : gmap (list PyPtr) Info :=
  match value with
  | Some info => <[key := info]> tb
  | None => delete key tb
  end.

(** [PyArrayIdentityHash_SetItem(ufunc->_dispatch_cache, op_dtypes, info, 0)] *)
Definition cache_result (op_dtypes : list PyPtr) (info : option Info) (st : State) : State :=
  mkState (PyArrayIdentityHash_SetItem (_dispatch_cache st) op_dtypes info)
    (signature st) (PyErr_Occurred st) (type_resolver_calls st).

(** What a call of one of the drivers can do: return ([info] is [None] for
    a NULL return) in some state, or read a cell of [new_op_dtypes] that
    nothing has written, after which C defines no behaviour. *)
Inductive Outcome : Type :=
  | Returns (info : option Info) (st : State)
  | ReadsUninit.

(** ** The legacy fallback *)

Section Legacy.
Context (rt : Runtime).

(** The loop of [_make_new_typetup] from slot [i] on: the items of the
    tuple and [none_count], or [None] for the [return -1].  A DType stands
    for its singleton descriptor. *)
Fixpoint typetup_items (signature : list PyPtr) (n i : nat) : option (list PyPtr * nat) :=
  match n with
  | O => Some ([], O)
  | S n' =>
      if ptr_eqb (item signature i) NULL then
        match typetup_items signature n' (S i) with
        | Some (items, none_count) => Some (Py_None :: items, S none_count)
        | None => None
        end
      else if negb (NPY_DT_is_legacy rt (item signature i))
              || NPY_DT_is_abstract rt (item signature i) then None
      else
        match typetup_items signature n' (S i) with
        | Some (items, none_count) => Some (item signature i :: items, none_count)
        | None => None
        end
  end.

(** [None] is the [return -1]; [Some None] a null [*out_typetup]. *)
Definition _make_new_typetup (nop : nat) (signature : list PyPtr)
    : option (option (list PyPtr)) :=
  match typetup_items signature nop 0 with
  | None => None
  | Some (items, none_count) =>
      if (none_count =? nop)%nat then Some None else Some (Some items)
  end.

(** The last loop of [legacy_promote_using_legacy_type_resolver]: a fixed
    slot of the signature that differs from the resolver's DType is
    replaced by it, and the result is no longer cacheable. *)
Definition overwrite_signature (nargs : nat) (operation_DTypes : list PyPtr)
    (sig_cacheable : list PyPtr * bool) : list PyPtr * bool :=
  for_range 0 nargs
    (fun i sc =>
       if negb (ptr_eqb (item sc.1 i) NULL)
          && negb (ptr_eqb (item sc.1 i) (item operation_DTypes i))
       then (<[i := item operation_DTypes i]> sc.1, false)
       else sc)
    sig_cacheable.

(** The result is [None] for a negative return, else [operation_DTypes]
    (every slot below [nargs] is written) and [*out_cacheable].  The
    source calls [ufunc->type_resolver] without testing it: the driver
    tests it before it comes here, the entry point under
    [force_legacy_promotion] does not.  The call through a null pointer
    is modelled as a failing call; what is stated of the entry point
    with [force_legacy_promotion] is stated for a ufunc with a resolver. *)
Definition legacy_promote_using_legacy_type_resolver (ufunc : PyUFuncObject)
    (st : State) (cacheable : bool) : option (list PyPtr * bool) * State :=
  match _make_new_typetup (nargs ufunc) (signature st) with
  | None => (None, PyErr_Set RuntimeError_new_DType_in_signature st)
  | Some type_tuple =>
      let called :=
        mkState (_dispatch_cache st) (signature st) (PyErr_Occurred st)
          (type_resolver_calls st ++ [type_tuple]) in
      match type_resolver ufunc with
      | None => (None, PyErr_Set ErrorFromTypeResolver st)
      | Some resolver =>
          match call_type_resolver rt resolver type_tuple with
          | None => (None, PyErr_Set ErrorFromTypeResolver called)
          | Some out_descrs =>
              let operation_DTypes := map out_descrs (seq 0 (nargs ufunc)) in
              let sc :=
                overwrite_signature (nargs ufunc) operation_DTypes
                  (signature st, cacheable) in
              (Some (operation_DTypes, sc.2),
               mkState (_dispatch_cache st) sc.1 (PyErr_Occurred st)
                 (type_resolver_calls called))
          end
      end
  end.

End Legacy.

(** ** The driver: [promote_and_get_info_and_ufuncimpl] *)

Section Driver.
Context (rt : Runtime).

Definition cell_value (c : cell) : option PyPtr :=
  match c with
  | Written p => Some p
  | Uninit => None
  end.

(** Reading every cell of [new_op_dtypes]; [None] when one is indeterminate. *)
Definition read_array (cells : list cell) : option (list PyPtr) :=
  mapM cell_value cells.

(** [for (i = 0; i < nargs; i++) if (new_op_dtypes[i] != op_dtypes[i]) ...] *)
Definition dtypes_changed (nargs : nat) (new_op_dtypes op_dtypes : list PyPtr) : bool :=
  existsb (fun i => negb (ptr_eqb (item new_op_dtypes i) (item op_dtypes i)))
    (seq 0 nargs).

(** [recurse] is the call of [promote_and_get_info_and_ufuncimpl] with
    legacy promotion off, [None] when [Py_EnterRecursiveCall] refuses.
    [new_op_dtypes] starts as [nargs] indeterminate cells; after a
    successful promoter call every one of them is read, by the comparison
    or at the latest by the [Py_XDECREF] loop at [finish]. *)
Definition call_promoter_and_recurse
    (recurse : option (State -> list PyPtr -> Outcome))
    (ufunc : PyUFuncObject) (promoter : promoter_function)
    (op_dtypes : list PyPtr) (st : State) : Outcome :=
  match call_promoter_function rt promoter ufunc op_dtypes (signature st)
          (replicate (nargs ufunc) Uninit) with
  | PromoterFail exc => Returns None (PyErr_Left exc st)
  | PromoterFailCleared => Returns None (PyErr_Clear st)
  | PromoterOk cells =>
      match read_array cells with
      | None => ReadsUninit
      | Some new_op_dtypes =>
          if negb (dtypes_changed (nargs ufunc) new_op_dtypes op_dtypes) then
            Returns None st
          else
            match recurse with
            | None => Returns None (PyErr_Set RecursionError_during_ufunc_promotion st)
            | Some promote => promote st new_op_dtypes
            end
      end
  end.

(** The end of the driver, from "Even using promotion no loop was found". *)
Definition legacy_fallback (recurse : State -> list PyPtr -> Outcome)
    (ufunc : PyUFuncObject) (op_dtypes : list PyPtr)
    (allow_legacy_promotion : bool) (st : State) : Outcome :=
  if negb allow_legacy_promotion
     || bool_decide (type_resolver ufunc = None)
     || ((ntypes ufunc =? 0) && negb (userloops ufunc))
  then Returns None st
  else
    match legacy_promote_using_legacy_type_resolver rt ufunc st true with
    | (None, st') => Returns None st'
    | (Some (new_op_dtypes, cacheable), st') =>
        match recurse st' new_op_dtypes with
        | ReadsUninit => ReadsUninit
        | Returns info st'' =>
            Returns info (if cacheable then cache_result op_dtypes info st'' else st'')
        end
    end.

(** The middle of the driver, [if (info != NULL)] with [info] a promoter. *)
Definition use_promoter (recurse_promoter : option (State -> list PyPtr -> Outcome))
    (recurse_legacy : State -> list PyPtr -> Outcome)
    (ufunc : PyUFuncObject) (op_dtypes : list PyPtr)
    (allow_legacy_promotion : bool) (promoter : promoter_function) (st : State) : Outcome :=
  match call_promoter_and_recurse recurse_promoter ufunc promoter op_dtypes st with
  | ReadsUninit => ReadsUninit
  | Returns None st' =>
      match PyErr_Occurred st' with
      | Some _ => Returns None st'
      | None => legacy_fallback recurse_legacy ufunc op_dtypes allow_legacy_promotion st'
      end
  | Returns (Some info) st' => Returns (Some info) (cache_result op_dtypes (Some info) st')
  end.

(** One activation of [promote_and_get_info_and_ufuncimpl], its two
    recursive calls (both with legacy promotion off) as parameters. *)
Definition promote_body (recurse_promoter : option (State -> list PyPtr -> Outcome))
    (recurse_legacy : State -> list PyPtr -> Outcome)
    (ufunc : PyUFuncObject) (st : State) (op_dtypes : list PyPtr)
    (allow_legacy_promotion : bool) : Outcome :=
  match PyArrayIdentityHash_GetItem (_dispatch_cache st) op_dtypes with
  | Some info =>
      match info_target info with
      | ArrayMethod _ => Returns (Some info) st
      | PromoterCapsule promoter =>
          use_promoter recurse_promoter recurse_legacy ufunc op_dtypes
            allow_legacy_promotion promoter st
      end
  | None =>
      let r := resolve_implementation_info rt ufunc op_dtypes false in
      let st1 := PyErr_Left (exc_set r) st in
      if return_code r <? 0 then Returns None st1
      else
        match out_info r with
        | Some info =>
            match info_target info with
            | ArrayMethod _ =>
                Returns (Some info) (cache_result op_dtypes (Some info) st1)
            | PromoterCapsule promoter =>
                use_promoter recurse_promoter recurse_legacy ufunc op_dtypes
                  allow_legacy_promotion promoter st1
            end
        | None =>
            legacy_fallback recurse_legacy ufunc op_dtypes allow_legacy_promotion st1
        end
  end.

(** The driver with legacy promotion off, as both recursive calls enter
    it.  [depth] is the number of nested [Py_EnterRecursiveCall] that still
    succeed; the legacy branch is dead here, so its callee is never run. *)
Fixpoint promote_no_legacy (depth : nat) (ufunc : PyUFuncObject)
    (st : State) (op_dtypes : list PyPtr) : Outcome :=
  promote_body
    (match depth with
     | O => None
     | S depth' => Some (promote_no_legacy depth' ufunc)
     end)
    (fun st' _ => Returns None st')
    ufunc st op_dtypes false.

Definition promote_and_get_info_and_ufuncimpl (depth : nat) (ufunc : PyUFuncObject)
    (st : State) (op_dtypes : list PyPtr) (allow_legacy_promotion : bool) : Outcome :=
  promote_body
    (match depth with
     | O => None
     | S depth' => Some (promote_no_legacy depth' ufunc)
     end)
    (promote_no_legacy depth ufunc)
    ufunc st op_dtypes allow_legacy_promotion.

End Driver.

(** ** The entry point: [promote_and_get_ufuncimpl] *)

(** What the entry point leaves: the method returned ([None] for NULL), the
    state, and the caller's [op_dtypes] array, which it rewrites. *)
Inductive TopOutcome : Type :=
  | TopReturns (method : option Target) (st : State) (op_dtypes : list PyPtr)
  | TopReadsUninit.

Definition with_signature (sig : list PyPtr) (st : State) : State :=
  mkState (_dispatch_cache st) sig (PyErr_Occurred st) (type_resolver_calls st).

Section EntryPoint.
Context (rt : Runtime).

(** The first loop: a fixed slot of the signature replaces the operand
    DType, and an output that is not fixed is cleared. *)
Definition overlay_signature (ufunc : PyUFuncObject)
    (signature op_dtypes : list PyPtr) : list PyPtr :=
  for_range 0 (nargs ufunc)
    (fun i ops =>
       if negb (ptr_eqb (item signature i) NULL) then <[i := item signature i]> ops
       else if (nin ufunc <=? i)%nat then <[i := NULL]> ops
       else ops)
    op_dtypes.

(** The last loop: the slots still null are filled from the loop found. *)
Definition fill_signature (nargs : nat) (all_dtypes signature : list PyPtr) : list PyPtr :=
  for_range 0 nargs
    (fun i sig =>
       if ptr_eqb (item sig i) NULL then <[i := item all_dtypes i]> sig else sig)
    signature.

(** The DTypes the entry point operates with, before the driver is
    called: the overlay and, under [force_legacy_promotion], the legacy
    resolver's DTypes written over all of [op_dtypes].  [None] is the
    [return NULL] after a failed legacy promotion. *)
Definition initial_op_dtypes (ufunc : PyUFuncObject) (st : State) (op_dtypes : list PyPtr)
    (force_legacy_promotion : bool) : option (list PyPtr) * State :=
  if force_legacy_promotion then
    match legacy_promote_using_legacy_type_resolver rt ufunc st true with
    | (None, st') => (None, st')
    | (Some (operation_DTypes, _), st') => (Some operation_DTypes, st')
    end
  else (Some (overlay_signature ufunc (signature st) op_dtypes), st).

(** One activation, its recursive call (made with
    [ensure_reduce_compatible] off) as a parameter. *)
Definition promote_and_get_ufuncimpl_body
    (rerun : State -> list PyPtr -> TopOutcome)
    (depth : nat) (ufunc : PyUFuncObject) (st : State) (op_dtypes : list PyPtr)
    (force_legacy_promotion allow_legacy_promotion ensure_reduce_compatible : bool)
    : TopOutcome :=
  match initial_op_dtypes ufunc st op_dtypes force_legacy_promotion with
  | (None, st') => TopReturns None st' (overlay_signature ufunc (signature st) op_dtypes)
  | (Some op_dtypes', st') =>
      match promote_and_get_info_and_ufuncimpl rt depth ufunc st' op_dtypes'
              allow_legacy_promotion with
      | ReadsUninit => TopReadsUninit
      | Returns None st'' =>
          TopReturns None
            (match PyErr_Occurred st'' with
             | Some _ => st''
             | None => PyErr_Set (NoLoopFoundError op_dtypes') st''
             end)
            op_dtypes'
      | Returns (Some info) st'' =>
          let all_dtypes := info_dtypes info in
          if ensure_reduce_compatible
             && ptr_eqb (item (signature st'') 0) NULL
             && negb (ptr_eqb (item all_dtypes 0) (item all_dtypes 2))
          then
            rerun (with_signature (<[0%nat := item all_dtypes 2]> (signature st'')) st'')
              op_dtypes'
          else
            TopReturns (Some (info_target info))
              (with_signature
                 (fill_signature (nargs ufunc) all_dtypes (signature st'')) st'')
              op_dtypes'
      end
  end.

(** The recursive call passes [NPY_FALSE] for [ensure_reduce_compatible]
    and so makes no further one: the recursion is two calls deep. *)
Definition promote_and_get_ufuncimpl (depth : nat) (ufunc : PyUFuncObject)
    (st : State) (op_dtypes : list PyPtr)
    (force_legacy_promotion allow_legacy_promotion ensure_reduce_compatible : bool)
    : TopOutcome :=
  promote_and_get_ufuncimpl_body
    (fun st' op_dtypes' =>
       promote_and_get_ufuncimpl_body
         (fun st'' op_dtypes'' => TopReturns None st'' op_dtypes'')
         depth ufunc st' op_dtypes'
         force_legacy_promotion allow_legacy_promotion false)
    depth ufunc st op_dtypes
    force_legacy_promotion allow_legacy_promotion ensure_reduce_compatible.

End EntryPoint.

(** ** Vocabulary of the statements *)

Definition outcome_info (o : Outcome) : option Info :=
  match o with
  | Returns info _ => info
  | ReadsUninit => None
  end.

Definition outcome_state (default : State) (o : Outcome) : State :=
  match o with
  | Returns _ st => st
  | ReadsUninit => default
  end.

Definition top_method (o : TopOutcome) : option Target :=
  match o with
  | TopReturns method _ _ => method
  | TopReadsUninit => None
  end.

Definition top_state (default : State) (o : TopOutcome) : State :=
  match o with
  | TopReturns _ st _ => st
  | TopReadsUninit => default
  end.

(** Every entry of the cache is an ArrayMethod info. *)
Definition cache_only_methods (st : State) : Prop :=
  map_Forall (fun _ info => is_ArrayMethod info = true) (_dispatch_cache st).

(** A recursive call of the driver moves the state along [R] and returns
    an info with [G]. *)
Definition recurse_ok (R : State -> State -> Prop) (G : option Info -> Prop)
    (f : State -> list PyPtr -> Outcome) : Prop :=
  forall s o info s', f s o = Returns info s' -> R s s' /\ G info.

Section Vocabulary.
Context (rt : Runtime).

(** Whether the comparison loop, started at slot [i] with [n] slots left
    and the running [current_best], comes to run its body at slot [k]: it
    follows [compare_from] and stops where that loop is left. *)
Fixpoint compare_reaches (ufunc : PyUFuncObject)
    (op_dtypes best_dtypes curr_dtypes : list PyPtr)
    (n i : nat) (current_best : Z) (k : nat) : bool :=
  match n with
  | O => false
  | S n' =>
      if (i =? nin ufunc)%nat && negb (current_best =? -1) then false
      else if (i =? k)%nat then true
      else
        match compare_slot rt (item op_dtypes i) (item best_dtypes i) (item curr_dtypes i) with
        | vote_skip =>
            compare_reaches ufunc op_dtypes best_dtypes curr_dtypes n' (S i) current_best k
        | vote_not_implemented => false
        | vote_best best =>
            if best =? -1 then
              compare_reaches ufunc op_dtypes best_dtypes curr_dtypes n' (S i) current_best k
            else if negb (current_best =? -1) && negb (current_best =? best) then false
            else compare_reaches ufunc op_dtypes best_dtypes curr_dtypes n' (S i) best k
        end
  end.

(** Where the legacy fallback can leave the driver. *)
Definition through_legacy (recurse : State -> list PyPtr -> Outcome)
    (ufunc : PyUFuncObject) (op_dtypes : list PyPtr) (a : State)
    (info : option Info) (st' : State) : Prop :=
  exists r b,
    legacy_promote_using_legacy_type_resolver rt ufunc a true = (r, b)
    /\ ((r = None /\ st' = b /\ info = None)
        \/ exists new_op_dtypes cacheable s,
             r = Some (new_op_dtypes, cacheable)
             /\ recurse b new_op_dtypes = Returns info s
             /\ (st' = s \/ st' = cache_result op_dtypes info s)).

(** The driver comes to call [promoter] at this level, in state [st1]:
    from a cache hit on a promoter entry, or from the lookup over the
    loops after a cache miss. *)
Definition selects_promoter (ufunc : PyUFuncObject) (st : State) (op_dtypes : list PyPtr)
    (promoter : promoter_function) (st1 : State) : Prop :=
  (exists hit,
     _dispatch_cache st !! op_dtypes = Some hit
     /\ info_target hit = PromoterCapsule promoter /\ st1 = st)
  \/ (exists found,
        _dispatch_cache st !! op_dtypes = None
        /\ (return_code (resolve_implementation_info rt ufunc op_dtypes false) <? 0) = false
        /\ out_info (resolve_implementation_info rt ufunc op_dtypes false) = Some found
        /\ info_target found = PromoterCapsule promoter
        /\ st1 = PyErr_Left (exc_set (resolve_implementation_info rt ufunc op_dtypes false)) st).

(** The ufunc's legacy resolver, called with [type_tuple], gives the DType
    [v] for slot 0 (when it answers at all). *)
Definition resolver_answers_slot0 (ufunc : PyUFuncObject) (v : PyPtr)
    (type_tuple : option (list PyPtr)) : Prop :=
  forall resolver out_descrs,
    type_resolver ufunc = Some resolver ->
    call_type_resolver rt resolver type_tuple = Some out_descrs ->
    out_descrs 0%nat = v.

(** From [a] to [b] the resolver's call history has only grown, and slot 0
    of the signature has stayed [v] if every call made in between gave
    [v] for slot 0. *)
Definition slot0_kept (ufunc : PyUFuncObject) (v : PyPtr) (a b : State) : Prop :=
  exists calls,
    type_resolver_calls b = type_resolver_calls a ++ calls
    /\ (Forall (resolver_answers_slot0 ufunc v) calls ->
        item (signature a) 0 = v -> item (signature b) 0 = v).

End Vocabulary.

(** The calls of the legacy resolver made after the state [before], as
    the state [after] records them. *)
Definition calls_since (before after : State) : list (option (list PyPtr)) :=
  drop (length (type_resolver_calls before)) (type_resolver_calls after).

(** From [a] to [b] the resolver has been called at most [n] more times. *)
Definition calls_grow (n : nat) (a b : State) : Prop :=
  exists calls,
    type_resolver_calls b = type_resolver_calls a ++ calls /\ (length calls <= n)%nat.

(** The most calls of the legacy resolver one call of the entry point can
    make: one up front under [force_legacy_promotion] and one in the
    driver's fallback, in each of its one or two resolutions. *)
Definition resolver_calls_bound (force allow ensure : bool) : nat :=
  ((if force then 1 else 0) + (if allow then 1 else 0)) * (if ensure then 2 else 1).

(** ** Concrete DTypes, runtimes and ufuncs used in the examples *)

Definition Int32 : PyPtr := DTypeMeta 1.
Definition Float64 : PyPtr := DTypeMeta 2.
Definition Bool : PyPtr := DTypeMeta 3.
Definition Object : PyPtr := DTypeMeta 4.
Definition Timedelta : PyPtr := DTypeMeta 5.
(** Two abstract DTypes. *)
Definition Number : PyPtr := DTypeMeta 10.
Definition Inexact : PyPtr := DTypeMeta 11.

Definition example_is_abstract (p : PyPtr) : bool :=
  bool_decide (p = Number) || bool_decide (p = Inexact).

(** [Int32] and [Float64] are numbers, [Float64] is inexact; nothing else
    is a subclass of an abstract DType.  [on_null] is what the test answers
    when its first argument is the null pointer. *)
Definition example_IsSubclass (on_null : Z) (derived cls : PyPtr) : Z :=
  if bool_decide (derived = NULL) then on_null
  else if bool_decide (cls = Number)
          && (bool_decide (derived = Int32) || bool_decide (derived = Float64)) then 1
  else if bool_decide (cls = Inexact) && bool_decide (derived = Float64) then 1
  else 0.

(** A runtime with no third-party promoters: common DType [common] for
    every input sequence, and a legacy resolver whose descriptors are
    [legacy_out]. *)
Definition example_runtime (on_null : Z) (common : PyPtr)
    (legacy_out : nat -> PyPtr) : Runtime :=
  {| NPY_DT_is_abstract := example_is_abstract;
     NPY_DT_is_legacy := fun _ => true;
     type_num := fun p => if bool_decide (p = Bool) then 0 else 1;
     NPY_BOOL := 0;
     PyObject_IsSubclass := example_IsSubclass on_null;
     PyArray_PromoteDTypeSequence := fun _ => CommonDType common;
     object_DType := Object;
     call_other_promoter := fun _ _ _ _ => PromoterFail None;
     call_type_resolver := fun _ _ => Some legacy_out |}.

Definition empty_state (sig : list PyPtr) : State :=
  mkState ∅ sig None [].

(** A binary ufunc with one output, the given loops and legacy resolver,
    and legacy loops of its own ([ntypes] is not zero). *)
Definition binary_ufunc (loops : list Info) (resolver : option TypeResolver) : PyUFuncObject :=
  mkUFunc 2 3 loops resolver 1 false.

(** Two promoters registered for [(Number, None, None)] and
    [(Inexact, None, None)] both match [(Float64, Float64, NULL)]. *)
Definition two_abstract_loops : list Info :=
  [ mkInfo [Number; Py_None; Py_None] (PromoterCapsule default_ufunc_promoter_ptr);
    mkInfo [Inexact; Py_None; Py_None] (PromoterCapsule object_only_ufunc_promoter_ptr) ].

(** A unary ufunc with one output whose only loop is the object-only
    promoter, registered for [(None, None)]. *)
Definition object_ufunc : PyUFuncObject :=
  mkUFunc 1 2 [mkInfo [Py_None; Py_None] (PromoterCapsule object_only_ufunc_promoter_ptr)]
    None 0 false.

(** [np.add]-like loops: two ArrayMethods and the default promoter as the
    fallback for everything. *)
Definition add_loops : list Info :=
  [ mkInfo [Int32; Int32; Int32] (ArrayMethod 1);
    mkInfo [Float64; Float64; Float64] (ArrayMethod 2);
    mkInfo [Py_None; Py_None; Py_None] (PromoterCapsule default_ufunc_promoter_ptr) ].

Definition add_ufunc : PyUFuncObject := binary_ufunc add_loops None.

(** Resolving [(Int32, Float64, NULL)] on an empty cache: the default
    promoter is found and called, and [(Float64, Float64, NULL)] resolves
    to the [Float64] loop. *)
Definition add_mixed_run : Outcome :=
  promote_and_get_info_and_ufuncimpl (example_runtime 0 Float64 (fun _ => Float64)) 5
    add_ufunc (empty_state [NULL; NULL; NULL]) [Int32; Float64; NULL] true.

(** A legacy ufunc with two promoters, registered for [(Int32, None,
    None)] and [(None, Float64, None)], and a [Float64] loop. *)
Definition tied_loops : list Info :=
  [ mkInfo [Int32; Py_None; Py_None] (PromoterCapsule (other_promoter_ptr 1));
    mkInfo [Py_None; Float64; Py_None] (PromoterCapsule (other_promoter_ptr 2));
    mkInfo [Float64; Float64; Float64] (ArrayMethod 7) ].

Definition tied_ufunc : PyUFuncObject :=
  binary_ufunc tied_loops (Some (other_type_resolver 0)).

Definition tied_error : Exception :=
  RuntimeError_promoters_matched_equally [Int32; Float64; NULL]
    [Int32; Py_None; Py_None] [Py_None; Float64; Py_None].

(** A runtime whose one third-party promoter rewrites every query to
    [(Float64, Float64, Bool)], and whose legacy resolver answers [Bool]
    in every slot. *)
Definition reduce_runtime : Runtime :=
  {| NPY_DT_is_abstract := example_is_abstract;
     NPY_DT_is_legacy := fun _ => true;
     type_num := fun p => if bool_decide (p = Bool) then 0 else 1;
     NPY_BOOL := 0;
     PyObject_IsSubclass := example_IsSubclass 0;
     PyArray_PromoteDTypeSequence := fun _ => CommonDType Float64;
     object_DType := Object;
     call_other_promoter :=
       fun _ _ _ _ => PromoterOk [Written Float64; Written Float64; Written Bool];
     call_type_resolver := fun _ _ => Some (fun _ => Bool) |}.

Definition reduce_ufunc : PyUFuncObject :=
  binary_ufunc
    [ mkInfo [Py_None; Py_None; Py_None] (PromoterCapsule (other_promoter_ptr 1));
      mkInfo [Float64; Float64; Bool] (ArrayMethod 3) ]
    None.

(** The first resolution of the reduction [(NULL, Float64, NULL)]. *)
Definition reduce_first : Outcome :=
  promote_and_get_info_and_ufuncimpl reduce_runtime 5 reduce_ufunc
    (empty_state [NULL; NULL; NULL]) [NULL; Float64; NULL] false.

Definition reduce_forced : State :=
  with_signature
    (<[0%nat := Bool]> (signature (outcome_state (empty_state []) reduce_first)))
    (outcome_state (empty_state []) reduce_first).

(** The common DType of two equal DTypes is that DType; different ones
    have none. *)
Definition example_promote (dtypes : list PyPtr) : PromoteResult :=
  match dtypes with
  | [a; b] => if ptr_eqb a b then CommonDType a else PromoteTypeError
  | _ => PromoteTypeError
  end.

(** A division-like legacy ufunc on time spans: one loop
    [(Timedelta, Timedelta, Float64)], the default promoter as fallback,
    and a legacy resolver that answers [(Timedelta, Timedelta, Float64)]
    whatever the signature asks for (as the datetime resolvers do). *)
Definition divide_runtime : Runtime :=
  {| NPY_DT_is_abstract := example_is_abstract;
     NPY_DT_is_legacy := fun _ => true;
     type_num := fun p => if bool_decide (p = Bool) then 0 else 1;
     NPY_BOOL := 0;
     PyObject_IsSubclass := example_IsSubclass 0;
     PyArray_PromoteDTypeSequence := example_promote;
     object_DType := Object;
     call_other_promoter := fun _ _ _ _ => PromoterFail None;
     call_type_resolver :=
       fun _ _ => Some (fun i => if (i =? 2)%nat then Float64 else Timedelta) |}.

Definition divide_ufunc : PyUFuncObject :=
  binary_ufunc
    [ mkInfo [Timedelta; Timedelta; Float64] (ArrayMethod 3);
      mkInfo [Py_None; Py_None; Py_None] (PromoterCapsule default_ufunc_promoter_ptr) ]
    (Some (other_type_resolver 1)).

(** Reducing an array of time spans with it. *)
Definition divide_reduce_run : TopOutcome :=
  promote_and_get_ufuncimpl divide_runtime 5 divide_ufunc
    (empty_state [NULL; NULL; NULL]) [NULL; Timedelta; NULL] false true true.

(** A division-like legacy ufunc whose resolver follows a fixed
    signature: asked without a type tuple it answers
    [(Timedelta, Timedelta, Float64)], asked with one it answers [Float64]
    in every slot.  The ufunc has a loop for each answer. *)
Definition follow_runtime : Runtime :=
  {| NPY_DT_is_abstract := example_is_abstract;
     NPY_DT_is_legacy := fun _ => true;
     type_num := fun p => if bool_decide (p = Bool) then 0 else 1;
     NPY_BOOL := 0;
     PyObject_IsSubclass := example_IsSubclass 0;
     PyArray_PromoteDTypeSequence := example_promote;
     object_DType := Object;
     call_other_promoter := fun _ _ _ _ => PromoterFail None;
     call_type_resolver :=
       fun _ type_tuple =>
         match type_tuple with
         | None => Some (fun i => if (i =? 2)%nat then Float64 else Timedelta)
         | Some _ => Some (fun _ => Float64)
         end |}.

Definition follow_ufunc : PyUFuncObject :=
  binary_ufunc
    [ mkInfo [Timedelta; Timedelta; Float64] (ArrayMethod 3);
      mkInfo [Float64; Float64; Float64] (ArrayMethod 4);
      mkInfo [Py_None; Py_None; Py_None] (PromoterCapsule default_ufunc_promoter_ptr) ]
    (Some (other_type_resolver 1)).

(** The first resolution of the reduction [(NULL, Timedelta, NULL)]. *)
Definition follow_first : Outcome :=
  promote_and_get_info_and_ufuncimpl follow_runtime 5 follow_ufunc
    (empty_state [NULL; NULL; NULL]) [NULL; Timedelta; NULL] true.

(** The reduction through the entry point. *)
Definition follow_reduce_run : TopOutcome :=
  promote_and_get_ufuncimpl follow_runtime 5 follow_ufunc
    (empty_state [NULL; NULL; NULL]) [NULL; Timedelta; NULL] false true true.

(** A legacy ufunc without loops, called with value-based promotion
    forced and the legacy fallback allowed. *)
Definition forced_run : TopOutcome :=
  promote_and_get_ufuncimpl (example_runtime 0 Float64 (fun _ => Float64)) 5
    (binary_ufunc [] (Some (other_type_resolver 0)))
    (empty_state [NULL; NULL; NULL]) [Int32; Float64; NULL] true true false.

(** ** Registering loops: [PyUFunc_AddLoop] *)

(** A Python object as [PyUFunc_AddLoop] tells them apart: [None], a DType
    class (an instance of [PyArrayDTypeMeta_Type]), an ArrayMethod, a
    capsule ([valid] when it is named "numpy._ufunc_promoter" and holds a
    pointer), an exact tuple, or anything else. *)
#[local] Unset Elimination Schemes.
Inductive PyObject : Type :=
  | Obj_None
  | Obj_DTypeMeta (id : N)
  | Obj_ArrayMethod (id : N)
  | Obj_Capsule (valid : bool) (f : promoter_function)
  | Obj_Tuple (items : list PyObject)
  | Obj_Other.
#[local] Set Elimination Schemes.

(** The [TypeError]s of [PyUFunc_AddLoop], by their message. *)
Inductive AddLoopError : Type :=
  | Info_must_be_a_tuple
  | DType_tuple_length_does_not_match
  | DType_tuple_may_only_contain_None_and_DType_classes
  | Second_argument_must_be_an_ArrayMethod_or_promoter
  | A_loop_has_already_been_registered.

(** The return code with the list [ufunc->_loops] afterwards and the error
    set, or the read of [PyTuple_GET_SIZE] on a first item that is no
    tuple, which the function does not guard. *)
Inductive AddLoopResult : Type :=
  | AddLoopReturns (rc : Z) (loops : list Info) (exc : option AddLoopError)
  | AddLoopReadsNonTuple.

(** An item of the DType tuple that passes the check. *)
Definition DType_item (o : PyObject) : option PyPtr :=
  match o with
  | Obj_None => Some Py_None
  | Obj_DTypeMeta id => Some (DTypeMeta id)
  | _ => None
  end.

(** [PyObject_TypeCheck(o, &PyArrayMethod_Type) ||
    PyCapsule_IsValid(o, "numpy._ufunc_promoter")] *)
Definition method_or_promoter (o : PyObject) : option Target :=
  match o with
  | Obj_ArrayMethod id => Some (ArrayMethod id)
  | Obj_Capsule true f => Some (PromoterCapsule f)
  | _ => None
  end.

(** The loop over the registered loops: whether one of them has a DType
    tuple equal to the new one (tuples of [None] and classes compare equal
    when their items are identical). *)
Fixpoint already_registered (loops : list Info) (DType_tuple : list PyPtr) : bool :=
  match loops with
  | [] => false
  | item :: rest =>
      if bool_decide (info_dtypes item = DType_tuple) then true
      else already_registered rest DType_tuple
  end.

(** A null [ufunc->_loops] is the empty list. *)
Definition PyUFunc_AddLoop (ufunc : PyUFuncObject) (info : PyObject)
    (ignore_duplicate : bool) : AddLoopResult :=
  match info with
  | Obj_Tuple [first; meth_or_promoter] =>
      match first with
      | Obj_Tuple items =>
          if negb (length items =? nargs ufunc)%nat then
            AddLoopReturns (-1) (_loops ufunc) (Some DType_tuple_length_does_not_match)
          else
            match mapM DType_item items with
            | None =>
                AddLoopReturns (-1) (_loops ufunc)
                  (Some DType_tuple_may_only_contain_None_and_DType_classes)
            | Some DType_tuple =>
                match method_or_promoter meth_or_promoter with
                | None =>
                    AddLoopReturns (-1) (_loops ufunc)
                      (Some Second_argument_must_be_an_ArrayMethod_or_promoter)
                | Some target =>
                    if already_registered (_loops ufunc) DType_tuple then
                      if ignore_duplicate then AddLoopReturns 0 (_loops ufunc) None
                      else
                        AddLoopReturns (-1) (_loops ufunc)
                          (Some A_loop_has_already_been_registered)
                    else
                      AddLoopReturns 0 (_loops ufunc ++ [mkInfo DType_tuple target]) None
                end
            end
      | _ => AddLoopReadsNonTuple
      end
  | _ => AddLoopReturns (-1) (_loops ufunc) (Some Info_must_be_a_tuple)
  end.

(** The ufunc with its list of loops replaced. *)
Definition with_loops (loops : list Info) (ufunc : PyUFuncObject) : PyUFuncObject :=
  mkUFunc (nin ufunc) (nargs ufunc) loops (type_resolver ufunc) (ntypes ufunc)
    (userloops ufunc).

(** The object a DType pointer of [operation_dtypes] stands for; the null
    pointer is none. *)
Definition object_of_ptr (p : PyPtr) : option PyObject :=
  match p with
  | NULL => None
  | Py_None => Some Obj_None
  | DTypeMeta id => Some (Obj_DTypeMeta id)
  end.

(** What [add_and_return_legacy_wrapping_ufunc_loop] leaves: the info it
    returns ([None] for NULL) and the list of loops, or the use of a null
    DType when the tuple is built. *)
Inductive LegacyLoopResult : Type :=
  | LegacyLoopReturns (info : option Info) (loops : list Info)
  | LegacyLoopUsesNull.

(** [new_method] is what [PyArray_NewLegacyWrappingArrayMethod] gives for
    these DTypes: the identity of a new ArrayMethod, or [None] when it
    fails.  The info returned is the tuple built here, whether or not
    [PyUFunc_AddLoop] put it into the list. *)
Definition add_and_return_legacy_wrapping_ufunc_loop (new_method : option N)
    (ufunc : PyUFuncObject) (operation_dtypes : list PyPtr) (ignore_duplicate : bool)
    : LegacyLoopResult :=
  match mapM object_of_ptr (take (nargs ufunc) operation_dtypes) with
  | None => LegacyLoopUsesNull
  | Some items =>
      match new_method with
      | None => LegacyLoopReturns None (_loops ufunc)
      | Some id =>
          match PyUFunc_AddLoop ufunc
                  (Obj_Tuple [Obj_Tuple items; Obj_ArrayMethod id]) ignore_duplicate with
          | AddLoopReturns rc loops _ =>
              if rc <? 0 then LegacyLoopReturns None loops
              else
                LegacyLoopReturns
                  (Some (mkInfo (take (nargs ufunc) operation_dtypes) (ArrayMethod id)))
                  loops
          | AddLoopReadsNonTuple => LegacyLoopUsesNull
          end
      end
  end.

(** ** The promoter of the logical ufuncs *)

Section LogicalPromoter.
Context (rt : Runtime).
(** From numpy/ndarraytypes.h and the DType registry, which this file only
    uses: the type number of objects, the test for the two string type
    numbers, and the DType class of booleans. *)
Variable NPY_OBJECT : Z.
Variable PyTypeNum_ISSTRING : Z -> bool.
Variable bool_DType : PyPtr.

(** The first loop over the three slots, on [new_op_dtypes] and
    [force_object]. *)
Definition logical_first_pass (op_dtypes signature : list PyPtr)
    (state : list cell * bool) : list cell * bool :=
  for_range 0 3
    (fun i s =>
       if negb (ptr_eqb (item signature i) NULL) then
         (store i (item signature i) s.1,
          if type_num rt (item signature i) =? NPY_OBJECT then true else s.2)
       else
         (store i bool_DType s.1,
          if negb (ptr_eqb (item op_dtypes i) NULL)
             && (type_num rt (item op_dtypes i) =? NPY_OBJECT)
          then true else s.2))
    state.

Definition logical_ufunc_promoter (ufunc : PyUFuncObject)
    (op_dtypes signature : list PyPtr) (new_op_dtypes : list cell) : PromoterResult :=
  if ptr_eqb (item signature 0) NULL && ptr_eqb (item signature 1) NULL
     && negb (ptr_eqb (item signature 2) NULL)
     && negb (type_num rt (item signature 2) =? NPY_BOOL rt)
  then PromoterFail None
  else if (negb (ptr_eqb (item op_dtypes 0) NULL)
           && PyTypeNum_ISSTRING (type_num rt (item op_dtypes 0)))
          || PyTypeNum_ISSTRING (type_num rt (item op_dtypes 1))
  then PromoterFail None
  else
    let first := logical_first_pass op_dtypes signature (new_op_dtypes, false) in
    if negb first.2
       || (negb (ptr_eqb (item op_dtypes 2) NULL)
           && negb (type_num rt (item op_dtypes 2) =? NPY_OBJECT))
    then PromoterOk first.1
    else
      PromoterOk
        (for_range 0 3
           (fun i arr =>
              if negb (ptr_eqb (item signature i) NULL) then arr
              else store i (object_DType rt) arr)
           first.1).

End LogicalPromoter.

(** ** More vocabulary of the statements *)

(** The vote with the two sides exchanged. *)
Definition swap_best (best : Z) : Z :=
  if best =? 0 then 1 else if best =? 1 then 0 else best.

Definition swap_vote (v : slot_vote) : slot_vote :=
  match v with
  | vote_best best => vote_best (swap_best best)
  | other => other
  end.

(** No two registered loops have the same DType tuple, and every tuple has
    one item per operand. *)
Definition registry_ok (nargs : nat) (loops : list Info) : Prop :=
  NoDup (map info_dtypes loops)
  /\ Forall (fun info => length (info_dtypes info) = nargs) loops.

(** Every info the cache holds is one of the registered loops. *)
Definition cache_within_loops (ufunc : PyUFuncObject) (st : State) : Prop :=
  map_Forall (fun _ info => In info (_loops ufunc)) (_dispatch_cache st).

(** A fixed slot of the signature the legacy type resolution cannot deal
    with: a DType that is not legacy, or abstract. *)
Definition unsupported_slot (rt : Runtime) (s : PyPtr) : bool :=
  negb (ptr_eqb s NULL) && (negb (NPY_DT_is_legacy rt s) || NPY_DT_is_abstract rt s).

(** The item of the type tuple for one slot. *)
Definition typetup_item (s : PyPtr) : PyPtr :=
  if ptr_eqb s NULL then Py_None else s.

(** The first [n] slots of an array. *)
Definition slots (n : nat) (a : list PyPtr) : list PyPtr := map (item a) (seq 0 n).

(** The test of the last loop of the legacy promotion at slot [i]: the
    signature fixes the slot to a DType other than the resolver's. *)
Definition overwritten (signature operation_DTypes : list PyPtr) (i : nat) : bool :=
  negb (ptr_eqb (item signature i) NULL)
  && negb (ptr_eqb (item signature i) (item operation_DTypes i)).

(** A recursive call of the driver keeps the property [P] of the state
    and returns only infos with [Gi]. *)
Definition recurse_keeps (P : State -> Prop) (Gi : Info -> Prop)
    (f : State -> list PyPtr -> Outcome) : Prop :=
  forall s o info s',
    f s o = Returns info s' -> P s -> P s' /\ (forall i, info = Some i -> Gi i).

(** The signature is as it was. *)
Definition same_signature (a b : State) : Prop := signature b = signature a.

(** What a driver returns, if not NULL, is an ArrayMethod info. *)
Definition method_or_null (info : option Info) : Prop :=
  forall found, info = Some found -> is_ArrayMethod found = true.

(** What the first loop of the entry point makes of slot [i]. *)
Definition overlay_slot (ufunc : PyUFuncObject) (signature : list PyPtr)
    (i : nat) (op_dtype : PyPtr) : PyPtr :=
  if negb (ptr_eqb (item signature i) NULL) then item signature i
  else if (nin ufunc <=? i)%nat then NULL
  else op_dtype.

(** What the last loop of the entry point makes of slot [i]. *)
Definition fill_slot (all_dtypes : list PyPtr) (i : nat) (sig : PyPtr) : PyPtr :=
  if ptr_eqb sig NULL then item all_dtypes i else sig.

(** ** Pointer comparison *)

Lemma ptr_eqb_eq (a b : PyPtr) : ptr_eqb a b = true <-> a = b.
Proof. unfold ptr_eqb. apply bool_decide_eq_true. Qed.

Lemma ptr_eqb_neq (a b : PyPtr) : ptr_eqb a b = false <-> a <> b.
Proof. unfold ptr_eqb. apply bool_decide_eq_false. Qed.

Lemma ptr_eqb_refl (a : PyPtr) : ptr_eqb a a = true.
Proof. apply ptr_eqb_eq. reflexivity. Qed.

(** ** The matcher on a null input slot (C1) *)

Section MatcherFacts.
Context (rt : Runtime).

(** A slot that breaks ends the matching loop there: no later slot is
    looked at. *)
Lemma match_from_break ufunc op_dtypes curr_dtypes n i :
  match_slot rt ufunc op_dtypes curr_dtypes i = slot_break ->
  match_from rt ufunc op_dtypes curr_dtypes (S n) i = slot_break.
Proof. intros H. simpl. rewrite H. reflexivity. Qed.

(** With a null operand at an input slot, the reduce-compatible shape
    makes the slot match whatever the registered DType is. *)
Lemma match_slot_null_input_compatible ufunc op_dtypes curr_dtypes i :
  item op_dtypes i = NULL ->
  item curr_dtypes 0 = item curr_dtypes 2 ->
  match_slot rt ufunc op_dtypes curr_dtypes i = slot_continue.
Proof.
  intros Hnull Hshape. unfold match_slot. rewrite Hnull, Hshape.
  rewrite !ptr_eqb_refl. simpl.
  destruct (nin ufunc <=? i)%nat; reflexivity.
Qed.

(** Without that shape the remaining rules run on the null operand; a
    concrete registered DType then rejects. *)
Lemma match_slot_null_input_concrete ufunc op_dtypes curr_dtypes i d :
  item op_dtypes i = NULL ->
  (i < nin ufunc)%nat ->
  item curr_dtypes i = DTypeMeta d ->
  NPY_DT_is_abstract rt (DTypeMeta d) = false ->
  item curr_dtypes 0 <> item curr_dtypes 2 ->
  match_slot rt ufunc op_dtypes curr_dtypes i = slot_break.
Proof.
  intros Hnull Hin Hslot Hconcrete Hshape. unfold match_slot.
  rewrite Hnull, Hslot, ptr_eqb_refl.
  assert ((nin ufunc <=? i)%nat = false) as -> by (apply Nat.leb_gt; exact Hin).
  apply ptr_eqb_neq in Hshape. rewrite Hshape. simpl.
  rewrite Hconcrete. reflexivity.
Qed.

(** The harmless half: for a concrete registered DType the slot matches
    exactly for the reduce-compatible shape, and is rejected otherwise. *)
Lemma null_input_slot_concrete :
  forall (ufunc : PyUFuncObject) (op_dtypes curr_dtypes : list PyPtr) (i n : nat) (d : N),
    item op_dtypes i = NULL ->
    (i < nin ufunc)%nat ->
    item curr_dtypes i = DTypeMeta d ->
    NPY_DT_is_abstract rt (DTypeMeta d) = false ->
    (match_slot rt ufunc op_dtypes curr_dtypes i = slot_continue
       <-> item curr_dtypes 0 = item curr_dtypes 2)
    /\ (item curr_dtypes 0 <> item curr_dtypes 2 ->
        match_from rt ufunc op_dtypes curr_dtypes (S n) i = slot_break).
Proof.
  intros ufunc op_dtypes curr_dtypes i n d Hnull Hin Hslot Hconcrete. split.
  - split.
    + intros Hmatch.
      destruct (decide (item curr_dtypes 0 = item curr_dtypes 2)) as [Heq | Hne];
        [exact Heq |].
      rewrite (match_slot_null_input_concrete _ _ _ _ d) in Hmatch by assumption.
      discriminate.
    + intros Hshape. now apply match_slot_null_input_compatible.
  - intros Hshape. apply match_from_break.
    now apply (match_slot_null_input_concrete _ _ _ _ d).
Qed.

(** C1 (code bug).  In the matching loop, a null operand DType at an
    input slot [i < nin] of an entry that is not reduce-compatible (its
    slot 0 differs from its slot 2) does not reject the entry: the loop
    falls through to the remaining rules of the slot with the null
    operand.  When the registered DType of the slot is abstract, the null
    pointer is the first argument of [PyObject_IsSubclass], and what the
    slot does is what that call answers, for every runtime: a negative
    answer is the [return -1] of the lookup, zero rejects the entry, and
    anything else makes the slot match although the entry is not
    reduce-compatible. *)
Theorem C1_null_operand_reaches_subclass_test :
  forall (ufunc : PyUFuncObject) (op_dtypes curr_dtypes : list PyPtr) (i n : nat),
    item op_dtypes i = NULL ->
    (i < nin ufunc)%nat ->
    item curr_dtypes i <> NULL ->
    item curr_dtypes i <> Py_None ->
    NPY_DT_is_abstract rt (item curr_dtypes i) = true ->
    item curr_dtypes 0 <> item curr_dtypes 2 ->
    match_slot rt ufunc op_dtypes curr_dtypes i
    = (if PyObject_IsSubclass rt NULL (item curr_dtypes i) <? 0 then slot_error
       else if PyObject_IsSubclass rt NULL (item curr_dtypes i) =? 0 then slot_break
       else slot_continue)
    /\ (PyObject_IsSubclass rt NULL (item curr_dtypes i) < 0 ->
        match_from rt ufunc op_dtypes curr_dtypes (S n) i = slot_error).
Proof.
  intros ufunc op_dtypes curr_dtypes i n Hnull Hin Hset Hnone Habstract Hshape.
  assert (match_slot rt ufunc op_dtypes curr_dtypes i
          = (if PyObject_IsSubclass rt NULL (item curr_dtypes i) <? 0 then slot_error
             else if PyObject_IsSubclass rt NULL (item curr_dtypes i) =? 0 then slot_break
             else slot_continue)) as Hslot.
  { unfold match_slot. rewrite Hnull, ptr_eqb_refl.
    assert ((nin ufunc <=? i)%nat = false) as -> by (apply Nat.leb_gt; exact Hin).
    apply ptr_eqb_neq in Hshape, Hnone. rewrite Hshape, Hnone. simpl.
    assert (ptr_eqb NULL (item curr_dtypes i) = false) as ->
      by (apply ptr_eqb_neq; congruence).
    rewrite Habstract. reflexivity. }
  split; [exact Hslot |].
  intros Hfails. simpl. rewrite Hslot.
  assert ((PyObject_IsSubclass rt NULL (item curr_dtypes i) <? 0) = true) as ->
    by (apply Z.ltb_lt; exact Hfails).
  reflexivity.
Qed.

End MatcherFacts.

(** The entry [(Number, Float64, Bool)] against the reduction
    [(NULL, Float64, NULL)], in a runtime where the subclass test fails on
    a null pointer: the lookup over a ufunc with this one loop returns
    [-1].  (In a runtime where it answers [1] the same entry matches.) *)
Lemma C1_null_operand_reaches_subclass_test_witness :
  match_slot (example_runtime (-1) Float64 (fun _ => Float64)) (binary_ufunc [] None)
    [NULL; Float64; NULL] [Number; Float64; Bool] 0
  = (if PyObject_IsSubclass (example_runtime (-1) Float64 (fun _ => Float64)) NULL
          (item [Number; Float64; Bool] 0) <? 0 then slot_error
     else if PyObject_IsSubclass (example_runtime (-1) Float64 (fun _ => Float64)) NULL
               (item [Number; Float64; Bool] 0) =? 0 then slot_break
     else slot_continue)
  /\ (PyObject_IsSubclass (example_runtime (-1) Float64 (fun _ => Float64)) NULL
        (item [Number; Float64; Bool] 0) < 0 ->
      match_from (example_runtime (-1) Float64 (fun _ => Float64)) (binary_ufunc [] None)
        [NULL; Float64; NULL] [Number; Float64; Bool] 3 0 = slot_error).
Proof.
  apply (C1_null_operand_reaches_subclass_test
           (example_runtime (-1) Float64 (fun _ => Float64))
           (binary_ufunc [] None) [NULL; Float64; NULL] [Number; Float64; Bool]
           0%nat 2%nat).
  - reflexivity.
  - simpl. lia.
  - discriminate.
  - discriminate.
  - reflexivity.
  - discriminate.
Defined.

(** The three answers of the subclass test on the null pointer, on the
    same entry and operand DTypes: an error return of the lookup, a
    rejected entry, a matching entry. *)
Lemma null_operand_outcomes :
  resolve_implementation_info (example_runtime (-1) Float64 (fun _ => Float64))
    (binary_ufunc [mkInfo [Number; Float64; Bool] (ArrayMethod 1)] None)
    [NULL; Float64; NULL] false
  = mkResolved (-1) None (Some ErrorFromSubclassCheck)
  /\ resolve_implementation_info (example_runtime 0 Float64 (fun _ => Float64))
       (binary_ufunc [mkInfo [Number; Float64; Bool] (ArrayMethod 1)] None)
       [NULL; Float64; NULL] false
     = mkResolved 0 None None
  /\ resolve_implementation_info (example_runtime 1 Float64 (fun _ => Float64))
       (binary_ufunc [mkInfo [Number; Float64; Bool] (ArrayMethod 1)] None)
       [NULL; Float64; NULL] false
     = mkResolved 0 (Some (mkInfo [Number; Float64; Bool] (ArrayMethod 1))) None.
Proof. repeat split; reflexivity. Qed.

(** ** Comparing two abstract DTypes (C9) *)

Section CompareFacts.
Context (rt : Runtime).

(** Two different abstract DTypes at a slot whose operand DType is given:
    the last branch of the chain. *)
Lemma compare_slot_two_abstract op_dtype prev_dtype new_dtype :
  op_dtype <> NULL ->
  prev_dtype <> new_dtype ->
  prev_dtype <> Py_None ->
  new_dtype <> Py_None ->
  NPY_DT_is_abstract rt prev_dtype = true ->
  NPY_DT_is_abstract rt new_dtype = true ->
  compare_slot rt op_dtype prev_dtype new_dtype = vote_not_implemented.
Proof.
  intros Hop Hdiff Hprev Hnew Haprev Hanew. unfold compare_slot.
  apply ptr_eqb_neq in Hop, Hdiff, Hprev, Hnew.
  rewrite Hop, Hdiff, Hprev, Hnew, Haprev, Hanew. reflexivity.
Qed.

Lemma compare_from_reaches_not_implemented ufunc op_dtypes best_dtypes curr_dtypes k :
  compare_slot rt (item op_dtypes k) (item best_dtypes k) (item curr_dtypes k)
    = vote_not_implemented ->
  forall n i current_best,
    compare_reaches rt ufunc op_dtypes best_dtypes curr_dtypes n i current_best k = true ->
    compare_from rt ufunc op_dtypes best_dtypes curr_dtypes n i current_best = None.
Proof.
  intros Hslot. induction n as [| n IH]; intros i current_best Hreach.
  - discriminate.
  - simpl in Hreach |- *.
    destruct ((i =? nin ufunc)%nat && negb (current_best =? -1)); [discriminate |].
    destruct (i =? k)%nat eqn:Hik.
    + apply Nat.eqb_eq in Hik. subst i. rewrite Hslot. reflexivity.
    + destruct (compare_slot rt (item op_dtypes i) (item best_dtypes i) (item curr_dtypes i))
        as [| best |]; [now apply IH | | reflexivity].
      destruct (best =? -1); [now apply IH |].
      destruct (negb (current_best =? -1) && negb (current_best =? best));
        [discriminate | now apply IH].
Qed.

(** Scanning a list of loops in two parts. *)
Lemma scan_loops_app ufunc op_dtypes only_promoters pre rest best :
  scan_loops rt ufunc op_dtypes only_promoters (pre ++ rest) best =
  match scan_loops rt ufunc op_dtypes only_promoters pre best with
  | scan_finished best' => scan_loops rt ufunc op_dtypes only_promoters rest best'
  | other => other
  end.
Proof.
  revert best. induction pre as [| e pre IH]; intros best; simpl; [reflexivity |].
  destruct (only_promoters && is_ArrayMethod e); [apply IH |].
  destruct (entry_matches rt ufunc op_dtypes (info_dtypes e)); [| apply IH | reflexivity].
  destruct best as [best_info |]; [| apply IH].
  destruct (compare_entries rt ufunc op_dtypes (info_dtypes best_info) (info_dtypes e))
    as [current_best |]; [| reflexivity].
  destruct (current_best =? -1); [reflexivity |].
  destruct (current_best =? 0); apply IH.
Qed.

(** An error of the scan is the [return -1] of the function, in the first
    lookup as in the promoters-only retry. *)
Lemma resolve_body_scan_error retry ufunc op_dtypes only_promoters exc :
  scan_loops rt ufunc op_dtypes only_promoters (_loops ufunc) None = scan_error exc ->
  resolve_implementation_info_body rt retry ufunc op_dtypes only_promoters
    = mkResolved (-1) None (Some exc).
Proof. intros H. unfold resolve_implementation_info_body. rewrite H. reflexivity. Qed.

(** C9.  Whenever the comparison of the running best loop [best_info] with
    a newly matching loop [resolver_info] comes to a slot [k] whose operand
    DType is given and whose two registered DTypes are different abstract
    DTypes, the lookup stops at once with the NotImplementedError
    ("deciding which one of two abstract dtypes is a better match is not
    yet implemented") and a negative return, and the driver returns NULL
    with that error set: no loop is chosen. *)
Theorem C9_two_abstract_slots_raise :
  forall (ufunc : PyUFuncObject) (op_dtypes : list PyPtr) (only_promoters : bool)
         (pre rest : list Info) (best_info resolver_info : Info) (k : nat)
         (retry : unit -> resolved) (depth : nat) (st : State) (allow_legacy_promotion : bool),
    _loops ufunc = pre ++ resolver_info :: rest ->
    scan_loops rt ufunc op_dtypes only_promoters pre None = scan_finished (Some best_info) ->
    only_promoters && is_ArrayMethod resolver_info = false ->
    entry_matches rt ufunc op_dtypes (info_dtypes resolver_info) = slot_continue ->
    compare_reaches rt ufunc op_dtypes (info_dtypes best_info) (info_dtypes resolver_info)
      (nargs ufunc) 0 (-1) k = true ->
    item op_dtypes k <> NULL ->
    item (info_dtypes best_info) k <> item (info_dtypes resolver_info) k ->
    item (info_dtypes best_info) k <> Py_None ->
    item (info_dtypes resolver_info) k <> Py_None ->
    NPY_DT_is_abstract rt (item (info_dtypes best_info) k) = true ->
    NPY_DT_is_abstract rt (item (info_dtypes resolver_info) k) = true ->
    resolve_implementation_info_body rt retry ufunc op_dtypes only_promoters
      = mkResolved (-1) None (Some NotImplementedError_two_abstract)
    /\ (only_promoters = false ->
        _dispatch_cache st !! op_dtypes = None ->
        promote_and_get_info_and_ufuncimpl rt depth ufunc st op_dtypes allow_legacy_promotion
          = Returns None (PyErr_Set NotImplementedError_two_abstract st)).
Proof.
  intros ufunc op_dtypes only_promoters pre rest best_info resolver_info k retry depth st
    allow Hloops Hpre Hkept Hmatch Hreach Hop Hdiff Hprev Hnew Haprev Hanew.
  assert (scan_loops rt ufunc op_dtypes only_promoters (_loops ufunc) None
          = scan_error NotImplementedError_two_abstract) as Hscan.
  { rewrite Hloops, scan_loops_app, Hpre. simpl. rewrite Hkept, Hmatch.
    unfold compare_entries.
    rewrite (compare_from_reaches_not_implemented ufunc op_dtypes _ _ k); [reflexivity | | exact Hreach].
    now apply compare_slot_two_abstract. }
  split.
  - now apply resolve_body_scan_error.
  - intros -> Hmiss.
    unfold promote_and_get_info_and_ufuncimpl, promote_body, PyArrayIdentityHash_GetItem.
    rewrite Hmiss. unfold resolve_implementation_info.
    rewrite (resolve_body_scan_error _ _ _ _ _ Hscan). reflexivity.
Qed.

End CompareFacts.

Lemma C9_two_abstract_slots_raise_witness :
  resolve_implementation_info_body (example_runtime 0 Float64 (fun _ => Float64))
    (fun _ => mkResolved 0 None None) (binary_ufunc two_abstract_loops None)
    [Float64; Float64; NULL] false
    = mkResolved (-1) None (Some NotImplementedError_two_abstract)
  /\ (false = false ->
      _dispatch_cache (empty_state [NULL; NULL; NULL]) !! [Float64; Float64; NULL] = None ->
      promote_and_get_info_and_ufuncimpl (example_runtime 0 Float64 (fun _ => Float64))
        5 (binary_ufunc two_abstract_loops None) (empty_state [NULL; NULL; NULL])
        [Float64; Float64; NULL] true
      = Returns None (PyErr_Set NotImplementedError_two_abstract
                        (empty_state [NULL; NULL; NULL]))).
Proof.
  apply (C9_two_abstract_slots_raise (example_runtime 0 Float64 (fun _ => Float64))
           (binary_ufunc two_abstract_loops None) [Float64; Float64; NULL] false
           [mkInfo [Number; Py_None; Py_None] (PromoterCapsule default_ufunc_promoter_ptr)]
           []
           (mkInfo [Number; Py_None; Py_None] (PromoterCapsule default_ufunc_promoter_ptr))
           (mkInfo [Inexact; Py_None; Py_None] (PromoterCapsule object_only_ufunc_promoter_ptr))
           0%nat (fun _ => mkResolved 0 None None) 5%nat (empty_state [NULL; NULL; NULL]) true);
    try reflexivity; discriminate.
Defined.

(** ** The default promoter (C3) *)

(** A loop that stores [g i] at every index of its range. *)
Lemma foldl_store_lookup (g : nat -> PyPtr) (m : nat) :
  forall (lo : nat) (arr : list cell) (j : nat),
    foldl (fun a i => store i (g i) a) arr (seq lo m) !! j =
    if decide ((lo <= j < lo + m)%nat /\ (j < length arr)%nat)
    then Some (Written (g j)) else arr !! j.
Proof.
  induction m as [| m IH]; intros lo arr j; simpl.
  - case_decide as H; [lia | reflexivity].
  - rewrite IH. unfold store. rewrite length_insert.
    destruct (decide (j = lo)) as [-> | Hne].
    + case_decide as H1; [lia |].
      case_decide as H2.
      * rewrite list_lookup_insert_eq by lia. reflexivity.
      * rewrite list_insert_ge by lia. reflexivity.
    + rewrite list_lookup_insert_ne by congruence.
      case_decide as H1; case_decide as H2; try reflexivity; lia.
Qed.

Lemma for_range_store_lookup (g : nat -> PyPtr) (lo hi : nat) (arr : list cell) (j : nat) :
  for_range lo hi (fun i a => store i (g i) a) arr !! j =
  if decide ((lo <= j < hi)%nat /\ (j < length arr)%nat)
  then Some (Written (g j)) else arr !! j.
Proof.
  unfold for_range. rewrite foldl_store_lookup.
  case_decide as H1; case_decide as H2; try reflexivity; lia.
Qed.

Lemma for_range_store_length (g : nat -> PyPtr) (lo hi : nat) (arr : list cell) :
  length (for_range lo hi (fun i a => store i (g i) a) arr) = length arr.
Proof.
  unfold for_range. generalize (seq lo (hi - lo)) as l. intros l. revert arr.
  induction l as [| i l IH]; intros arr; simpl; [reflexivity |].
  rewrite IH. unfold store. apply length_insert.
Qed.

Section DefaultPromoterFacts.
Context (rt : Runtime).

(** C3 (amended).  When the default promoter computes a common DType (its
    first operand DType is not null and it returns [0]), every input slot
    ([i < nin]) of the tuple it returns holds the signature's DType where
    the signature fixes the slot and the common DType where it does not,
    and every output slot ([nin <= i < nargs]) holds the operand DType
    that was passed in for that slot, whether or not the signature fixes
    it: outputs do not adopt the common DType. *)
Theorem C3_default_promoter_slots :
  forall (ufunc : PyUFuncObject) (op_dtypes signature : list PyPtr)
         (new_op_dtypes result : list cell),
    length new_op_dtypes = nargs ufunc ->
    item op_dtypes 0 <> NULL ->
    default_ufunc_promoter rt ufunc op_dtypes signature new_op_dtypes = PromoterOk result ->
    exists common : PyPtr,
      default_common rt ufunc op_dtypes signature = inl common
      /\ forall i : nat, (i < nargs ufunc)%nat ->
           result !! i =
           Some (Written
                   (if (i <? nin ufunc)%nat then
                      if ptr_eqb (item signature i) NULL then common else item signature i
                    else item op_dtypes i)).
Proof.
  intros ufunc op_dtypes signature new_op_dtypes result Hlen Hfirst Hcall.
  unfold default_ufunc_promoter in Hcall.
  destruct (bool_decide _ && _ && _ && _ && _); [discriminate |].
  apply ptr_eqb_neq in Hfirst. rewrite Hfirst in Hcall.
  destruct (default_common rt ufunc op_dtypes signature) as [common | [exc |]];
    [| discriminate | discriminate].
  exists common. split; [reflexivity |].
  intros i Hi. injection Hcall as <-.
  rewrite (for_range_store_lookup (fun i => item op_dtypes i)).
  rewrite (for_range_store_length
             (fun i => if negb (ptr_eqb (item signature i) NULL)
                       then item signature i else common)).
  rewrite (for_range_store_lookup
             (fun i => if negb (ptr_eqb (item signature i) NULL)
                       then item signature i else common)).
  destruct (i <? nin ufunc)%nat eqn:Hin.
  - apply Nat.ltb_lt in Hin.
    case_decide as H1; [lia |]. case_decide as H2; [| lia].
    destruct (ptr_eqb (item signature i) NULL); reflexivity.
  - apply Nat.ltb_ge in Hin.
    case_decide as H1; [reflexivity | lia].
Qed.

End DefaultPromoterFacts.

Lemma C3_default_promoter_slots_witness :
  exists common : PyPtr,
    default_common (example_runtime 0 Float64 (fun _ => Float64)) (binary_ufunc [] None)
      [Int32; Float64; NULL] [NULL; NULL; NULL] = inl common
    /\ forall i : nat, (i < nargs (binary_ufunc [] None))%nat ->
         [Written Float64; Written Float64; Written NULL] !! i =
         Some (Written
                 (if (i <? nin (binary_ufunc [] None))%nat then
                    if ptr_eqb (item [NULL; NULL; NULL] i) NULL then common
                    else item [NULL; NULL; NULL] i
                  else item [Int32; Float64; NULL] i)).
Proof.
  apply (C3_default_promoter_slots (example_runtime 0 Float64 (fun _ => Float64))
           (binary_ufunc [] None) [Int32; Float64; NULL] [NULL; NULL; NULL]
           (replicate 3 Uninit) [Written Float64; Written Float64; Written NULL]).
  - reflexivity.
  - discriminate.
  - reflexivity.
Defined.

(** C3 as stated fails on [np.add]-like input [(Int32, Float64)] with
    nothing fixed by the signature: the common DType is [Float64] and the
    output slot, which the signature does not fix, does not adopt it; the
    promoter's last loop copies the (null) operand DType of the output. *)
Lemma C3_counterexample :
  default_ufunc_promoter (example_runtime 0 Float64 (fun _ => Float64)) (binary_ufunc [] None)
    [Int32; Float64; NULL] [NULL; NULL; NULL] (replicate 3 Uninit)
  = PromoterOk [Written Float64; Written Float64; Written NULL]
  /\ default_common (example_runtime 0 Float64 (fun _ => Float64)) (binary_ufunc [] None)
       [Int32; Float64; NULL] [NULL; NULL; NULL] = inl Float64
  /\ item [NULL; NULL; NULL] 2 = NULL.
Proof. repeat split; reflexivity. Qed.

(** ** Calling a promoter (C8, C10) *)


(** The cells [object_only_ufunc_promoter] leaves: the object DType where
    the signature is null, and what was there before everywhere else. *)
Lemma foldl_object_only_lookup (object : PyPtr) (signature : list PyPtr) (m : nat) :
  forall (lo : nat) (arr : list cell) (j : nat),
    foldl (fun a i => if ptr_eqb (item signature i) NULL then store i object a else a)
      arr (seq lo m) !! j =
    if decide ((lo <= j < lo + m)%nat /\ (j < length arr)%nat /\ item signature j = NULL)
    then Some (Written object) else arr !! j.
Proof.
  induction m as [| m IH]; intros lo arr j; simpl.
  - case_decide as H; [lia | reflexivity].
  - rewrite IH. destruct (ptr_eqb (item signature lo) NULL) eqn:Hsig.
    + apply ptr_eqb_eq in Hsig. unfold store. rewrite length_insert.
      destruct (decide (j = lo)) as [-> | Hne].
      * case_decide as H1; [lia |].
        case_decide as H2.
        -- rewrite list_lookup_insert_eq by lia. reflexivity.
        -- rewrite list_insert_ge; [reflexivity |].
           destruct (decide (lo < length arr)%nat); [| lia].
           exfalso. apply H2. repeat split; [lia | lia | assumption | assumption].
      * rewrite list_lookup_insert_ne by congruence.
        case_decide as H1; case_decide as H2; try reflexivity;
          exfalso; [apply H2 | apply H1]; destruct H1 || destruct H2; intuition lia.
    + apply ptr_eqb_neq in Hsig.
      case_decide as H1; case_decide as H2; try reflexivity.
      * exfalso. apply H2. intuition lia.
      * exfalso. apply H1. destruct H2 as (Hr & Hl & Hs).
        assert (j <> lo) by congruence. intuition lia.
Qed.

Section PromoterCallFacts.
Context (rt : Runtime).

(** A slot the signature fixes is not written by the object-only
    promoter: the cell of the fresh array stays indeterminate. *)
Lemma object_only_fixed_slot_unwritten ufunc op_dtypes signature j :
  (j < nargs ufunc)%nat ->
  item signature j <> NULL ->
  exists cells,
    object_only_ufunc_promoter rt ufunc op_dtypes signature
      (replicate (nargs ufunc) Uninit) = PromoterOk cells
    /\ cells !! j = Some Uninit.
Proof.
  intros Hj Hfixed. eexists. split; [reflexivity |].
  unfold for_range. rewrite foldl_object_only_lookup.
  case_decide as H; [tauto |].
  apply lookup_replicate. split; [reflexivity | lia].
Qed.

Lemma read_array_uninit cells j :
  cells !! j = Some Uninit -> read_array cells = None.
Proof.
  intros Hj. unfold read_array.
  destruct (mapM cell_value cells) as [ps |] eqn:E; [| reflexivity].
  apply mapM_Some in E.
  destruct (Forall2_lookup_l _ _ _ _ _ E Hj) as (p & _ & Hp). discriminate.
Qed.

(** So the driver, which reads every cell after the call, reads one that
    was never written whenever the signature fixes a slot. *)
Lemma object_only_reads_uninit recurse ufunc op_dtypes st j :
  (j < nargs ufunc)%nat ->
  item (signature st) j <> NULL ->
  call_promoter_and_recurse rt recurse ufunc object_only_ufunc_promoter_ptr op_dtypes st
    = ReadsUninit.
Proof.
  intros Hj Hfixed.
  destruct (object_only_fixed_slot_unwritten ufunc op_dtypes (signature st) j Hj Hfixed)
    as (cells & Hcall & Hcell).
  unfold call_promoter_and_recurse, call_promoter_function. rewrite Hcall.
  rewrite (read_array_uninit _ _ Hcell). reflexivity.
Qed.


(** The continuation a failed lookup takes (cache miss, no loop matched). *)
Lemma promote_body_nothing_found recurse recurse_legacy ufunc st op_dtypes allow :
  _dispatch_cache st !! op_dtypes = None ->
  resolve_implementation_info rt ufunc op_dtypes false = mkResolved 0 None None ->
  promote_body rt recurse recurse_legacy ufunc st op_dtypes allow
  = legacy_fallback rt recurse_legacy ufunc op_dtypes allow st.
Proof.
  intros Hmiss Hres. unfold promote_body, PyArrayIdentityHash_GetItem.
  rewrite Hmiss, Hres. reflexivity.
Qed.

End PromoterCallFacts.


(** C10 (the code departs from the claim).  With the signature
    [(NULL, Float64)] the object-only promoter writes slot 0 and leaves
    slot 1 of [new_op_dtypes] as it found it, indeterminate; the driver
    then reads that cell. *)
Theorem C10_object_only_leaves_cell_unwritten :
  object_only_ufunc_promoter (example_runtime 0 Float64 (fun _ => Float64)) object_ufunc
    [Int32; Float64] [NULL; Float64] (replicate 2 Uninit)
  = PromoterOk [Written Object; Uninit]
  /\ call_promoter_and_recurse (example_runtime 0 Float64 (fun _ => Float64))
       (Some (promote_no_legacy (example_runtime 0 Float64 (fun _ => Float64)) 5 object_ufunc))
       object_ufunc object_only_ufunc_promoter_ptr [Int32; Float64]
       (empty_state [NULL; Float64])
     = ReadsUninit
  /\ promote_and_get_info_and_ufuncimpl (example_runtime 0 Float64 (fun _ => Float64)) 5
       object_ufunc (empty_state [NULL; Float64]) [Int32; Float64] true
     = ReadsUninit.
Proof. repeat split; reflexivity. Qed.

(** ** What a run of the driver does to the state

    A relation [R] between the state at a call and at its return, and a
    property [G] of the info returned, are established for the driver once,
    from what the single state updates do. *)

Section DriverRelation.
Context (rt : Runtime).
Variable R : State -> State -> Prop.
Variable G : option Info -> Prop.
Hypothesis R_refl : forall st, R st st.
Hypothesis R_trans : forall a b c, R a b -> R b c -> R a c.
Hypothesis R_err : forall exc st, R st (PyErr_Set exc st).
Hypothesis R_clear : forall st, R st (PyErr_Clear st).
Hypothesis R_cache : forall key info st, G info -> R st (cache_result key info st).
Hypothesis G_none : G None.
Hypothesis G_method : forall info, is_ArrayMethod info = true -> G (Some info).

Lemma R_err_left exc st : R st (PyErr_Left exc st).
Proof. destruct exc; simpl; [apply R_err | apply R_refl]. Qed.

Lemma call_promoter_rel recurse ufunc promoter op_dtypes st info st' :
  (forall f, recurse = Some f -> recurse_ok R G f) ->
  call_promoter_and_recurse rt recurse ufunc promoter op_dtypes st = Returns info st' ->
  R st st' /\ G info.
Proof.
  intros Hrec. unfold call_promoter_and_recurse.
  destruct (call_promoter_function _ _ _ _ _ _) as [cells | exc |].
  - destruct (read_array cells) as [new_op_dtypes |]; [| discriminate].
    destruct (negb (dtypes_changed _ _ _)).
    + intros [= <- <-]. split; [apply R_refl | apply G_none].
    + destruct recurse as [f |].
      * intros Hcall. exact (Hrec f eq_refl _ _ _ _ Hcall).
      * intros [= <- <-]. split; [apply R_err | apply G_none].
  - intros [= <- <-]. split; [apply R_err_left | apply G_none].
  - intros [= <- <-]. split; [apply R_clear | apply G_none].
Qed.

Lemma legacy_fallback_rel recurse ufunc op_dtypes allow st info st' :
  legacy_fallback rt recurse ufunc op_dtypes allow st = Returns info st' ->
  (st' = st /\ info = None)
  \/ (allow = true /\ through_legacy rt recurse ufunc op_dtypes st info st').
Proof.
  unfold legacy_fallback. destruct allow; simpl.
  - destruct (bool_decide _ || _).
    + intros [= <- <-]. left. split; reflexivity.
    + destruct (legacy_promote_using_legacy_type_resolver rt ufunc st true)
        as [[[new_op_dtypes cacheable] |] b] eqn:Hlegacy.
      * destruct (recurse b new_op_dtypes) as [info' s |] eqn:Hrun; [| discriminate].
        intros [= <- <-]. right. split; [reflexivity |].
        exists (Some (new_op_dtypes, cacheable)), b. split; [exact Hlegacy |].
        right. exists new_op_dtypes, cacheable, s. repeat split; try assumption.
        destruct cacheable; [right | left]; reflexivity.
      * intros [= <- <-]. right. split; [reflexivity |].
        exists None, b. split; [exact Hlegacy |]. left. repeat split.
  - intros [= <- <-]. left. split; reflexivity.
Qed.

Lemma use_promoter_rel recurse recurse_legacy ufunc op_dtypes allow promoter st info st' :
  (forall f, recurse = Some f -> recurse_ok R G f) ->
  use_promoter rt recurse recurse_legacy ufunc op_dtypes allow promoter st
    = Returns info st' ->
  (R st st' /\ G info)
  \/ (allow = true
      /\ exists a, R st a /\ through_legacy rt recurse_legacy ufunc op_dtypes a info st').
Proof.
  intros Hrec. unfold use_promoter.
  destruct (call_promoter_and_recurse _ _ _ _ _ _) as [[found |] s |] eqn:Hcall;
    [| | discriminate].
  - destruct (call_promoter_rel _ _ _ _ _ _ _ Hrec Hcall) as [HR HG].
    intros [= <- <-]. left. split; [| exact HG].
    eapply R_trans; [exact HR | now apply R_cache].
  - destruct (call_promoter_rel _ _ _ _ _ _ _ Hrec Hcall) as [HR HG].
    destruct (PyErr_Occurred s).
    + intros [= <- <-]. left. split; assumption.
    + intros Hfall. apply legacy_fallback_rel in Hfall as [[-> ->] | [Hallow Hthrough]].
      * left. split; assumption.
      * right. split; [exact Hallow |]. exists s. split; assumption.
Qed.

Lemma promote_body_rel recurse recurse_legacy ufunc st op_dtypes allow info st' :
  (forall f, recurse = Some f -> recurse_ok R G f) ->
  promote_body rt recurse recurse_legacy ufunc st op_dtypes allow = Returns info st' ->
  (R st st' /\ G info)
  \/ (allow = true
      /\ exists a, R st a /\ through_legacy rt recurse_legacy ufunc op_dtypes a info st').
Proof.
  intros Hrec. unfold promote_body, PyArrayIdentityHash_GetItem.
  destruct (_dispatch_cache st !! op_dtypes) as [hit |] eqn:Hcache.
  - destruct (info_target hit) as [m | promoter] eqn:Htarget.
    + intros [= <- <-]. left. split; [apply R_refl |].
      apply G_method. unfold is_ArrayMethod. rewrite Htarget. reflexivity.
    + now apply use_promoter_rel.
  - set (r := resolve_implementation_info rt ufunc op_dtypes false).
    assert (R st (PyErr_Left (exc_set r) st)) as Hst1 by apply R_err_left.
    destruct (return_code r <? 0).
    + intros [= <- <-]. left. split; [exact Hst1 | apply G_none].
    + destruct (out_info r) as [found |].
      * destruct (info_target found) as [m | promoter] eqn:Htarget.
        -- intros [= <- <-].
           assert (G (Some found)) as HG.
           { apply G_method. unfold is_ArrayMethod. rewrite Htarget. reflexivity. }
           left. split; [| exact HG].
           eapply R_trans; [exact Hst1 | now apply R_cache].
        -- intros Huse. apply use_promoter_rel in Huse as [[HR HG] | [Hallow (a & HR & Hthrough)]];
             [| | exact Hrec].
           ++ left. split; [eapply R_trans; eassumption | exact HG].
           ++ right. split; [exact Hallow |]. exists a. split; [| exact Hthrough].
              eapply R_trans; eassumption.
      * intros Hfall. apply legacy_fallback_rel in Hfall as [[-> ->] | [Hallow Hthrough]].
        -- left. split; [exact Hst1 | apply G_none].
        -- right. split; [exact Hallow |]. exists (PyErr_Left (exc_set r) st).
           split; assumption.
Qed.

(** With legacy promotion off the state only moves along [R]. *)
Lemma promote_no_legacy_rel depth ufunc : recurse_ok R G (promote_no_legacy rt depth ufunc).
Proof.
  induction depth as [| depth IH]; intros s o info s' Hrun; simpl in Hrun.
  - apply promote_body_rel in Hrun as [Hok | [Habsurd _]];
      [exact Hok | discriminate |].
    intros f [=].
  - apply promote_body_rel in Hrun as [Hok | [Habsurd _]];
      [exact Hok | discriminate |].
    intros f [= <-]. exact IH.
Qed.

(** The driver: along [R], with at most one legacy promotion in between. *)
Lemma promote_and_get_info_rel depth ufunc st op_dtypes allow info st' :
  promote_and_get_info_and_ufuncimpl rt depth ufunc st op_dtypes allow = Returns info st' ->
  G info
  /\ (R st st'
      \/ (allow = true
          /\ exists a r b,
               R st a
               /\ legacy_promote_using_legacy_type_resolver rt ufunc a true = (r, b)
               /\ R b st')).
Proof.
  intros Hrun. unfold promote_and_get_info_and_ufuncimpl in Hrun.
  apply promote_body_rel in Hrun
    as [[HR HG] | [Hallow (a & HR & r & b & Hlegacy & Hcases)]].
  - split; [exact HG | left; exact HR].
  - destruct Hcases as [(-> & -> & ->) | (new_op & cacheable & s & -> & Hrec & Hst')].
    + split; [apply G_none |]. right. split; [exact Hallow |].
      exists a, None, b. repeat split; try assumption. apply R_refl.
    + destruct (promote_no_legacy_rel depth ufunc _ _ _ _ Hrec) as [HRrec HG].
      split; [exact HG |]. right. split; [exact Hallow |].
      exists a, (Some (new_op, cacheable)), b. repeat split; try assumption.
      destruct Hst' as [-> | ->]; [exact HRrec |].
      eapply R_trans; [exact HRrec | now apply R_cache].
  - destruct depth as [| depth]; intros f [=]. subst f.
    apply promote_no_legacy_rel.
Qed.

End DriverRelation.

(** ** What the legacy promotion does to the state *)

Section LegacyFacts.
Context (rt : Runtime).

Lemma legacy_promote_cache ufunc a cacheable r b :
  legacy_promote_using_legacy_type_resolver rt ufunc a cacheable = (r, b) ->
  _dispatch_cache b = _dispatch_cache a.
Proof.
  unfold legacy_promote_using_legacy_type_resolver.
  destruct (_make_new_typetup rt (nargs ufunc) (signature a)) as [type_tuple |];
    [| intros [= <- <-]; reflexivity].
  destruct (type_resolver ufunc) as [resolver |]; [| intros [= <- <-]; reflexivity].
  destruct (call_type_resolver rt resolver type_tuple); intros [= <- <-]; reflexivity.
Qed.

(** One call of the function makes at most one call of the resolver. *)
Lemma legacy_promote_calls ufunc a cacheable r b :
  legacy_promote_using_legacy_type_resolver rt ufunc a cacheable = (r, b) ->
  exists calls, type_resolver_calls b = type_resolver_calls a ++ calls
                /\ (length calls <= 1)%nat.
Proof.
  unfold legacy_promote_using_legacy_type_resolver.
  destruct (_make_new_typetup rt (nargs ufunc) (signature a)) as [type_tuple |].
  - destruct (type_resolver ufunc) as [resolver |].
    + destruct (call_type_resolver rt resolver type_tuple); intros [= <- <-];
        exists [type_tuple]; split; (reflexivity || (simpl; lia)).
    + intros [= <- <-]. exists []. split; [simpl; now rewrite app_nil_r | simpl; lia].
  - intros [= <- <-]. exists []. split; [simpl; now rewrite app_nil_r | simpl; lia].
Qed.

End LegacyFacts.

(** ** How often the legacy resolver runs (C7) *)

Lemma calls_grow_same n a b :
  type_resolver_calls b = type_resolver_calls a -> calls_grow n a b.
Proof. intros H. exists []. split; [now rewrite app_nil_r | simpl; lia]. Qed.

Lemma calls_grow_trans n m a b c :
  calls_grow n a b -> calls_grow m b c -> calls_grow (n + m) a c.
Proof.
  intros (calls1 & H1 & L1) (calls2 & H2 & L2). exists (calls1 ++ calls2). split.
  - rewrite H2, H1. now rewrite app_assoc.
  - rewrite length_app. lia.
Qed.

Lemma calls_grow_le n m a b : (n <= m)%nat -> calls_grow n a b -> calls_grow m a b.
Proof. intros Hle (calls & H & L). exists calls. split; [exact H | lia]. Qed.

Section LegacyOnce.
Context (rt : Runtime).

(** One call of the driver, whatever the recursion depth through
    promoters: at most one call of the resolver, none when legacy
    promotion is not allowed. *)
Lemma driver_resolver_calls depth ufunc st op_dtypes allow info st' :
  promote_and_get_info_and_ufuncimpl rt depth ufunc st op_dtypes allow = Returns info st' ->
  calls_grow (if allow then 1 else 0) st st'.
Proof.
  intros Hrun.
  apply (promote_and_get_info_rel rt
           (fun a b => type_resolver_calls b = type_resolver_calls a)
           (fun _ => True)) in Hrun; try (intros; reflexivity || exact I).
  - destruct Hrun as [_ [Hsame | [-> (a & r & b & Ha & Hlegacy & Hb)]]].
    + now apply calls_grow_same.
    + destruct (legacy_promote_calls rt _ _ _ _ _ Hlegacy) as (calls & Hcalls & Hlen).
      exists calls. split; [| exact Hlen]. congruence.
  - intros a b c Hab Hbc. congruence.
Qed.

(** One resolution of the entry point, the re-run making at most [k]
    calls. *)
Lemma body_resolver_calls rerun depth ufunc st op_dtypes force allow ensure k
    method st' op_dtypes' :
  (forall s o m s' o', rerun s o = TopReturns m s' o' -> calls_grow k s s') ->
  promote_and_get_ufuncimpl_body rt rerun depth ufunc st op_dtypes force allow ensure
    = TopReturns method st' op_dtypes' ->
  calls_grow ((if force then 1 else 0) + (if allow then 1 else 0)
              + (if ensure then k else 0)) st st'.
Proof.
  intros Hrerun. unfold promote_and_get_ufuncimpl_body.
  destruct (initial_op_dtypes rt ufunc st op_dtypes force) as [o s] eqn:Hinit.
  assert (calls_grow (if force then 1 else 0) st s) as Hs.
  { unfold initial_op_dtypes in Hinit. destruct force.
    - destruct (legacy_promote_using_legacy_type_resolver rt ufunc st true)
        as [[[ops c] |] b] eqn:Hlegacy; injection Hinit as <- <-;
        exact (legacy_promote_calls rt _ _ _ _ _ Hlegacy).
    - injection Hinit as <- <-. now apply calls_grow_same. }
  destruct o as [ops |].
  - destruct (promote_and_get_info_and_ufuncimpl rt depth ufunc s ops allow)
      as [[info |] s'' |] eqn:Hrun; [| | discriminate].
    + apply driver_resolver_calls in Hrun.
      pose proof (calls_grow_trans _ _ _ _ _ Hs Hrun) as Hs''.
      destruct (ensure && ptr_eqb (item (signature s'') 0) NULL && _) eqn:Hcond.
      * intros Hret. apply Hrerun in Hret.
        assert (ensure = true) as ->.
        { destruct ensure; [reflexivity | discriminate]. }
        eapply calls_grow_trans; [exact Hs'' |].
        destruct Hret as (calls & H & L). exists calls. split; assumption.
      * intros [= <- <- <-]. eapply calls_grow_le; [| eapply calls_grow_trans;
          [exact Hs'' | apply (calls_grow_same 0); reflexivity]]. lia.
    + apply driver_resolver_calls in Hrun.
      intros [= <- <- <-].
      eapply calls_grow_le; [| eapply calls_grow_trans;
        [exact (calls_grow_trans _ _ _ _ _ Hs Hrun) | apply (calls_grow_same 0)]].
      * lia.
      * destruct (PyErr_Occurred s''); reflexivity.
  - intros [= <- <- <-]. eapply calls_grow_le; [| exact Hs]. lia.
Qed.

(** C7 (amended).  Within one call of the driver
    [promote_and_get_info_and_ufuncimpl], whatever the recursion depth
    through promoters, the legacy type resolver is called at most once,
    and not at all when legacy promotion is not allowed (both recursive
    calls of the driver pass [NPY_FALSE] for [allow_legacy_promotion]).
    One call of the entry point [promote_and_get_ufuncimpl] is not held
    to one call of the resolver: each of its resolutions calls it once up
    front under [force_legacy_promotion] and at most once more in the
    driver's fallback, and the re-run for reductions is a second
    resolution with the same two flags.  The calls made by the time the
    entry point returns are those made before, followed by at most
    [(force + allow)] more, twice that with [ensure_reduce_compatible].
    (Under [force_legacy_promotion] the source calls the resolver without
    testing the pointer, so the ufunc is taken to have one.) *)
Theorem C7_legacy_resolver_calls_bounded :
  forall (depth : nat) (ufunc : PyUFuncObject) (st : State) (op_dtypes : list PyPtr)
         (force_legacy_promotion allow_legacy_promotion ensure_reduce_compatible : bool),
    (force_legacy_promotion = true -> type_resolver ufunc <> None) ->
    match promote_and_get_info_and_ufuncimpl rt depth ufunc st op_dtypes
            allow_legacy_promotion with
    | Returns _ st' => calls_grow (if allow_legacy_promotion then 1 else 0) st st'
    | ReadsUninit => True
    end
    /\ match promote_and_get_ufuncimpl rt depth ufunc st op_dtypes
               force_legacy_promotion allow_legacy_promotion ensure_reduce_compatible with
       | TopReturns _ st' _ =>
           calls_grow
             (resolver_calls_bound force_legacy_promotion allow_legacy_promotion
                ensure_reduce_compatible) st st'
       | TopReadsUninit => True
       end.
Proof.
  intros depth ufunc st op_dtypes force allow ensure _. split.
  - destruct (promote_and_get_info_and_ufuncimpl rt depth ufunc st op_dtypes allow)
      as [info st' |] eqn:Hrun; [| exact I].
    exact (driver_resolver_calls _ _ _ _ _ _ _ Hrun).
  - destruct (promote_and_get_ufuncimpl rt depth ufunc st op_dtypes force allow ensure)
      as [method st' ops' |] eqn:Hrun; [| exact I].
    unfold promote_and_get_ufuncimpl in Hrun.
    apply (body_resolver_calls _ _ _ _ _ _ _ _
             ((if force then 1 else 0) + (if allow then 1 else 0))) in Hrun.
    + eapply calls_grow_le; [| exact Hrun].
      unfold resolver_calls_bound. destruct ensure; lia.
    + intros s o m s' o' Hinner.
      apply (body_resolver_calls _ _ _ _ _ _ _ _ 0%nat) in Hinner.
      * eapply calls_grow_le; [| exact Hinner]. lia.
      * intros s1 o1 m1 s1' o1' [= _ <- _]. now apply calls_grow_same.
Qed.

End LegacyOnce.

Lemma C7_legacy_resolver_calls_bounded_witness :
  calls_grow 1 (empty_state [NULL; NULL; NULL]) (outcome_state (empty_state []) follow_first)
  /\ calls_grow 4 (empty_state [NULL; NULL; NULL])
       (top_state (empty_state [])
          (promote_and_get_ufuncimpl follow_runtime 5 follow_ufunc
             (empty_state [NULL; NULL; NULL]) [NULL; Timedelta; NULL] true true true)).
Proof.
  exact (C7_legacy_resolver_calls_bounded follow_runtime 5 follow_ufunc
           (empty_state [NULL; NULL; NULL]) [NULL; Timedelta; NULL] true true true
           (fun _ => ltac:(discriminate))).
Defined.

(** C7 as stated fails at the entry point.  With value-based promotion
    forced and the legacy fallback allowed, a ufunc without a matching
    loop has its resolver called twice in one resolution, up front and
    again in the driver's fallback.  And the reduction of time spans with
    [follow_ufunc] succeeds after two calls, one in the fallback of each
    of its two resolutions. *)
Lemma C7_counterexample :
  top_method forced_run = None
  /\ type_resolver_calls (top_state (empty_state []) forced_run) = [None; None]
  /\ top_method follow_reduce_run = Some (ArrayMethod 4)
  /\ type_resolver_calls (top_state (empty_state []) follow_reduce_run)
     = [None; Some [Float64; Py_None; Py_None]].
Proof. repeat split; vm_compute; reflexivity. Qed.

(** ** What the dispatch cache holds (C4, C6) *)

Section CacheFacts.
Context (rt : Runtime).

Lemma cache_result_only_methods key info st :
  (forall i, info = Some i -> is_ArrayMethod i = true) ->
  cache_only_methods st -> cache_only_methods (cache_result key info st).
Proof.
  intros Hinfo Hst. unfold cache_only_methods, cache_result. simpl.
  destruct info as [i |]; simpl.
  - apply map_Forall_insert_2; [now apply Hinfo | exact Hst].
  - now apply map_Forall_delete.
Qed.

(** A cache hit on a promoter entry, should the cache hold one, goes
    straight to the promoter call: the lookup over the loops is not run. *)
Lemma promote_body_promoter_hit recurse recurse_legacy ufunc st op_dtypes allow hit promoter :
  _dispatch_cache st !! op_dtypes = Some hit ->
  info_target hit = PromoterCapsule promoter ->
  promote_body rt recurse recurse_legacy ufunc st op_dtypes allow
  = use_promoter rt recurse recurse_legacy ufunc op_dtypes allow promoter st.
Proof.
  intros Hhit Htarget. unfold promote_body, PyArrayIdentityHash_GetItem.
  rewrite Hhit, Htarget. reflexivity.
Qed.

(** C4 (amended).  The dispatch cache holds ArrayMethod entries only:
    every info the driver writes into it, and every info it returns, has
    an ArrayMethod as its target, so a cache without promoter entries at
    the call has none at the return.  (The driver is written to take a
    cache hit on a promoter entry, [promote_body_promoter_hit], but no
    resolution puts one there.) *)
Theorem C4_cache_holds_only_array_methods :
  forall (depth : nat) (ufunc : PyUFuncObject) (st : State) (op_dtypes : list PyPtr)
         (allow_legacy_promotion : bool) (info : option Info) (st' : State),
    cache_only_methods st ->
    promote_and_get_info_and_ufuncimpl rt depth ufunc st op_dtypes allow_legacy_promotion
      = Returns info st' ->
    cache_only_methods st'
    /\ forall found, info = Some found -> is_ArrayMethod found = true.
Proof.
  intros depth ufunc st op_dtypes allow info st' Hst Hrun.
  apply (promote_and_get_info_rel rt
           (fun a b => cache_only_methods a -> cache_only_methods b)
           (fun info => forall found, info = Some found -> is_ArrayMethod found = true))
    in Hrun.
  - destruct Hrun as [HG [HR | (_ & a & r & b & Ha & Hlegacy & Hb)]].
    + split; [now apply HR | exact HG].
    + split; [| exact HG]. apply Hb.
      unfold cache_only_methods. rewrite (legacy_promote_cache rt _ _ _ _ _ Hlegacy).
      now apply Ha.
  - intros s Hs. exact Hs.
  - intros a b c Hab Hbc Ha. apply Hbc, Hab, Ha.
  - intros exc s Hs. exact Hs.
  - intros s Hs. exact Hs.
  - intros key i s Hi Hs. now apply cache_result_only_methods.
  - intros found [=].
  - intros i Hi found [= <-]. exact Hi.
Qed.

Lemma promote_body_selects recurse recurse_legacy ufunc st op_dtypes allow promoter st1 :
  selects_promoter rt ufunc st op_dtypes promoter st1 ->
  promote_body rt recurse recurse_legacy ufunc st op_dtypes allow
  = use_promoter rt recurse recurse_legacy ufunc op_dtypes allow promoter st1.
Proof.
  intros [(hit & Hhit & Htarget & ->) | (found & Hmiss & Hrc & Hout & Htarget & ->)].
  - now apply (promote_body_promoter_hit _ _ _ _ _ _ hit).
  - unfold promote_body, PyArrayIdentityHash_GetItem.
    rewrite Hmiss. cbv zeta. rewrite Hrc, Hout, Htarget. reflexivity.
Qed.

Lemma dtypes_changed_neq nargs new_op_dtypes op_dtypes :
  dtypes_changed nargs new_op_dtypes op_dtypes = true -> new_op_dtypes <> op_dtypes.
Proof.
  intros Hchanged ->. unfold dtypes_changed in Hchanged.
  apply existsb_exists in Hchanged as (i & _ & Hi).
  rewrite ptr_eqb_refl in Hi. discriminate.
Qed.

(** C6.  When the driver calls a promoter for [op_dtypes], the promoter
    rewrites them to [new_op_dtypes] and the recursive resolution of
    [new_op_dtypes] finds [info], the driver returns [info] and writes it
    into the cache under [op_dtypes], the DTypes as they were before the
    promoter: that is the only key whose entry this level changes, so what
    the cache holds under [new_op_dtypes] (a different key) is what the
    recursive call left there. *)
Theorem C6_cached_under_original_types :
  forall (depth : nat) (ufunc : PyUFuncObject) (st st1 st2 : State)
         (op_dtypes new_op_dtypes : list PyPtr) (cells : list cell)
         (promoter : promoter_function) (info : Info) (allow_legacy_promotion : bool),
    selects_promoter rt ufunc st op_dtypes promoter st1 ->
    call_promoter_function rt promoter ufunc op_dtypes (signature st1)
      (replicate (nargs ufunc) Uninit) = PromoterOk cells ->
    read_array cells = Some new_op_dtypes ->
    dtypes_changed (nargs ufunc) new_op_dtypes op_dtypes = true ->
    promote_no_legacy rt depth ufunc st1 new_op_dtypes = Returns (Some info) st2 ->
    exists st3,
      promote_and_get_info_and_ufuncimpl rt (S depth) ufunc st op_dtypes
        allow_legacy_promotion = Returns (Some info) st3
      /\ _dispatch_cache st3 !! op_dtypes = Some info
      /\ (forall key, key <> op_dtypes ->
            _dispatch_cache st3 !! key = _dispatch_cache st2 !! key)
      /\ new_op_dtypes <> op_dtypes.
Proof.
  intros depth ufunc st st1 st2 op_dtypes new_op_dtypes cells promoter info allow
    Hselect Hcall Hread Hchanged Hrec.
  exists (cache_result op_dtypes (Some info) st2).
  split; [| split; [| split]].
  - unfold promote_and_get_info_and_ufuncimpl.
    rewrite (promote_body_selects _ _ _ _ _ _ _ _ Hselect).
    unfold use_promoter, call_promoter_and_recurse.
    rewrite Hcall, Hread, Hchanged. simpl. rewrite Hrec. reflexivity.
  - simpl. apply lookup_insert_eq.
  - intros key Hkey. simpl. apply lookup_insert_ne. congruence.
  - eapply dtypes_changed_neq. exact Hchanged.
Qed.

End CacheFacts.

Lemma C4_cache_holds_only_array_methods_witness :
  cache_only_methods (outcome_state (empty_state []) add_mixed_run)
  /\ forall found, outcome_info add_mixed_run = Some found -> is_ArrayMethod found = true.
Proof.
  apply (C4_cache_holds_only_array_methods (example_runtime 0 Float64 (fun _ => Float64)) 5
           add_ufunc (empty_state [NULL; NULL; NULL]) [Int32; Float64; NULL] true
           (outcome_info add_mixed_run) (outcome_state (empty_state []) add_mixed_run)).
  - apply map_Forall_empty.
  - reflexivity.
Defined.

(** C4 as stated fails on this run: the resolution went through the
    default promoter, and afterwards the cache holds two entries, the
    [Float64] ArrayMethod under the original and under the promoted
    DTypes, and no promoter entry. *)
Lemma C4_counterexample :
  outcome_info add_mixed_run
    = Some (mkInfo [Float64; Float64; Float64] (ArrayMethod 2))
  /\ _dispatch_cache (outcome_state (empty_state []) add_mixed_run)
       !! [Int32; Float64; NULL]
     = Some (mkInfo [Float64; Float64; Float64] (ArrayMethod 2))
  /\ _dispatch_cache (outcome_state (empty_state []) add_mixed_run)
       !! [Float64; Float64; NULL]
     = Some (mkInfo [Float64; Float64; Float64] (ArrayMethod 2))
  /\ size (_dispatch_cache (outcome_state (empty_state []) add_mixed_run)) = 2%nat.
Proof. repeat split; vm_compute; reflexivity. Qed.

Lemma C6_cached_under_original_types_witness :
  exists st3,
    promote_and_get_info_and_ufuncimpl (example_runtime 0 Float64 (fun _ => Float64)) 5
      add_ufunc (empty_state [NULL; NULL; NULL]) [Int32; Float64; NULL] true
    = Returns (Some (mkInfo [Float64; Float64; Float64] (ArrayMethod 2))) st3
    /\ _dispatch_cache st3 !! [Int32; Float64; NULL]
       = Some (mkInfo [Float64; Float64; Float64] (ArrayMethod 2))
    /\ (forall key, key <> [Int32; Float64; NULL] ->
          _dispatch_cache st3 !! key
          = _dispatch_cache
              (outcome_state (empty_state [])
                 (promote_no_legacy (example_runtime 0 Float64 (fun _ => Float64)) 4
                    add_ufunc (empty_state [NULL; NULL; NULL]) [Float64; Float64; NULL]))
              !! key)
    /\ [Float64; Float64; NULL] <> [Int32; Float64; NULL].
Proof.
  apply (C6_cached_under_original_types (example_runtime 0 Float64 (fun _ => Float64)) 4
           add_ufunc (empty_state [NULL; NULL; NULL]) (empty_state [NULL; NULL; NULL])
           _ [Int32; Float64; NULL] [Float64; Float64; NULL]
           [Written Float64; Written Float64; Written NULL]
           default_ufunc_promoter_ptr).
  - right. exists (mkInfo [Py_None; Py_None; Py_None] (PromoterCapsule default_ufunc_promoter_ptr)).
    repeat split; reflexivity.
  - reflexivity.
  - reflexivity.
  - reflexivity.
  - reflexivity.
Defined.

(** ** Two promoters that match equally well (C2) *)

(** C2 (the code departs from the claim).  For [(Int32, Float64, NULL)]
    the two promoters match with no clear best, also in the
    promoters-only retry.  The lookup sets the RuntimeError naming the
    given DTypes and both tuples, but returns [0], its code for success
    with nothing found.  With legacy promotion off the driver returns NULL
    and the error reaches the caller; with legacy promotion allowed the
    driver goes on to the legacy resolver with the error still set and
    returns the [Float64] loop, which it also caches for the query, and
    the entry point returns that method. *)
Theorem C2_tie_then_legacy_returns_a_loop :
  resolve_implementation_info (example_runtime 0 Float64 (fun _ => Float64)) tied_ufunc
    [Int32; Float64; NULL] false
  = mkResolved 0 None (Some tied_error)
  /\ promote_and_get_info_and_ufuncimpl (example_runtime 0 Float64 (fun _ => Float64)) 5
       tied_ufunc (empty_state [NULL; NULL; NULL]) [Int32; Float64; NULL] false
     = Returns None (PyErr_Set tied_error (empty_state [NULL; NULL; NULL]))
  /\ outcome_info
       (promote_and_get_info_and_ufuncimpl (example_runtime 0 Float64 (fun _ => Float64)) 5
          tied_ufunc (empty_state [NULL; NULL; NULL]) [Int32; Float64; NULL] true)
     = Some (mkInfo [Float64; Float64; Float64] (ArrayMethod 7))
  /\ _dispatch_cache
       (outcome_state (empty_state [])
          (promote_and_get_info_and_ufuncimpl (example_runtime 0 Float64 (fun _ => Float64)) 5
             tied_ufunc (empty_state [NULL; NULL; NULL]) [Int32; Float64; NULL] true))
       !! [Int32; Float64; NULL]
     = Some (mkInfo [Float64; Float64; Float64] (ArrayMethod 7))
  /\ top_method
       (promote_and_get_ufuncimpl (example_runtime 0 Float64 (fun _ => Float64)) 5
          tied_ufunc (empty_state [NULL; NULL; NULL]) [Int32; Float64; NULL]
          false true false)
     = Some (ArrayMethod 7)
  /\ PyErr_Occurred
       (top_state (empty_state [])
          (promote_and_get_ufuncimpl (example_runtime 0 Float64 (fun _ => Float64)) 5
             tied_ufunc (empty_state [NULL; NULL; NULL]) [Int32; Float64; NULL]
             false true false))
     = Some tied_error.
Proof. repeat split; vm_compute; reflexivity. Qed.

(** ** The reduce-compatibility re-run (C5) *)

Lemma item_insert_ne (l : list PyPtr) (i j : nat) (x : PyPtr) :
  i <> j -> item (<[i := x]> l) j = item l j.
Proof.
  intros Hne. unfold item. rewrite !nth_lookup.
  now rewrite list_lookup_insert_ne.
Qed.

Lemma item_insert_eq (l : list PyPtr) (i : nat) (x : PyPtr) :
  (i < length l)%nat -> item (<[i := x]> l) i = x.
Proof.
  intros Hlt. unfold item. rewrite nth_lookup.
  now rewrite list_lookup_insert_eq.
Qed.

(** A property kept by every pass through the body of a loop holds after
    the loop. *)
Lemma for_range_ind {A : Type} (P : A -> Prop) (lo hi : nat) (body : nat -> A -> A) (acc : A) :
  P acc ->
  (forall i a, (lo <= i < hi)%nat -> P a -> P (body i a)) ->
  P (for_range lo hi body acc).
Proof.
  intros Hacc Hstep. unfold for_range.
  assert (forall i, In i (seq lo (hi - lo)) -> (lo <= i < hi)%nat) as Hrange.
  { intros i Hi. apply in_seq in Hi. lia. }
  revert acc Hacc Hrange. generalize (seq lo (hi - lo)) as l.
  induction l as [| i l IH]; intros acc Hacc Hrange; simpl; [exact Hacc |].
  apply IH.
  - apply Hstep; [apply Hrange; now left | exact Hacc].
  - intros k Hk. apply Hrange. now right.
Qed.

Section ReduceFacts.
Context (rt : Runtime).

Lemma overwrite_signature_slot0 nargs out_descrs sig cacheable v :
  out_descrs 0%nat = v ->
  item sig 0 = v ->
  item (overwrite_signature nargs (map out_descrs (seq 0 nargs)) (sig, cacheable)).1 0 = v.
Proof.
  intros Hout Hsig. unfold overwrite_signature.
  apply (for_range_ind (fun sc : list PyPtr * bool => item sc.1 0 = v)); [exact Hsig |].
  intros i [s c] Hi Hs. simpl in *.
  destruct (negb (ptr_eqb (item s i) NULL) && negb _); simpl; [| exact Hs].
  destruct i as [| i].
  - destruct (decide (0 < length s)%nat) as [Hlen | Hlen].
    + rewrite item_insert_eq by exact Hlen.
      destruct nargs as [| n]; [lia |]. simpl. exact Hout.
    + rewrite list_insert_ge by lia. exact Hs.
  - rewrite item_insert_ne by discriminate. exact Hs.
Qed.

Lemma fill_signature_slot0 nargs all_dtypes sig v :
  v <> NULL -> item sig 0 = v -> item (fill_signature nargs all_dtypes sig) 0 = v.
Proof.
  intros Hv Hsig. unfold fill_signature.
  apply (for_range_ind (fun s : list PyPtr => item s 0 = v)); [exact Hsig |].
  intros i s Hi Hs. destruct (ptr_eqb (item s i) NULL) eqn:Hnull; [| exact Hs].
  destruct i as [| i].
  - apply ptr_eqb_eq in Hnull. congruence.
  - rewrite item_insert_ne by discriminate. exact Hs.
Qed.

(** With [ensure_reduce_compatible] off the entry point makes no
    recursive call. *)
Lemma promote_and_get_ufuncimpl_body_no_rerun rerun rerun' depth ufunc st op_dtypes force allow :
  promote_and_get_ufuncimpl_body rt rerun depth ufunc st op_dtypes force allow false
  = promote_and_get_ufuncimpl_body rt rerun' depth ufunc st op_dtypes force allow false.
Proof. reflexivity. Qed.

Lemma slot0_kept_refl ufunc v a : slot0_kept rt ufunc v a a.
Proof. exists []. split; [now rewrite app_nil_r | trivial]. Qed.

Lemma slot0_kept_same ufunc v a b :
  type_resolver_calls b = type_resolver_calls a ->
  (item (signature a) 0 = v -> item (signature b) 0 = v) ->
  slot0_kept rt ufunc v a b.
Proof. intros Hcalls Hsig. exists []. split; [now rewrite app_nil_r | intros _; exact Hsig]. Qed.

Lemma slot0_kept_trans ufunc v a b c :
  slot0_kept rt ufunc v a b -> slot0_kept rt ufunc v b c -> slot0_kept rt ufunc v a c.
Proof.
  intros (calls1 & H1 & K1) (calls2 & H2 & K2). exists (calls1 ++ calls2). split.
  - rewrite H2, H1. now rewrite app_assoc.
  - intros Hall Ha. apply Forall_app in Hall as [Hall1 Hall2]. auto.
Qed.

(** The legacy promotion keeps slot 0 of the signature when the call it
    makes to the resolver gives that DType for slot 0. *)
Lemma legacy_promote_slot0_kept ufunc v a cacheable r b :
  legacy_promote_using_legacy_type_resolver rt ufunc a cacheable = (r, b) ->
  slot0_kept rt ufunc v a b.
Proof.
  unfold legacy_promote_using_legacy_type_resolver.
  destruct (_make_new_typetup rt (nargs ufunc) (signature a)) as [type_tuple |];
    [| intros [= <- <-]; apply slot0_kept_same; trivial].
  destruct (type_resolver ufunc) as [resolver |] eqn:Hresolver;
    [| intros [= <- <-]; apply slot0_kept_same; trivial].
  destruct (call_type_resolver rt resolver type_tuple) as [out_descrs |] eqn:Hcall;
    intros [= <- <-]; exists [type_tuple]; (split; [reflexivity |]); [| trivial].
  intros Hall Hsig. simpl. apply overwrite_signature_slot0; [| exact Hsig].
  apply Forall_inv in Hall. exact (Hall resolver out_descrs Hresolver Hcall).
Qed.

(** So does the driver, through every path. *)
Lemma promote_and_get_info_slot0_kept depth ufunc v st op_dtypes allow info st' :
  promote_and_get_info_and_ufuncimpl rt depth ufunc st op_dtypes allow = Returns info st' ->
  slot0_kept rt ufunc v st st'.
Proof.
  intros Hrun.
  apply (promote_and_get_info_rel rt (slot0_kept rt ufunc v) (fun _ => True)) in Hrun;
    try exact I; try (intros; exact I).
  - destruct Hrun as [_ [HR | (_ & a & r & b & Ha & Hlegacy & Hb)]]; [exact HR |].
    eapply slot0_kept_trans; [exact Ha |].
    eapply slot0_kept_trans; [| exact Hb].
    eapply legacy_promote_slot0_kept. exact Hlegacy.
  - apply slot0_kept_refl.
  - apply slot0_kept_trans.
  - intros exc s. apply slot0_kept_same; trivial.
  - intros s. apply slot0_kept_same; trivial.
  - intros key i s _. apply slot0_kept_same; trivial.
Qed.

(** And one resolution of the entry point without a re-run. *)
Lemma promote_and_get_ufuncimpl_body_slot0_kept rerun depth ufunc v st op_dtypes force allow
    method st' op_dtypes' :
  v <> NULL ->
  promote_and_get_ufuncimpl_body rt rerun depth ufunc st op_dtypes force allow false
    = TopReturns method st' op_dtypes' ->
  slot0_kept rt ufunc v st st'.
Proof.
  intros Hv. unfold promote_and_get_ufuncimpl_body.
  destruct (initial_op_dtypes rt ufunc st op_dtypes force) as [o s] eqn:Hinit.
  assert (slot0_kept rt ufunc v st s) as Hs.
  { unfold initial_op_dtypes in Hinit. destruct force.
    - destruct (legacy_promote_using_legacy_type_resolver rt ufunc st true)
        as [[[ops c] |] b] eqn:Hlegacy; injection Hinit as <- <-;
        eapply legacy_promote_slot0_kept; exact Hlegacy.
    - injection Hinit as <- <-. apply slot0_kept_refl. }
  destruct o as [ops |].
  - destruct (promote_and_get_info_and_ufuncimpl rt depth ufunc s ops allow)
      as [[info |] s'' |] eqn:Hrun; [| | discriminate].
    + simpl. intros [= <- <- <-].
      eapply slot0_kept_trans; [exact Hs |].
      eapply slot0_kept_trans; [eapply promote_and_get_info_slot0_kept; exact Hrun |].
      apply slot0_kept_same; [reflexivity |]. simpl.
      now apply fill_signature_slot0.
    + intros [= <- <- <-].
      eapply slot0_kept_trans; [exact Hs |].
      eapply slot0_kept_trans; [eapply promote_and_get_info_slot0_kept; exact Hrun |].
      destruct (PyErr_Occurred s''); apply slot0_kept_same; trivial.
  - intros [= <- <- <-]. exact Hs.
Qed.

(** C5 (amended).  When [ensure_reduce_compatible] is set, slot 0 of the
    signature is null after the first resolution, and the loop found has a
    first DType different from its third (its output), the entry point
    writes the loop's output DType into slot 0 of the signature and runs
    the whole resolution once more on the same operand DTypes with
    [ensure_reduce_compatible] off; that second run makes no further one.
    Whenever the call returns, slot 0 of the signature holds that output
    DType, provided the legacy type resolver, in each call made to it
    during the second resolution (the calls the returned state records
    after those of the first), gives that same DType for slot 0 (it
    replaces every fixed slot of the signature that differs from its own
    answer). *)
Theorem C5_reduce_rerun_forces_output_dtype :
  forall (depth : nat) (ufunc : PyUFuncObject) (st st1 st2 : State)
         (op_dtypes op_dtypes1 : list PyPtr) (info : Info) (force allow : bool),
    initial_op_dtypes rt ufunc st op_dtypes force = (Some op_dtypes1, st1) ->
    promote_and_get_info_and_ufuncimpl rt depth ufunc st1 op_dtypes1 allow
      = Returns (Some info) st2 ->
    item (signature st2) 0 = NULL ->
    item (info_dtypes info) 0 <> item (info_dtypes info) 2 ->
    item (info_dtypes info) 2 <> NULL ->
    (0 < length (signature st2))%nat ->
    let forced := with_signature (<[0%nat := item (info_dtypes info) 2]> (signature st2)) st2 in
    item (signature forced) 0 = item (info_dtypes info) 2
    /\ promote_and_get_ufuncimpl rt depth ufunc st op_dtypes force allow true
       = promote_and_get_ufuncimpl rt depth ufunc forced op_dtypes1 force allow false
    /\ (forall rerun,
          promote_and_get_ufuncimpl rt depth ufunc forced op_dtypes1 force allow false
          = promote_and_get_ufuncimpl_body rt rerun depth ufunc forced op_dtypes1
              force allow false)
    /\ (forall method st3 op_dtypes3,
          promote_and_get_ufuncimpl rt depth ufunc st op_dtypes force allow true
            = TopReturns method st3 op_dtypes3 ->
          Forall (resolver_answers_slot0 rt ufunc (item (info_dtypes info) 2))
            (calls_since st2 st3) ->
          item (signature st3) 0 = item (info_dtypes info) 2).
Proof.
  intros depth ufunc st st1 st2 op_dtypes op_dtypes1 info force allow
    Hinit Hfirst Hnull Hdiff Hout Hlen forced.
  assert (item (signature forced) 0 = item (info_dtypes info) 2) as Hforced.
  { unfold forced. simpl. now apply item_insert_eq. }
  assert (promote_and_get_ufuncimpl rt depth ufunc st op_dtypes force allow true
          = promote_and_get_ufuncimpl rt depth ufunc forced op_dtypes1 force allow false)
    as Hrerun.
  { unfold promote_and_get_ufuncimpl at 1. unfold promote_and_get_ufuncimpl_body at 1.
    rewrite Hinit, Hfirst. cbv zeta.
    apply ptr_eqb_eq in Hnull. apply ptr_eqb_neq in Hdiff.
    rewrite Hnull, Hdiff. reflexivity. }
  split; [exact Hforced |]. split; [exact Hrerun |]. split.
  - intros rerun. reflexivity.
  - intros method st3 op_dtypes3 Hret Hcalls. rewrite Hrerun in Hret.
    unfold promote_and_get_ufuncimpl in Hret.
    apply (promote_and_get_ufuncimpl_body_slot0_kept _ _ _ (item (info_dtypes info) 2))
      in Hret; [| exact Hout].
    destruct Hret as (calls & Htrc & Hkeep). apply Hkeep; [| exact Hforced].
    unfold calls_since in Hcalls.
    change (type_resolver_calls forced) with (type_resolver_calls st2) in Htrc.
    rewrite Htrc, drop_app_length in Hcalls. exact Hcalls.
Qed.

End ReduceFacts.

(** The reduction of time spans with [follow_ufunc]: the first
    resolution finds [(Timedelta, Timedelta, Float64)] through the legacy
    fallback, slot 0 of the signature is forced to [Float64], and the
    second resolution calls the resolver with the type tuple
    [(Float64, None, None)], which it answers with [Float64]. *)
Lemma C5_reduce_rerun_forces_output_dtype_witness :
  item (signature
          (with_signature
             (<[0%nat := Float64]> (signature (outcome_state (empty_state []) follow_first)))
             (outcome_state (empty_state []) follow_first))) 0 = Float64
  /\ calls_since (outcome_state (empty_state []) follow_first)
       (top_state (empty_state []) follow_reduce_run)
     = [Some [Float64; Py_None; Py_None]]
  /\ item (signature (top_state (empty_state []) follow_reduce_run)) 0 = Float64.
Proof.
  assert (calls_since (outcome_state (empty_state []) follow_first)
            (top_state (empty_state []) follow_reduce_run)
          = [Some [Float64; Py_None; Py_None]]) as Hcalls by (vm_compute; reflexivity).
  destruct (C5_reduce_rerun_forces_output_dtype follow_runtime 5 follow_ufunc
              (empty_state [NULL; NULL; NULL]) (empty_state [NULL; NULL; NULL])
              (outcome_state (empty_state []) follow_first)
              [NULL; Timedelta; NULL] [NULL; Timedelta; NULL]
              (mkInfo [Timedelta; Timedelta; Float64] (ArrayMethod 3)) false true)
    as (Hforced & _ & _ & Hfinal).
  - reflexivity.
  - vm_compute. reflexivity.
  - reflexivity.
  - discriminate.
  - discriminate.
  - apply Nat.ltb_lt. reflexivity.
  - split; [exact Hforced |]. split; [exact Hcalls |].
    apply (Hfinal (Some (ArrayMethod 4)) _ [Float64; Timedelta; NULL]).
    + vm_compute. reflexivity.
    + rewrite Hcalls. constructor; [| constructor].
      intros resolver out_descrs _ [= <-]. reflexivity.
Defined.

(** C5 as stated fails on this reduction.  The first resolution finds the
    loop [(Timedelta, Timedelta, Float64)] through the legacy fallback,
    slot 0 of the signature is forced to [Float64] and the resolution is
    run again; this second resolution falls back to the legacy resolver as
    well, which answers [Timedelta] for slot 0 and so replaces the forced
    [Float64]: the signature returned is [(Timedelta, Timedelta,
    Float64)], its slot 0 is not the loop's output DType.  The legacy
    resolver has been called twice, once in each resolution. *)
Lemma C5_counterexample :
  outcome_info
    (promote_and_get_info_and_ufuncimpl divide_runtime 5 divide_ufunc
       (empty_state [NULL; NULL; NULL]) [NULL; Timedelta; NULL] true)
  = Some (mkInfo [Timedelta; Timedelta; Float64] (ArrayMethod 3))
  /\ top_method divide_reduce_run = Some (ArrayMethod 3)
  /\ signature (top_state (empty_state []) divide_reduce_run)
     = [Timedelta; Timedelta; Float64]
  /\ type_resolver_calls (top_state (empty_state []) divide_reduce_run)
     = [None; Some [Float64; Py_None; Py_None]].
Proof. repeat split; vm_compute; reflexivity. Qed.

(** ** Registering loops *)

Lemma already_registered_In loops DType_tuple :
  already_registered loops DType_tuple = true <-> In DType_tuple (map info_dtypes loops).
Proof.
  induction loops as [| item rest IH]; simpl.
  - split; [discriminate | tauto].
  - case_bool_decide as Heq.
    + split; [intros _; now left | reflexivity].
    + rewrite IH. split; [intros H; now right | intros [H | H]; [congruence | exact H]].
Qed.

(** X1.  [PyUFunc_AddLoop] never removes, replaces or reorders a loop:
    when it returns, the list of loops is the old one, or the old one with
    one info appended at its end; the return code is [0] exactly when no
    error is set, and after an error return the list is unchanged. *)
Theorem X1_add_loop_only_appends :
  forall (ufunc : PyUFuncObject) (info : PyObject) (ignore_duplicate : bool),
    match PyUFunc_AddLoop ufunc info ignore_duplicate with
    | AddLoopReturns rc loops exc =>
        (loops = _loops ufunc \/ exists new, loops = _loops ufunc ++ [new])
        /\ (rc = 0 /\ exc = None \/ rc = -1 /\ loops = _loops ufunc /\ is_Some exc)
    | AddLoopReadsNonTuple => True
    end.
Proof.
  intros ufunc info ignore. unfold PyUFunc_AddLoop.
  destruct info as [| | | | [| first [| meth [| extra rest]]] |];
    try (split; [left; reflexivity | right; repeat split; eexists; reflexivity]).
  destruct first as [| | | | items |]; try exact I.
  destruct (negb (length items =? nargs ufunc)%nat);
    [split; [left; reflexivity | right; repeat split; eexists; reflexivity] |].
  destruct (mapM DType_item items) as [DType_tuple |];
    [| split; [left; reflexivity | right; repeat split; eexists; reflexivity]].
  destruct (method_or_promoter meth) as [target |];
    [| split; [left; reflexivity | right; repeat split; eexists; reflexivity]].
  destruct (already_registered (_loops ufunc) DType_tuple).
  - destruct ignore.
    + split; [left; reflexivity | left; split; reflexivity].
    + split; [left; reflexivity | right; repeat split; eexists; reflexivity].
  - split; [right; eexists; reflexivity | left; split; reflexivity].
Qed.

Section Registering.

(** X2.  A DType tuple that is already registered is not registered a
    second time, whatever the new method or promoter: with
    [ignore_duplicate] the call returns [0] and changes nothing, without
    it the call returns [-1] with the "already been registered" TypeError;
    in both cases the list of loops, and so the loop first registered for
    the tuple, stays as it was. *)
Theorem X2_add_loop_duplicate :
  forall (ufunc : PyUFuncObject) (items : list PyObject) (DType_tuple : list PyPtr)
         (meth : PyObject) (target : Target) (registered : Info) (ignore_duplicate : bool),
    length items = nargs ufunc ->
    mapM DType_item items = Some DType_tuple ->
    method_or_promoter meth = Some target ->
    In registered (_loops ufunc) ->
    info_dtypes registered = DType_tuple ->
    PyUFunc_AddLoop ufunc (Obj_Tuple [Obj_Tuple items; meth]) ignore_duplicate
    = if ignore_duplicate then AddLoopReturns 0 (_loops ufunc) None
      else AddLoopReturns (-1) (_loops ufunc) (Some A_loop_has_already_been_registered).
Proof.
  intros ufunc items DType_tuple meth target registered ignore Hlen Hitems Hmeth Hin Hsame.
  unfold PyUFunc_AddLoop. rewrite Hlen, Nat.eqb_refl, Hitems, Hmeth. simpl.
  assert (already_registered (_loops ufunc) DType_tuple = true) as ->.
  { apply already_registered_In. rewrite <- Hsame. apply in_map, Hin. }
  destruct ignore; reflexivity.
Qed.

(** X3.  [PyUFunc_AddLoop] keeps the registry well formed: if no two
    registered loops share a DType tuple and every tuple has [nargs]
    items, the same holds of the list after the call, whatever is passed
    in and whatever the call returns. *)
Theorem X3_add_loop_keeps_registry_ok :
  forall (ufunc : PyUFuncObject) (info : PyObject) (ignore_duplicate : bool)
         (rc : Z) (loops : list Info) (exc : option AddLoopError),
    registry_ok (nargs ufunc) (_loops ufunc) ->
    PyUFunc_AddLoop ufunc info ignore_duplicate = AddLoopReturns rc loops exc ->
    registry_ok (nargs ufunc) loops.
Proof.
  intros ufunc info ignore rc loops exc [Hnodup Hlen]. unfold PyUFunc_AddLoop.
  destruct info as [| | | | [| first [| meth [| extra rest]]] |];
    try (intros [= <- <- <-]; split; assumption).
  destruct first as [| | | | items |]; try discriminate.
  destruct (length items =? nargs ufunc)%nat eqn:Hitems; simpl;
    [| intros [= <- <- <-]; split; assumption].
  apply Nat.eqb_eq in Hitems.
  destruct (mapM DType_item items) as [DType_tuple |] eqn:Hmap;
    [| intros [= <- <- <-]; split; assumption].
  destruct (method_or_promoter meth) as [target |];
    [| intros [= <- <- <-]; split; assumption].
  destruct (already_registered (_loops ufunc) DType_tuple) eqn:Hreg.
  - destruct ignore; intros [= <- <- <-]; split; assumption.
  - intros [= <- <- <-]. split.
    + rewrite map_app. apply NoDup_app. split; [exact Hnodup |]. split.
      * intros t Ht Hnew. simpl in Hnew. apply list_elem_of_singleton in Hnew. subst t.
        apply list_elem_of_In, already_registered_In in Ht. congruence.
      * simpl. apply NoDup_singleton.
    + apply Forall_app. split; [exact Hlen |].
      apply Forall_singleton. simpl.
      apply length_mapM in Hmap. congruence.
Qed.

End Registering.

Lemma X2_add_loop_duplicate_witness :
  PyUFunc_AddLoop add_ufunc
    (Obj_Tuple [Obj_Tuple [Obj_DTypeMeta 1; Obj_DTypeMeta 1; Obj_DTypeMeta 1];
                Obj_ArrayMethod 9]) true
  = if true then AddLoopReturns 0 (_loops add_ufunc) None
    else AddLoopReturns (-1) (_loops add_ufunc) (Some A_loop_has_already_been_registered).
Proof.
  apply (X2_add_loop_duplicate add_ufunc
           [Obj_DTypeMeta 1; Obj_DTypeMeta 1; Obj_DTypeMeta 1] [Int32; Int32; Int32]
           (Obj_ArrayMethod 9) (ArrayMethod 9)
           (mkInfo [Int32; Int32; Int32] (ArrayMethod 1)) true).
  - reflexivity.
  - reflexivity.
  - reflexivity.
  - left. reflexivity.
  - reflexivity.
Defined.

Lemma X3_add_loop_keeps_registry_ok_witness :
  registry_ok (nargs (binary_ufunc [] None))
    [mkInfo [Int32; Int32; Int32] (ArrayMethod 1)].
Proof.
  apply (X3_add_loop_keeps_registry_ok (binary_ufunc [] None)
           (Obj_Tuple [Obj_Tuple [Obj_DTypeMeta 1; Obj_DTypeMeta 1; Obj_DTypeMeta 1];
                       Obj_ArrayMethod 1]) false 0
           [mkInfo [Int32; Int32; Int32] (ArrayMethod 1)] None).
  - split; [apply NoDup_nil; exact I | apply Forall_nil; exact I].
  - reflexivity.
Defined.

(** ** Loops that wrap the legacy inner loops *)

Lemma object_of_ptr_round_trip (ptrs : list PyPtr) (items : list PyObject) :
  mapM object_of_ptr ptrs = Some items -> mapM DType_item items = Some ptrs.
Proof.
  intros H. apply mapM_Some in H. apply mapM_Some.
  induction H as [| p o ptrs items Hhead _ IH]; [constructor |].
  constructor; [| exact IH].
  destruct p; simpl in Hhead; inversion Hhead; reflexivity.
Qed.

Section LegacyLoops.

(** X4.  For DTypes that are not yet registered,
    [add_and_return_legacy_wrapping_ufunc_loop] appends one loop, the new
    legacy-wrapping ArrayMethod under exactly the given DTypes, and
    returns that info, which is then the last loop of the ufunc. *)
Theorem X4_legacy_loop_added_last :
  forall (ufunc : PyUFuncObject) (operation_dtypes : list PyPtr) (items : list PyObject)
         (id : N) (ignore_duplicate : bool),
    (nargs ufunc <= length operation_dtypes)%nat ->
    mapM object_of_ptr (take (nargs ufunc) operation_dtypes) = Some items ->
    already_registered (_loops ufunc) (take (nargs ufunc) operation_dtypes) = false ->
    add_and_return_legacy_wrapping_ufunc_loop (Some id) ufunc operation_dtypes
      ignore_duplicate
    = LegacyLoopReturns
        (Some (mkInfo (take (nargs ufunc) operation_dtypes) (ArrayMethod id)))
        (_loops ufunc ++ [mkInfo (take (nargs ufunc) operation_dtypes) (ArrayMethod id)]).
Proof.
  intros ufunc operation_dtypes items id ignore Hlen Hitems Hnew.
  unfold add_and_return_legacy_wrapping_ufunc_loop, PyUFunc_AddLoop.
  rewrite Hitems.
  assert (length items = nargs ufunc) as Hcount.
  { apply length_mapM in Hitems. rewrite <- Hitems, length_take. lia. }
  rewrite Hcount, Nat.eqb_refl. simpl.
  rewrite (object_of_ptr_round_trip _ _ Hitems). simpl. rewrite Hnew. reflexivity.
Qed.


End LegacyLoops.

Lemma X4_legacy_loop_added_last_witness :
  add_and_return_legacy_wrapping_ufunc_loop (Some 9%N) add_ufunc [Bool; Bool; Bool] false
  = LegacyLoopReturns
      (Some (mkInfo (take (nargs add_ufunc) [Bool; Bool; Bool]) (ArrayMethod 9)))
      (_loops add_ufunc ++ [mkInfo (take (nargs add_ufunc) [Bool; Bool; Bool]) (ArrayMethod 9)]).
Proof.
  apply (X4_legacy_loop_added_last add_ufunc [Bool; Bool; Bool]
           [Obj_DTypeMeta 3; Obj_DTypeMeta 3; Obj_DTypeMeta 3] 9%N false).
  - simpl. lia.
  - reflexivity.
  - reflexivity.
Defined.


(** ** More on the matcher *)

Section MatcherMore.
Context (rt : Runtime).

(** The matching loop reads the ufunc only for [nin]. *)
Lemma match_from_same_nin ufunc ufunc' op_dtypes curr_dtypes n i :
  nin ufunc' = nin ufunc ->
  match_from rt ufunc' op_dtypes curr_dtypes n i = match_from rt ufunc op_dtypes curr_dtypes n i.
Proof.
  intros Hnin. revert i. induction n as [| n IH]; intros i; simpl; [reflexivity |].
  unfold match_slot. rewrite Hnin, IH. reflexivity.
Qed.

Lemma match_from_all_continue ufunc op_dtypes curr_dtypes n i :
  (forall j, (i <= j < i + n)%nat -> match_slot rt ufunc op_dtypes curr_dtypes j = slot_continue) ->
  match_from rt ufunc op_dtypes curr_dtypes n i = slot_continue.
Proof.
  revert i. induction n as [| n IH]; intros i Hall; simpl; [reflexivity |].
  rewrite Hall by lia. apply IH. intros j Hj. apply Hall. lia.
Qed.

Lemma entry_matches_all_None ufunc op_dtypes curr_dtypes :
  (forall i, (i < nargs ufunc)%nat -> item curr_dtypes i = Py_None) ->
  entry_matches rt ufunc op_dtypes curr_dtypes = slot_continue.
Proof.
  intros Hnone. unfold entry_matches.
  apply match_from_all_continue. intros j Hj. unfold match_slot.
  rewrite (Hnone j) by lia. rewrite ptr_eqb_refl.
  destruct (ptr_eqb (item op_dtypes j) NULL && (nin ufunc <=? j)%nat); [reflexivity |].
  destruct (ptr_eqb (item op_dtypes j) NULL && _); reflexivity.
Qed.

(** X6.  A loop registered with [None] in every slot (a catch-all, such
    as the default promoter's) matches every tuple of operand DTypes,
    null slots included, with no call of the subclass test. *)
Theorem X6_all_None_matches_everything :
  forall (ufunc : PyUFuncObject) (op_dtypes : list PyPtr),
    entry_matches rt ufunc op_dtypes (replicate (nargs ufunc) Py_None) = slot_continue.
Proof.
  intros ufunc op_dtypes. apply entry_matches_all_None.
  intros i Hi. unfold item. rewrite nth_lookup, lookup_replicate_2 by exact Hi.
  reflexivity.
Qed.

(** One slot with a given operand DType against a concrete registered
    DType: it matches exactly when the two are the same class. *)
Lemma match_slot_concrete ufunc op_dtypes curr_dtypes j :
  item op_dtypes j <> NULL ->
  item curr_dtypes j <> Py_None ->
  NPY_DT_is_abstract rt (item curr_dtypes j) = false ->
  match_slot rt ufunc op_dtypes curr_dtypes j =
  if ptr_eqb (item op_dtypes j) (item curr_dtypes j) then slot_continue else slot_break.
Proof.
  intros Hgiven Hnone Hconcrete. unfold match_slot.
  apply ptr_eqb_neq in Hgiven, Hnone. rewrite Hgiven, Hnone, Hconcrete. simpl.
  destruct (ptr_eqb (item op_dtypes j) (item curr_dtypes j)); reflexivity.
Qed.

Lemma match_from_concrete ufunc op_dtypes curr_dtypes n :
  forall i,
    (forall j, (i <= j < i + n)%nat ->
       item op_dtypes j <> NULL /\ item curr_dtypes j <> Py_None
       /\ NPY_DT_is_abstract rt (item curr_dtypes j) = false) ->
    match_from rt ufunc op_dtypes curr_dtypes n i =
    if forallb (fun j => ptr_eqb (item op_dtypes j) (item curr_dtypes j)) (seq i n)
    then slot_continue else slot_break.
Proof.
  induction n as [| n IH]; intros i Hslots; simpl; [reflexivity |].
  destruct (Hslots i) as (Hgiven & Hnone & Hconcrete); [lia |].
  rewrite match_slot_concrete by assumption.
  destruct (ptr_eqb (item op_dtypes i) (item curr_dtypes i)); simpl; [| reflexivity].
  apply IH. intros j Hj. apply Hslots. lia.
Qed.

(** X7.  A loop registered with a concrete DType in every slot matches
    fully given operand DTypes if and only if they are, slot by slot, the
    very same classes; when they are not the entry is rejected, never an
    error (the subclass test is not consulted for concrete DTypes). *)
Theorem X7_concrete_loop_matches_only_itself :
  forall (ufunc : PyUFuncObject) (op_dtypes curr_dtypes : list PyPtr),
    (forall j, (j < nargs ufunc)%nat ->
       item op_dtypes j <> NULL /\ item curr_dtypes j <> Py_None
       /\ NPY_DT_is_abstract rt (item curr_dtypes j) = false) ->
    (entry_matches rt ufunc op_dtypes curr_dtypes = slot_continue
     <-> forall j, (j < nargs ufunc)%nat -> item op_dtypes j = item curr_dtypes j)
    /\ (entry_matches rt ufunc op_dtypes curr_dtypes = slot_continue
        \/ entry_matches rt ufunc op_dtypes curr_dtypes = slot_break).
Proof.
  intros ufunc op_dtypes curr_dtypes Hslots. unfold entry_matches.
  rewrite match_from_concrete by (intros j Hj; apply Hslots; lia).
  destruct (forallb _ _) eqn:Hall.
  - split; [| left; reflexivity]. split; [| reflexivity].
    intros _ j Hj. rewrite forallb_forall in Hall.
    apply ptr_eqb_eq, Hall, in_seq. lia.
  - split; [| right; reflexivity]. split; [discriminate |].
    intros Hsame. exfalso.
    assert (forallb (fun j => ptr_eqb (item op_dtypes j) (item curr_dtypes j))
              (seq 0 (nargs ufunc)) = true) as Htrue.
    { apply forallb_forall. intros j Hj. apply in_seq in Hj.
      apply ptr_eqb_eq, Hsame. lia. }
    congruence.
Qed.

(** The vote of a slot with the two loops exchanged. *)
Lemma compare_slot_swap op_dtype prev_dtype new_dtype :
  compare_slot rt op_dtype new_dtype prev_dtype
  = swap_vote (compare_slot rt op_dtype prev_dtype new_dtype).
Proof.
  unfold compare_slot.
  destruct (NPY_DT_is_abstract rt prev_dtype), (NPY_DT_is_abstract rt new_dtype);
    repeat match goal with
      | |- context [ptr_eqb ?a ?b] =>
          let E := fresh "E" in
          destruct (ptr_eqb a b) eqn:E;
          [apply ptr_eqb_eq in E | apply ptr_eqb_neq in E]
      end;
    simpl; try reflexivity; congruence.
Qed.

Lemma swap_best_is_neutral best : (swap_best best =? -1) = (best =? -1).
Proof.
  unfold swap_best.
  destruct (Z.eqb_spec best 0) as [-> | H0]; [reflexivity |].
  destruct (Z.eqb_spec best 1) as [-> | H1]; reflexivity.
Qed.

Lemma swap_best_eqb a b : (swap_best a =? swap_best b) = (a =? b).
Proof.
  unfold swap_best.
  destruct (Z.eqb_spec a 0) as [-> | Ha0], (Z.eqb_spec b 0) as [-> | Hb0];
    try destruct (Z.eqb_spec a 1) as [-> | Ha1];
    try destruct (Z.eqb_spec b 1) as [-> | Hb1];
    try reflexivity;
    repeat match goal with
      | |- context [?x =? ?y] => destruct (Z.eqb_spec x y)
      end; try reflexivity; exfalso; lia.
Qed.

Lemma compare_from_swap ufunc op_dtypes best_dtypes curr_dtypes n :
  forall i current_best,
    compare_from rt ufunc op_dtypes curr_dtypes best_dtypes n i (swap_best current_best)
    = swap_best <$> compare_from rt ufunc op_dtypes best_dtypes curr_dtypes n i current_best.
Proof.
  induction n as [| n IH]; intros i current_best; simpl; [reflexivity |].
  rewrite swap_best_is_neutral.
  destruct ((i =? nin ufunc)%nat && negb (current_best =? -1)); [reflexivity |].
  rewrite compare_slot_swap.
  destruct (compare_slot rt (item op_dtypes i) (item best_dtypes i) (item curr_dtypes i))
    as [| best |]; simpl; [apply IH | | reflexivity].
  rewrite swap_best_is_neutral.
  destruct (best =? -1); [apply IH |].
  rewrite swap_best_eqb.
  destruct (negb (current_best =? -1) && negb (current_best =? best)); [reflexivity |].
  apply IH.
Qed.

(** X8.  The comparison of two matching loops does not depend on which
    one is the running best: with the two loops exchanged the comparison
    gives the exchanged answer (0 for 1 and 1 for 0), the same "no clear
    best", and the same not-implemented error. *)
Theorem X8_compare_entries_swap :
  forall (ufunc : PyUFuncObject) (op_dtypes best_dtypes curr_dtypes : list PyPtr),
    compare_entries rt ufunc op_dtypes curr_dtypes best_dtypes
    = swap_best <$> compare_entries rt ufunc op_dtypes best_dtypes curr_dtypes.
Proof.
  intros ufunc op_dtypes best_dtypes curr_dtypes. unfold compare_entries.
  apply (compare_from_swap ufunc op_dtypes best_dtypes curr_dtypes (nargs ufunc) 0%nat (-1)).
Qed.

End MatcherMore.

Lemma X7_concrete_loop_matches_only_itself_witness :
  (entry_matches (example_runtime 0 Float64 (fun _ => Float64)) add_ufunc
     [Int32; Int32; Int32] [Float64; Float64; Float64] = slot_continue
   <-> forall j, (j < nargs add_ufunc)%nat ->
         item [Int32; Int32; Int32] j = item [Float64; Float64; Float64] j)
  /\ (entry_matches (example_runtime 0 Float64 (fun _ => Float64)) add_ufunc
        [Int32; Int32; Int32] [Float64; Float64; Float64] = slot_continue
      \/ entry_matches (example_runtime 0 Float64 (fun _ => Float64)) add_ufunc
           [Int32; Int32; Int32] [Float64; Float64; Float64] = slot_break).
Proof.
  apply (X7_concrete_loop_matches_only_itself
           (example_runtime 0 Float64 (fun _ => Float64)) add_ufunc
           [Int32; Int32; Int32] [Float64; Float64; Float64]).
  intros [| [| [| j]]] Hj; simpl in Hj; try lia;
    (split; [discriminate | split; [discriminate | reflexivity]]).
Defined.

(** ** What the lookup returns *)

Section LookupFacts.
Context (rt : Runtime).

(** The loop the scan ends with is the one it started with or a loop of
    the list that matches and, in a promoters-only scan, is a promoter. *)
Lemma scan_loops_sound ufunc op_dtypes only_promoters loops :
  forall best found,
    scan_loops rt ufunc op_dtypes only_promoters loops best = scan_finished (Some found) ->
    best = Some found
    \/ (In found loops
        /\ entry_matches rt ufunc op_dtypes (info_dtypes found) = slot_continue
        /\ only_promoters && is_ArrayMethod found = false).
Proof.
  induction loops as [| e loops IH]; intros best found; simpl.
  - intros [= ->]. now left.
  - destruct (only_promoters && is_ArrayMethod e) eqn:Hskip.
    + intros H. apply IH in H as [H | (Hin & Hm & Hp)]; [now left | right; tauto].
    + destruct (entry_matches rt ufunc op_dtypes (info_dtypes e)) eqn:Hmatch;
        [| intros H; apply IH in H as [H | (Hin & Hm & Hp)]; [now left | right; tauto]
         | discriminate].
      assert (forall next,
                scan_loops rt ufunc op_dtypes only_promoters loops next
                  = scan_finished (Some found) ->
                next = best \/ next = Some e ->
                best = Some found
                \/ ((e = found \/ In found loops)
                    /\ entry_matches rt ufunc op_dtypes (info_dtypes found) = slot_continue
                    /\ only_promoters && is_ArrayMethod found = false)) as Hnext.
      { intros next H Hcase. apply IH in H as [H | (Hin & Hm & Hp)]; [| right; tauto].
        destruct Hcase as [-> | ->]; [now left |].
        injection H as <-. right. tauto. }
      destruct best as [best_info |]; [| intros H; eapply Hnext; [exact H | now right]].
      destruct (compare_entries rt ufunc op_dtypes (info_dtypes best_info) (info_dtypes e))
        as [current_best |]; [| discriminate].
      destruct (current_best =? -1); [discriminate |].
      destruct (current_best =? 0); intros H; eapply Hnext; try exact H; tauto.
Qed.

(** Loops that do not match are passed over. *)
Lemma scan_loops_none_match ufunc op_dtypes only_promoters loops best :
  Forall (fun e => entry_matches rt ufunc op_dtypes (info_dtypes e) = slot_break) loops ->
  scan_loops rt ufunc op_dtypes only_promoters loops best = scan_finished best.
Proof.
  induction 1 as [| e loops He _ IH]; simpl; [reflexivity |].
  rewrite He. destruct (only_promoters && is_ArrayMethod e); exact IH.
Qed.

Lemma resolve_out_info_sound :
  forall (ufunc : PyUFuncObject) (op_dtypes : list PyPtr) (only_promoters : bool)
         (found : Info),
    out_info (resolve_implementation_info rt ufunc op_dtypes only_promoters) = Some found ->
    In found (_loops ufunc)
    /\ entry_matches rt ufunc op_dtypes (info_dtypes found) = slot_continue
    /\ (only_promoters = true -> is_ArrayMethod found = false)
    /\ return_code (resolve_implementation_info rt ufunc op_dtypes only_promoters) = 0
    /\ exc_set (resolve_implementation_info rt ufunc op_dtypes only_promoters) = None.
Proof.
  intros ufunc op_dtypes only found.
  assert (forall o retry,
            (forall u, out_info (retry u) = Some found ->
               In found (_loops ufunc)
               /\ entry_matches rt ufunc op_dtypes (info_dtypes found) = slot_continue
               /\ is_ArrayMethod found = false
               /\ return_code (retry u) = 0 /\ exc_set (retry u) = None) ->
            out_info (resolve_implementation_info_body rt retry ufunc op_dtypes o)
              = Some found ->
            In found (_loops ufunc)
            /\ entry_matches rt ufunc op_dtypes (info_dtypes found) = slot_continue
            /\ (o = true -> is_ArrayMethod found = false)
            /\ return_code (resolve_implementation_info_body rt retry ufunc op_dtypes o) = 0
            /\ exc_set (resolve_implementation_info_body rt retry ufunc op_dtypes o) = None)
    as Hbody.
  { intros o retry Hretry. unfold resolve_implementation_info_body.
    destruct (scan_loops rt ufunc op_dtypes o (_loops ufunc) None)
      as [best | best_dtypes curr_dtypes | exc] eqn:Hscan; simpl.
    - intros [= ->]. apply scan_loops_sound in Hscan as [[=] | (Hin & Hm & Hp)].
      repeat split; try assumption. intros ->. exact Hp.
    - destruct o; simpl; [discriminate |].
      intros H. destruct (Hretry tt H) as (Hin & Hm & Hp & Hrc & Hexc).
      repeat split; try assumption. discriminate.
    - discriminate. }
  unfold resolve_implementation_info. apply Hbody.
  intros u H. apply Hbody in H as (Hin & Hm & Hp & Hrc & Hexc).
  - repeat split; try assumption. now apply Hp.
  - intros u' [=].
Qed.

(** X9.  Whatever [resolve_implementation_info] puts into [*out_info] is
    one of the ufunc's registered loops and matches the operand DTypes in
    every slot; in a promoters-only lookup it is a promoter; and the
    function then returns [0] with no error set. *)
Theorem X9_lookup_returns_matching_loop :
  forall (ufunc : PyUFuncObject) (op_dtypes : list PyPtr) (only_promoters : bool)
         (found : Info),
    out_info (resolve_implementation_info rt ufunc op_dtypes only_promoters) = Some found ->
    In found (_loops ufunc)
    /\ entry_matches rt ufunc op_dtypes (info_dtypes found) = slot_continue
    /\ (only_promoters = true -> is_ArrayMethod found = false)
    /\ return_code (resolve_implementation_info rt ufunc op_dtypes only_promoters) = 0
    /\ exc_set (resolve_implementation_info rt ufunc op_dtypes only_promoters) = None.
Proof. exact resolve_out_info_sound. Qed.

Lemma resolve_only_match ufunc op_dtypes pre post found :
  _loops ufunc = pre ++ found :: post ->
  Forall (fun e => entry_matches rt ufunc op_dtypes (info_dtypes e) = slot_break) pre ->
  Forall (fun e => entry_matches rt ufunc op_dtypes (info_dtypes e) = slot_break) post ->
  entry_matches rt ufunc op_dtypes (info_dtypes found) = slot_continue ->
  resolve_implementation_info rt ufunc op_dtypes false = mkResolved 0 (Some found) None.
Proof.
  intros Hloops Hpre Hpost Hmatch.
  unfold resolve_implementation_info, resolve_implementation_info_body.
  rewrite Hloops, scan_loops_app, (scan_loops_none_match _ _ _ _ _ Hpre). simpl.
  rewrite Hmatch, (scan_loops_none_match _ _ _ _ _ Hpost). reflexivity.
Qed.

(** X10.  When exactly one registered loop matches the operand DTypes,
    every other one being rejected, the lookup returns that loop, with
    return code [0] and no error, wherever it stands in the list. *)
Theorem X10_only_matching_loop_is_found :
  forall (ufunc : PyUFuncObject) (op_dtypes : list PyPtr) (pre post : list Info)
         (found : Info),
    _loops ufunc = pre ++ found :: post ->
    Forall (fun e => entry_matches rt ufunc op_dtypes (info_dtypes e) = slot_break) pre ->
    Forall (fun e => entry_matches rt ufunc op_dtypes (info_dtypes e) = slot_break) post ->
    entry_matches rt ufunc op_dtypes (info_dtypes found) = slot_continue ->
    resolve_implementation_info rt ufunc op_dtypes false = mkResolved 0 (Some found) None.
Proof. intros ufunc op_dtypes pre post found. apply resolve_only_match. Qed.

(** A tuple queried as it is registered matches its own entry. *)
Lemma entry_matches_itself ufunc DType_tuple :
  entry_matches rt ufunc DType_tuple DType_tuple = slot_continue.
Proof.
  unfold entry_matches. apply match_from_all_continue. intros j _. unfold match_slot.
  rewrite (ptr_eqb_refl (item DType_tuple j)).
  repeat match goal with |- context [if ?c then _ else _] => destruct c end; reflexivity.
Qed.

Lemma entry_matches_with_loops loops ufunc op_dtypes curr_dtypes :
  entry_matches rt (with_loops loops ufunc) op_dtypes curr_dtypes
  = entry_matches rt ufunc op_dtypes curr_dtypes.
Proof. unfold entry_matches. simpl. now apply match_from_same_nin. Qed.

(** X11.  Registering and resolving compose: when none of the loops
    registered so far matches a DType tuple, [PyUFunc_AddLoop] accepts a
    loop for that tuple (return code [0]), and in the ufunc with the list
    it leaves a lookup for operand DTypes equal to the tuple finds exactly
    the new loop. *)
Theorem X11_registered_loop_is_resolved :
  forall (ufunc : PyUFuncObject) (items : list PyObject) (DType_tuple : list PyPtr)
         (meth : PyObject) (target : Target) (ignore_duplicate : bool),
    length items = nargs ufunc ->
    mapM DType_item items = Some DType_tuple ->
    method_or_promoter meth = Some target ->
    Forall (fun e => entry_matches rt ufunc DType_tuple (info_dtypes e) = slot_break)
      (_loops ufunc) ->
    exists loops,
      PyUFunc_AddLoop ufunc (Obj_Tuple [Obj_Tuple items; meth]) ignore_duplicate
        = AddLoopReturns 0 loops None
      /\ resolve_implementation_info rt (with_loops loops ufunc) DType_tuple false
         = mkResolved 0 (Some (mkInfo DType_tuple target)) None.
Proof.
  intros ufunc items DType_tuple meth target ignore Hlen Hitems Hmeth Hold.
  exists (_loops ufunc ++ [mkInfo DType_tuple target]). split.
  - unfold PyUFunc_AddLoop. rewrite Hlen, Nat.eqb_refl, Hitems, Hmeth. simpl.
    destruct (already_registered (_loops ufunc) DType_tuple) eqn:Hreg; [| reflexivity].
    exfalso. apply already_registered_In, in_map_iff in Hreg as (e & He & Hin).
    rewrite Forall_forall in Hold. apply list_elem_of_In in Hin.
    specialize (Hold e Hin). simpl in Hold.
    rewrite He, entry_matches_itself in Hold. discriminate.
  - apply (resolve_only_match _ _ (_loops ufunc) [] (mkInfo DType_tuple target)).
    + reflexivity.
    + eapply Forall_impl; [exact Hold |]. intros e He. simpl in He.
      now rewrite entry_matches_with_loops.
    + constructor.
    + apply entry_matches_itself.
Qed.

End LookupFacts.

Lemma X9_lookup_returns_matching_loop_witness :
  In (mkInfo [Float64; Float64; Float64] (ArrayMethod 2)) (_loops add_ufunc)
  /\ entry_matches (example_runtime 0 Float64 (fun _ => Float64)) add_ufunc
       [Float64; Float64; NULL]
       (info_dtypes (mkInfo [Float64; Float64; Float64] (ArrayMethod 2))) = slot_continue
  /\ (false = true -> is_ArrayMethod (mkInfo [Float64; Float64; Float64] (ArrayMethod 2)) = false)
  /\ return_code
       (resolve_implementation_info (example_runtime 0 Float64 (fun _ => Float64)) add_ufunc
          [Float64; Float64; NULL] false) = 0
  /\ exc_set
       (resolve_implementation_info (example_runtime 0 Float64 (fun _ => Float64)) add_ufunc
          [Float64; Float64; NULL] false) = None.
Proof.
  apply (X9_lookup_returns_matching_loop (example_runtime 0 Float64 (fun _ => Float64))
           add_ufunc [Float64; Float64; NULL] false
           (mkInfo [Float64; Float64; Float64] (ArrayMethod 2))).
  reflexivity.
Defined.

Lemma X10_only_matching_loop_is_found_witness :
  resolve_implementation_info (example_runtime 0 Float64 (fun _ => Float64))
    (binary_ufunc [mkInfo [Int32; Int32; Int32] (ArrayMethod 1);
                   mkInfo [Float64; Float64; Float64] (ArrayMethod 2)] None)
    [Int32; Int32; NULL] false
  = mkResolved 0 (Some (mkInfo [Int32; Int32; Int32] (ArrayMethod 1))) None.
Proof.
  apply (X10_only_matching_loop_is_found (example_runtime 0 Float64 (fun _ => Float64))
           (binary_ufunc [mkInfo [Int32; Int32; Int32] (ArrayMethod 1);
                          mkInfo [Float64; Float64; Float64] (ArrayMethod 2)] None)
           [Int32; Int32; NULL] []
           [mkInfo [Float64; Float64; Float64] (ArrayMethod 2)]
           (mkInfo [Int32; Int32; Int32] (ArrayMethod 1))).
  - reflexivity.
  - constructor.
  - repeat constructor.
  - reflexivity.
Defined.

Lemma X11_registered_loop_is_resolved_witness :
  exists loops,
    PyUFunc_AddLoop
      (binary_ufunc [mkInfo [Int32; Int32; Int32] (ArrayMethod 1)] None)
      (Obj_Tuple [Obj_Tuple [Obj_DTypeMeta 2; Obj_DTypeMeta 2; Obj_DTypeMeta 2];
                  Obj_ArrayMethod 2]) false
    = AddLoopReturns 0 loops None
    /\ resolve_implementation_info (example_runtime 0 Float64 (fun _ => Float64))
         (with_loops loops (binary_ufunc [mkInfo [Int32; Int32; Int32] (ArrayMethod 1)] None))
         [Float64; Float64; Float64] false
       = mkResolved 0 (Some (mkInfo [Float64; Float64; Float64] (ArrayMethod 2))) None.
Proof.
  apply (X11_registered_loop_is_resolved (example_runtime 0 Float64 (fun _ => Float64))
           (binary_ufunc [mkInfo [Int32; Int32; Int32] (ArrayMethod 1)] None)
           [Obj_DTypeMeta 2; Obj_DTypeMeta 2; Obj_DTypeMeta 2] [Float64; Float64; Float64]
           (Obj_ArrayMethod 2) (ArrayMethod 2) false).
  - reflexivity.
  - reflexivity.
  - reflexivity.
  - repeat constructor.
Defined.

(** ** The type tuple and the signature in the legacy promotion *)

Section TypeTupleFacts.
Context (rt : Runtime).

Lemma typetup_items_closed signature n :
  forall i,
    typetup_items rt signature n i =
    if existsb (unsupported_slot rt) (map (item signature) (seq i n)) then None
    else
      Some (map typetup_item (map (item signature) (seq i n)),
            length (List.filter (fun s => ptr_eqb s NULL) (map (item signature) (seq i n)))).
Proof.
  induction n as [| n IH]; intros i; [reflexivity |].
  cbn [typetup_items seq map existsb List.filter]. rewrite IH.
  set (rest := map (item signature) (seq (S i) n)).
  destruct (existsb (unsupported_slot rt) rest) eqn:E;
    unfold unsupported_slot, typetup_item;
    destruct (ptr_eqb (item signature i) NULL);
    destruct (NPY_DT_is_legacy rt (item signature i));
    destruct (NPY_DT_is_abstract rt (item signature i)); reflexivity.
Qed.

Lemma filter_all_length {A : Type} (p : A -> bool) (l : list A) :
  (length (List.filter p l) =? length l)%nat = forallb p l.
Proof.
  assert (forall k : list A, (length (List.filter p k) <= length k)%nat) as Hle.
  { induction k as [| y k IHk]; simpl; [lia |]. destruct (p y); simpl; lia. }
  induction l as [| x l IH]; simpl; [reflexivity |].
  destruct (p x) eqn:Hx; simpl.
  - rewrite <- IH. reflexivity.
  - apply Nat.eqb_neq. specialize (Hle l). lia.
Qed.

(** X12.  [_make_new_typetup] fails (with the "new DType in signature"
    RuntimeError) exactly when one of the first [nop] slots of the
    signature is fixed to a DType that is not legacy or is abstract.
    Otherwise the type tuple is null when every slot is null, and else
    has [nop] items, [None] for each null slot and the DType itself for
    each fixed one. *)
Theorem X12_make_new_typetup_closed_form :
  forall (nop : nat) (signature : list PyPtr),
    _make_new_typetup rt nop signature =
    if existsb (unsupported_slot rt) (slots nop signature) then None
    else if forallb (fun s => ptr_eqb s NULL) (slots nop signature) then Some None
    else Some (Some (map typetup_item (slots nop signature))).
Proof.
  intros nop signature. unfold _make_new_typetup, slots.
  rewrite typetup_items_closed.
  destruct (existsb (unsupported_slot rt) _); [reflexivity |].
  rewrite <- filter_all_length. rewrite length_map, length_seq. reflexivity.
Qed.

End TypeTupleFacts.

(** ** The signature after the legacy promotion *)

Lemma item_insert (l : list PyPtr) (i j : nat) (x : PyPtr) :
  item (<[i := x]> l) j = if decide (i = j /\ (j < length l)%nat) then x else item l j.
Proof.
  case_decide as H.
  - destruct H as [-> H]. now apply item_insert_eq.
  - destruct (decide (i = j)) as [-> | Hne].
    + rewrite list_insert_ge by lia. reflexivity.
    + now apply item_insert_ne.
Qed.

Lemma item_not_null_lt (l : list PyPtr) (i : nat) : item l i <> NULL -> (i < length l)%nat.
Proof.
  intros H. destruct (decide (i < length l)%nat) as [Hlt | Hge]; [exact Hlt |].
  exfalso. apply H. unfold item. apply nth_overflow. lia.
Qed.

Lemma foldl_overwrite (ops : list PyPtr) (m : nat) :
  forall (lo : nat) (sig : list PyPtr) (c : bool),
    let r :=
      foldl (fun sc i =>
               if negb (ptr_eqb (item sc.1 i) NULL)
                  && negb (ptr_eqb (item sc.1 i) (item ops i))
               then (<[i := item ops i]> sc.1, false) else sc)
        (sig, c) (seq lo m) in
    (forall j, item r.1 j =
               if (lo <=? j)%nat && (j <? lo + m)%nat && overwritten sig ops j
               then item ops j else item sig j)
    /\ r.2 = c && forallb (fun i => negb (overwritten sig ops i)) (seq lo m)
    /\ length r.1 = length sig.
Proof.
  induction m as [| m IH]; intros lo sig c; cbn [seq foldl].
  - cbv zeta. cbn [fst snd forallb]. repeat split.
    + intros j. destruct (lo <=? j)%nat eqn:H1; [| reflexivity].
      assert ((j <? lo + 0)%nat = false) as -> by (apply Nat.ltb_ge; apply Nat.leb_le in H1; lia).
      reflexivity.
    + now rewrite andb_true_r.
  - cbn [fst snd]. fold (overwritten sig ops lo).
    destruct (overwritten sig ops lo) eqn:Hlo.
    + specialize (IH (S lo) (<[lo := item ops lo]> sig) false). cbv zeta in IH |- *.
      destruct IH as (Hitem & Hc & Hlen).
      assert (lo < length sig)%nat as Hlt.
      { apply item_not_null_lt. unfold overwritten in Hlo.
        apply andb_prop in Hlo as [Hn _]. apply negb_true_iff, ptr_eqb_neq in Hn. exact Hn. }
      assert (forall j, j <> lo ->
                overwritten (<[lo := item ops lo]> sig) ops j = overwritten sig ops j) as Hsame.
      { intros j Hj. unfold overwritten. rewrite item_insert_ne by congruence. reflexivity. }
      repeat split.
      * intros j. rewrite Hitem. destruct (decide (j = lo)) as [-> | Hne].
        -- assert ((S lo <=? lo)%nat = false) as -> by (apply Nat.leb_gt; lia).
           rewrite Nat.leb_refl, Hlo.
           assert ((lo <? lo + S m)%nat = true) as -> by (apply Nat.ltb_lt; lia).
           simpl. now apply item_insert_eq.
        -- rewrite Hsame, item_insert_ne by congruence.
           assert ((S lo <=? j)%nat && (j <? S lo + m)%nat
                   = (lo <=? j)%nat && (j <? lo + S m)%nat) as ->; [| reflexivity].
           destruct (Nat.leb_spec (S lo) j), (Nat.ltb_spec j (S lo + m)),
                    (Nat.leb_spec lo j), (Nat.ltb_spec j (lo + S m));
             try reflexivity; exfalso; lia.
      * rewrite Hc. cbn [forallb]. rewrite Hlo. destruct c; reflexivity.
      * rewrite Hlen. apply length_insert.
    + specialize (IH (S lo) sig c). cbv zeta in IH |- *.
      destruct IH as (Hitem & Hc & Hlen). repeat split; [| | exact Hlen].
      * intros j. rewrite Hitem. destruct (decide (j = lo)) as [-> | Hne].
        -- assert ((S lo <=? lo)%nat = false) as -> by (apply Nat.leb_gt; lia).
           rewrite Hlo, !andb_false_r. reflexivity.
        -- assert ((S lo <=? j)%nat && (j <? S lo + m)%nat
                   = (lo <=? j)%nat && (j <? lo + S m)%nat) as ->; [| reflexivity].
           destruct (Nat.leb_spec (S lo) j), (Nat.ltb_spec j (S lo + m)),
                    (Nat.leb_spec lo j), (Nat.ltb_spec j (lo + S m));
             try reflexivity; exfalso; lia.
      * rewrite Hc. cbn [forallb]. rewrite Hlo. reflexivity.
Qed.

Lemma item_map_seq (f : nat -> PyPtr) (n i : nat) :
  (i < n)%nat -> item (map f (seq 0 n)) i = f i.
Proof.
  intros Hi. unfold item.
  rewrite (nth_indep _ NULL (f 0%nat)) by (rewrite length_map, length_seq; exact Hi).
  rewrite map_nth, seq_nth by exact Hi. reflexivity.
Qed.

Section LegacySignature.
Context (rt : Runtime).

(** What a successful legacy promotion returns and leaves. *)
Lemma legacy_promote_success ufunc st cacheable ops cacheable' st' :
  legacy_promote_using_legacy_type_resolver rt ufunc st cacheable
    = (Some (ops, cacheable'), st') ->
  exists type_tuple resolver out_descrs,
    _make_new_typetup rt (nargs ufunc) (signature st) = Some type_tuple
    /\ type_resolver ufunc = Some resolver
    /\ call_type_resolver rt resolver type_tuple = Some out_descrs
    /\ ops = map out_descrs (seq 0 (nargs ufunc))
    /\ (signature st', cacheable')
       = overwrite_signature (nargs ufunc) ops (signature st, cacheable)
    /\ _dispatch_cache st' = _dispatch_cache st
    /\ PyErr_Occurred st' = PyErr_Occurred st
    /\ type_resolver_calls st' = type_resolver_calls st ++ [type_tuple].
Proof.
  unfold legacy_promote_using_legacy_type_resolver.
  destruct (_make_new_typetup rt (nargs ufunc) (signature st)) as [type_tuple |];
    [| discriminate].
  destruct (type_resolver ufunc) as [resolver |]; [| discriminate].
  destruct (call_type_resolver rt resolver type_tuple) as [out_descrs |] eqn:Hcall;
    [| discriminate].
  intros [= <- <- <-]. exists type_tuple, resolver, out_descrs. simpl.
  repeat split; try reflexivity; try assumption.
  destruct (overwrite_signature _ _ _); reflexivity.
Qed.

(** X13.  After a successful legacy promotion the DTypes returned are
    the resolver's: the resolver of the ufunc has been called once, with
    the type tuple made from the signature, and [operation_DTypes] holds
    the DType of the descriptor it gave for each of the [nargs] operands.
    The signature agrees with them: every slot below [nargs] that the
    signature fixed now holds the DType returned for that slot, every
    slot that was null is still null, and the slots from [nargs] on are
    untouched.  The dispatch cache and the error indicator are as
    before. *)
Theorem X13_legacy_promotion_makes_signature_agree :
  forall (ufunc : PyUFuncObject) (st st' : State) (cacheable cacheable' : bool)
         (ops : list PyPtr),
    legacy_promote_using_legacy_type_resolver rt ufunc st cacheable
      = (Some (ops, cacheable'), st') ->
    (exists type_tuple resolver out_descrs,
       _make_new_typetup rt (nargs ufunc) (signature st) = Some type_tuple
       /\ type_resolver ufunc = Some resolver
       /\ call_type_resolver rt resolver type_tuple = Some out_descrs
       /\ (forall i, (i < nargs ufunc)%nat -> item ops i = out_descrs i)
       /\ type_resolver_calls st' = type_resolver_calls st ++ [type_tuple])
    /\ length ops = nargs ufunc
    /\ (forall i, (i < nargs ufunc)%nat -> item (signature st) i <> NULL ->
          item (signature st') i = item ops i)
    /\ (forall i, item (signature st) i = NULL -> item (signature st') i = NULL)
    /\ (forall i, (nargs ufunc <= i)%nat -> item (signature st') i = item (signature st) i)
    /\ _dispatch_cache st' = _dispatch_cache st
    /\ PyErr_Occurred st' = PyErr_Occurred st.
Proof.
  intros ufunc st st' c c' ops Hrun.
  apply legacy_promote_success in Hrun
    as (tt & resolver & out & Htt & Hresolver & Hcall & -> & Hsig & Hcache & Herr & Hcalls).
  unfold overwrite_signature, for_range in Hsig. rewrite Nat.sub_0_r in Hsig.
  destruct (foldl_overwrite (map out (seq 0 (nargs ufunc))) (nargs ufunc) 0
              (signature st) c) as (Hitem & _ & _).
  cbv zeta in Hitem. rewrite <- Hsig in Hitem. cbn [fst] in Hitem.
  split.
  { exists tt, resolver, out. repeat split; try assumption.
    intros i Hi. now apply item_map_seq. }
  split; [now rewrite length_map, length_seq |].
  split; [| split; [| split; [| split; assumption]]].
  - intros i Hi Hfixed. rewrite Hitem. unfold overwritten.
    apply ptr_eqb_neq in Hfixed. rewrite Hfixed.
    destruct (ptr_eqb (item (signature st) i) (item (map out (seq 0 (nargs ufunc))) i)) eqn:E.
    + apply ptr_eqb_eq in E. rewrite andb_false_r. exact E.
    + assert ((0 <=? i)%nat && (i <? 0 + nargs ufunc)%nat = true) as ->; [| reflexivity].
      apply andb_true_intro. split; [apply Nat.leb_le | apply Nat.ltb_lt]; lia.
  - intros i Hnull. rewrite Hitem. unfold overwritten.
    rewrite Hnull, ptr_eqb_refl, andb_false_r. reflexivity.
  - intros i Hi. rewrite Hitem.
    assert ((i <? 0 + nargs ufunc)%nat = false) as -> by (apply Nat.ltb_ge; lia).
    rewrite andb_false_r. reflexivity.
Qed.

Lemma legacy_cacheable_flag :
  forall (ufunc : PyUFuncObject) (st st' : State) (cacheable cacheable' : bool)
         (ops : list PyPtr),
    legacy_promote_using_legacy_type_resolver rt ufunc st cacheable
      = (Some (ops, cacheable'), st') ->
    cacheable' = cacheable && bool_decide (signature st' = signature st).
Proof.
  intros ufunc st st' c c' ops Hrun.
  apply legacy_promote_success in Hrun
    as (tt & resolver & out & _ & _ & _ & -> & Hsig & _).
  unfold overwrite_signature, for_range in Hsig. rewrite Nat.sub_0_r in Hsig.
  destruct (foldl_overwrite (map out (seq 0 (nargs ufunc))) (nargs ufunc) 0
              (signature st) c) as (Hitem & Hc & Hlen).
  cbv zeta in Hitem, Hc, Hlen. rewrite <- Hsig in Hitem, Hc, Hlen.
  cbn [fst snd] in Hitem, Hc, Hlen. rewrite Hc. f_equal.
  destruct (forallb _ _) eqn:Hall.
  - symmetry. apply bool_decide_eq_true.
    apply (nth_ext _ _ NULL NULL Hlen). intros j _.
    change (item (signature st') j = item (signature st) j). rewrite Hitem.
    destruct ((0 <=? j)%nat && (j <? 0 + nargs ufunc)%nat) eqn:Hrange; [| reflexivity].
    rewrite forallb_forall in Hall.
    assert (In j (seq 0 (nargs ufunc))) as Hin.
    { apply in_seq. apply andb_prop in Hrange as [_ H]. apply Nat.ltb_lt in H. lia. }
    apply Hall, negb_true_iff in Hin. rewrite Hin. reflexivity.
  - symmetry. apply bool_decide_eq_false. intros Heq.
    assert (forallb (fun i => negb (overwritten (signature st)
                                      (map out (seq 0 (nargs ufunc))) i))
              (seq 0 (nargs ufunc)) = true) as Htrue; [| congruence].
    apply forallb_forall. intros i Hi. apply in_seq in Hi.
    destruct (overwritten (signature st) (map out (seq 0 (nargs ufunc))) i) eqn:Hov;
      [| reflexivity].
    exfalso. specialize (Hitem i). rewrite Hov in Hitem.
    assert ((0 <=? i)%nat && (i <? 0 + nargs ufunc)%nat = true) as Hrange.
    { apply andb_true_intro. split; [apply Nat.leb_le | apply Nat.ltb_lt]; lia. }
    rewrite Hrange in Hitem. simpl in Hitem. rewrite Heq in Hitem.
    unfold overwritten in Hov. apply andb_prop in Hov as [_ Hdiff].
    apply negb_true_iff, ptr_eqb_neq in Hdiff. congruence.
Qed.

(** X14.  The legacy promotion clears [*out_cacheable] exactly when it
    changes the signature: after a success the flag is what it was on
    entry if the signature is left as it was, and false otherwise. *)
Theorem X14_not_cacheable_iff_signature_changed :
  forall (ufunc : PyUFuncObject) (st st' : State) (cacheable cacheable' : bool)
         (ops : list PyPtr),
    legacy_promote_using_legacy_type_resolver rt ufunc st cacheable
      = (Some (ops, cacheable'), st') ->
    cacheable' = cacheable && bool_decide (signature st' = signature st).
Proof. exact legacy_cacheable_flag. Qed.

End LegacySignature.

Lemma X13_legacy_promotion_makes_signature_agree_witness :
  (exists type_tuple resolver out_descrs,
     _make_new_typetup divide_runtime (nargs divide_ufunc)
       (signature (empty_state [Float64; NULL; NULL])) = Some type_tuple
     /\ type_resolver divide_ufunc = Some resolver
     /\ call_type_resolver divide_runtime resolver type_tuple = Some out_descrs
     /\ (forall i, (i < nargs divide_ufunc)%nat ->
           item [Timedelta; Timedelta; Float64] i = out_descrs i)
     /\ type_resolver_calls
          (mkState ∅ [Timedelta; NULL; NULL] None [Some [Float64; Py_None; Py_None]])
        = type_resolver_calls (empty_state [Float64; NULL; NULL]) ++ [type_tuple])
  /\ length [Timedelta; Timedelta; Float64] = nargs divide_ufunc
  /\ (forall i, (i < nargs divide_ufunc)%nat ->
        item (signature (empty_state [Float64; NULL; NULL])) i <> NULL ->
        item (signature
                (mkState ∅ [Timedelta; NULL; NULL] None [Some [Float64; Py_None; Py_None]])) i
        = item [Timedelta; Timedelta; Float64] i)
  /\ (forall i, item (signature (empty_state [Float64; NULL; NULL])) i = NULL ->
        item (signature
                (mkState ∅ [Timedelta; NULL; NULL] None [Some [Float64; Py_None; Py_None]])) i
        = NULL)
  /\ (forall i, (nargs divide_ufunc <= i)%nat ->
        item (signature
                (mkState ∅ [Timedelta; NULL; NULL] None [Some [Float64; Py_None; Py_None]])) i
        = item (signature (empty_state [Float64; NULL; NULL])) i)
  /\ _dispatch_cache
       (mkState ∅ [Timedelta; NULL; NULL] None [Some [Float64; Py_None; Py_None]])
     = _dispatch_cache (empty_state [Float64; NULL; NULL])
  /\ PyErr_Occurred
       (mkState ∅ [Timedelta; NULL; NULL] None [Some [Float64; Py_None; Py_None]])
     = PyErr_Occurred (empty_state [Float64; NULL; NULL]).
Proof.
  apply (X13_legacy_promotion_makes_signature_agree divide_runtime divide_ufunc
           (empty_state [Float64; NULL; NULL])
           (mkState ∅ [Timedelta; NULL; NULL] None [Some [Float64; Py_None; Py_None]])
           true false [Timedelta; Timedelta; Float64]).
  reflexivity.
Defined.

Lemma X14_not_cacheable_iff_signature_changed_witness :
  false = true && bool_decide
                    (signature
                       (mkState ∅ [Timedelta; NULL; NULL] None
                          [Some [Float64; Py_None; Py_None]])
                     = signature (empty_state [Float64; NULL; NULL])).
Proof.
  apply (X14_not_cacheable_iff_signature_changed divide_runtime divide_ufunc
           (empty_state [Float64; NULL; NULL])
           (mkState ∅ [Timedelta; NULL; NULL] None [Some [Float64; Py_None; Py_None]])
           true false [Timedelta; Timedelta; Float64]).
  reflexivity.
Defined.

(** ** More on the built-in promoters *)

Section PromotersMore.
Context (rt : Runtime).

(** The first loop of the default promoter over fixed outputs that are
    all the same DType. *)
Lemma signature_common_homogeneous signature T n :
  T <> NULL ->
  forall i common,
    common = NULL \/ common = T ->
    (forall j, (i <= j < i + n)%nat -> item signature j = NULL \/ item signature j = T) ->
    signature_common signature n i common =
    if ptr_eqb common T || existsb (fun j => ptr_eqb (item signature j) T) (seq i n)
    then T else NULL.
Proof.
  intros HT. apply ptr_eqb_neq in HT.
  assert (ptr_eqb NULL T = false) as HNT.
  { apply ptr_eqb_neq. apply ptr_eqb_neq in HT. congruence. }
  induction n as [| n IH]; intros i common Hcommon Hslots; cbn [signature_common seq existsb].
  - rewrite orb_false_r. destruct Hcommon as [-> | ->];
      [rewrite HNT | rewrite ptr_eqb_refl]; reflexivity.
  - assert (forall j, (S i <= j < S i + n)%nat ->
              item signature j = NULL \/ item signature j = T) as Hrest
        by (intros j Hj; apply Hslots; lia).
    destruct (Hslots i) as [Hi | Hi]; [lia | |]; rewrite Hi.
    + rewrite ptr_eqb_refl, HNT. cbn [negb orb]. now apply IH.
    + rewrite HT, ptr_eqb_refl. cbn [negb].
      destruct Hcommon as [-> | ->].
      * rewrite ptr_eqb_refl, HNT. cbn [orb]. rewrite IH by (auto || exact Hrest).
        rewrite ptr_eqb_refl. reflexivity.
      * rewrite HT, ptr_eqb_refl. cbn [negb orb]. rewrite IH by (auto || exact Hrest).
        rewrite ptr_eqb_refl. reflexivity.
Qed.

(** X15.  A DType fixed for the outputs decides the default promoter's
    common DType: when the output slots the signature fixes all hold the
    same DType [T] (and at least one is fixed), a non-reduction call that
    does not bail out returns [T] for every input slot the signature
    leaves open, whatever the operand DTypes are and without asking for
    their common DType. *)
Theorem X15_fixed_outputs_decide_common_dtype :
  forall (ufunc : PyUFuncObject) (op_dtypes signature : list PyPtr)
         (new_op_dtypes : list cell) (T : PyPtr) (k : nat),
    length new_op_dtypes = nargs ufunc ->
    item op_dtypes 0 <> NULL ->
    type_resolver ufunc <> Some PyUFunc_SimpleBinaryComparisonTypeResolver ->
    T <> NULL ->
    (nin ufunc <= k < nargs ufunc)%nat ->
    item signature k = T ->
    (forall j, (nin ufunc <= j < nargs ufunc)%nat ->
       item signature j = NULL \/ item signature j = T) ->
    exists cells,
      default_ufunc_promoter rt ufunc op_dtypes signature new_op_dtypes = PromoterOk cells
      /\ forall i, (i < nin ufunc)%nat ->
           cells !! i = Some (Written (if ptr_eqb (item signature i) NULL then T
                                       else item signature i)).
Proof.
  intros ufunc op_dtypes signature new_op_dtypes T k Hlen Hfirst Hresolver HT Hk HkT Hslots.
  unfold default_ufunc_promoter.
  rewrite (bool_decide_eq_false_2 _ Hresolver). cbn [andb].
  apply ptr_eqb_neq in Hfirst. rewrite Hfirst.
  assert (default_common rt ufunc op_dtypes signature = inl T) as ->.
  { unfold default_common.
    rewrite (signature_common_homogeneous signature T _ HT); [| now left |].
    - assert (existsb (fun j => ptr_eqb (item signature j) T)
                (seq (nin ufunc) (nargs ufunc - nin ufunc)) = true) as ->.
      { apply existsb_exists. exists k. split; [apply in_seq; lia |].
        rewrite HkT. apply ptr_eqb_refl. }
      rewrite orb_true_r. apply ptr_eqb_neq in HT. rewrite HT. reflexivity.
    - intros j Hj. apply Hslots. lia. }
  eexists. split; [reflexivity |].
  intros i Hi.
  rewrite (for_range_store_lookup (fun i => item op_dtypes i)).
  rewrite (for_range_store_length
             (fun i => if negb (ptr_eqb (item signature i) NULL)
                       then item signature i else T)).
  rewrite (for_range_store_lookup
             (fun i => if negb (ptr_eqb (item signature i) NULL)
                       then item signature i else T)).
  case_decide as H1; [lia |]. case_decide as H2; [| lia].
  destruct (ptr_eqb (item signature i) NULL); reflexivity.
Qed.

(** X16.  With nothing fixed by the signature the object-only promoter
    writes the object DType into every one of the [nargs] slots, whatever
    the operand DTypes are, so that every cell the driver reads
    afterwards has been written. *)
Theorem X16_object_only_fills_every_open_slot :
  forall (ufunc : PyUFuncObject) (op_dtypes signature : list PyPtr),
    (forall j, (j < nargs ufunc)%nat -> item signature j = NULL) ->
    object_only_ufunc_promoter rt ufunc op_dtypes signature
      (replicate (nargs ufunc) Uninit)
    = PromoterOk (replicate (nargs ufunc) (Written (object_DType rt)))
    /\ read_array (replicate (nargs ufunc) (Written (object_DType rt)))
       = Some (replicate (nargs ufunc) (object_DType rt)).
Proof.
  intros ufunc op_dtypes signature Hopen. split.
  - unfold object_only_ufunc_promoter, for_range. f_equal.
    apply list_eq. intros j. rewrite foldl_object_only_lookup, length_replicate.
    case_decide as H.
    + symmetry. apply lookup_replicate_2. lia.
    + rewrite !lookup_ge_None_2; [reflexivity | |]; rewrite length_replicate;
        destruct (decide (j < nargs ufunc)%nat) as [Hj | Hj]; try lia;
        exfalso; apply H; repeat split; try lia; now apply Hopen.
  - unfold read_array. apply mapM_Some.
    apply Forall2_replicate. reflexivity.
Qed.

End PromotersMore.

Section LogicalPromoterFacts.
Context (rt : Runtime).
Variable NPY_OBJECT : Z.
Variable PyTypeNum_ISSTRING : Z -> bool.
Variable bool_DType : PyPtr.

(** X17.  Whenever the promoter of the logical ufuncs returns [0] it has
    written all three slots of [new_op_dtypes]: a slot the signature
    fixes holds the signature's DType, and the slots it leaves open all
    hold one and the same default, the boolean DType or the object
    DType. *)
Theorem X17_logical_promoter_writes_three_slots :
  forall (ufunc : PyUFuncObject) (op_dtypes signature : list PyPtr)
         (c0 c1 c2 : cell) (rest cells : list cell),
    logical_ufunc_promoter rt NPY_OBJECT PyTypeNum_ISSTRING bool_DType ufunc
      op_dtypes signature (c0 :: c1 :: c2 :: rest) = PromoterOk cells ->
    exists default,
      (default = bool_DType \/ default = object_DType rt)
      /\ cells =
         Written (if ptr_eqb (item signature 0) NULL then default else item signature 0)
         :: Written (if ptr_eqb (item signature 1) NULL then default else item signature 1)
         :: Written (if ptr_eqb (item signature 2) NULL then default else item signature 2)
         :: rest.
Proof.
  intros ufunc op_dtypes signature c0 c1 c2 rest cells.
  unfold logical_ufunc_promoter, logical_first_pass, for_range, store.
  cbn [Nat.sub seq foldl fst snd].
  destruct (ptr_eqb (item signature 0) NULL) eqn:S0,
           (ptr_eqb (item signature 1) NULL) eqn:S1,
           (ptr_eqb (item signature 2) NULL) eqn:S2;
    cbn [negb andb fst snd];
    repeat match goal with
      | |- context [if ?c then _ else _] => destruct c; cbn [negb andb orb fst snd]
      end;
    intros H; try discriminate; injection H as <-;
    first [ exists bool_DType; split; [now left | reflexivity]
          | exists (object_DType rt); split; [now right | reflexivity] ].
Qed.

End LogicalPromoterFacts.

Lemma X17_logical_promoter_writes_three_slots_witness :
  exists default,
    (default = Bool \/ default = object_DType (example_runtime 0 Float64 (fun _ => Float64)))
    /\ [Written Bool; Written Bool; Written Bool] =
       Written (if ptr_eqb (item [NULL; NULL; NULL] 0) NULL then default
                else item [NULL; NULL; NULL] 0)
       :: Written (if ptr_eqb (item [NULL; NULL; NULL] 1) NULL then default
                   else item [NULL; NULL; NULL] 1)
       :: Written (if ptr_eqb (item [NULL; NULL; NULL] 2) NULL then default
                   else item [NULL; NULL; NULL] 2)
       :: [].
Proof.
  apply (X17_logical_promoter_writes_three_slots
           (example_runtime 0 Float64 (fun _ => Float64)) 17 (fun t => (t =? 18) || (t =? 19))
           Bool add_ufunc [Float64; Float64; NULL] [NULL; NULL; NULL]
           Uninit Uninit Uninit []).
  reflexivity.
Defined.

Lemma X15_fixed_outputs_decide_common_dtype_witness :
  exists cells,
    default_ufunc_promoter (example_runtime 0 Int32 (fun _ => Float64)) add_ufunc
      [Int32; Int32; Float64] [NULL; NULL; Float64] (replicate 3 Uninit) = PromoterOk cells
    /\ forall i, (i < nin add_ufunc)%nat ->
         cells !! i = Some (Written (if ptr_eqb (item [NULL; NULL; Float64] i) NULL
                                     then Float64 else item [NULL; NULL; Float64] i)).
Proof.
  apply (X15_fixed_outputs_decide_common_dtype (example_runtime 0 Int32 (fun _ => Float64))
           add_ufunc [Int32; Int32; Float64] [NULL; NULL; Float64] (replicate 3 Uninit)
           Float64 2%nat).
  - reflexivity.
  - discriminate.
  - discriminate.
  - discriminate.
  - simpl. lia.
  - reflexivity.
  - intros j Hj. simpl in Hj. assert (j = 2%nat) as -> by lia. right. reflexivity.
Defined.

Lemma X16_object_only_fills_every_open_slot_witness :
  object_only_ufunc_promoter (example_runtime 0 Float64 (fun _ => Float64)) object_ufunc
    [Int32; NULL] [NULL; NULL] (replicate (nargs object_ufunc) Uninit)
  = PromoterOk (replicate (nargs object_ufunc)
                  (Written (object_DType (example_runtime 0 Float64 (fun _ => Float64)))))
  /\ read_array (replicate (nargs object_ufunc)
                   (Written (object_DType (example_runtime 0 Float64 (fun _ => Float64)))))
     = Some (replicate (nargs object_ufunc)
               (object_DType (example_runtime 0 Float64 (fun _ => Float64)))).
Proof.
  apply (X16_object_only_fills_every_open_slot
           (example_runtime 0 Float64 (fun _ => Float64)) object_ufunc
           [Int32; NULL] [NULL; NULL]).
  intros [| [| j]] Hj; try reflexivity. simpl in Hj. lia.
Defined.

(** ** The driver and the registered loops *)

(** A property of the state that every update of the driver keeps, with a
    property of the infos that the cache and the lookup give, is kept by
    the driver, and what the driver returns has the property of infos. *)

Section DriverInvariant.
Context (rt : Runtime) (ufunc : PyUFuncObject).
Variable P : State -> Prop.
Variable Gi : Info -> Prop.
Hypothesis P_err : forall exc st, P st -> P (PyErr_Set exc st).
Hypothesis P_clear : forall st, P st -> P (PyErr_Clear st).
Hypothesis P_cache : forall key info st,
  (forall i, info = Some i -> Gi i) -> P st -> P (cache_result key info st).
Hypothesis P_hit : forall st key i, P st -> _dispatch_cache st !! key = Some i -> Gi i.
Hypothesis P_legacy : forall a c r b,
  P a -> legacy_promote_using_legacy_type_resolver rt ufunc a c = (r, b) -> P b.
Hypothesis G_resolved : forall op i,
  out_info (resolve_implementation_info rt ufunc op false) = Some i -> Gi i.

Lemma P_err_left exc st : P st -> P (PyErr_Left exc st).
Proof. destruct exc; simpl; [apply P_err | trivial]. Qed.

Lemma call_promoter_keeps recurse promoter op_dtypes st info st' :
  (forall f, recurse = Some f -> recurse_keeps P Gi f) ->
  call_promoter_and_recurse rt recurse ufunc promoter op_dtypes st = Returns info st' ->
  P st -> P st' /\ (forall i, info = Some i -> Gi i).
Proof.
  intros Hrec. unfold call_promoter_and_recurse.
  destruct (call_promoter_function _ _ _ _ _ _) as [cells | exc |].
  - destruct (read_array cells) as [new_op_dtypes |]; [| discriminate].
    destruct (negb (dtypes_changed _ _ _)).
    + intros [= <- <-] Hst. split; [exact Hst | intros i [=]].
    + destruct recurse as [f |].
      * intros Hcall. exact (Hrec f eq_refl _ _ _ _ Hcall).
      * intros [= <- <-] Hst. split; [now apply P_err | intros i [=]].
  - intros [= <- <-] Hst. split; [now apply P_err_left | intros i [=]].
  - intros [= <- <-] Hst. split; [now apply P_clear | intros i [=]].
Qed.

Lemma legacy_fallback_keeps recurse op_dtypes allow st info st' :
  recurse_keeps P Gi recurse ->
  legacy_fallback rt recurse ufunc op_dtypes allow st = Returns info st' ->
  P st -> P st' /\ (forall i, info = Some i -> Gi i).
Proof.
  intros Hrec. unfold legacy_fallback.
  destruct (negb allow || _ || _).
  - intros [= <- <-] Hst. split; [exact Hst | intros i [=]].
  - destruct (legacy_promote_using_legacy_type_resolver rt ufunc st true)
      as [[[new_op_dtypes cacheable] |] b] eqn:Hlegacy.
    + destruct (recurse b new_op_dtypes) as [info' s |] eqn:Hrun; [| discriminate].
      intros [= <- <-] Hst.
      destruct (Hrec _ _ _ _ Hrun (P_legacy _ _ _ _ Hst Hlegacy)) as [Hs HG].
      split; [| exact HG]. destruct cacheable; [now apply P_cache | exact Hs].
    + intros [= <- <-] Hst. split; [exact (P_legacy _ _ _ _ Hst Hlegacy) | intros i [=]].
Qed.

Lemma use_promoter_keeps recurse recurse_legacy op_dtypes allow promoter st info st' :
  (forall f, recurse = Some f -> recurse_keeps P Gi f) ->
  recurse_keeps P Gi recurse_legacy ->
  use_promoter rt recurse recurse_legacy ufunc op_dtypes allow promoter st
    = Returns info st' ->
  P st -> P st' /\ (forall i, info = Some i -> Gi i).
Proof.
  intros Hrec Hlegacy. unfold use_promoter.
  destruct (call_promoter_and_recurse _ _ _ _ _ _) as [[found |] s |] eqn:Hcall;
    [| | discriminate].
  - intros [= <- <-] Hst.
    destruct (call_promoter_keeps _ _ _ _ _ _ Hrec Hcall Hst) as [Hs HG].
    split; [now apply P_cache | exact HG].
  - intros Hrun Hst.
    destruct (call_promoter_keeps _ _ _ _ _ _ Hrec Hcall Hst) as [Hs HG].
    destruct (PyErr_Occurred s).
    + injection Hrun as <- <-. split; assumption.
    + exact (legacy_fallback_keeps _ _ _ _ _ _ Hlegacy Hrun Hs).
Qed.

Lemma promote_body_keeps recurse recurse_legacy st op_dtypes allow info st' :
  (forall f, recurse = Some f -> recurse_keeps P Gi f) ->
  recurse_keeps P Gi recurse_legacy ->
  promote_body rt recurse recurse_legacy ufunc st op_dtypes allow = Returns info st' ->
  P st -> P st' /\ (forall i, info = Some i -> Gi i).
Proof.
  intros Hrec Hlegacy. unfold promote_body, PyArrayIdentityHash_GetItem.
  destruct (_dispatch_cache st !! op_dtypes) as [hit |] eqn:Hcache.
  - destruct (info_target hit) as [m | promoter].
    + intros [= <- <-] Hst. split; [exact Hst |].
      intros i [= <-]. exact (P_hit _ _ _ Hst Hcache).
    + now apply use_promoter_keeps.
  - destruct (return_code _ <? 0).
    + intros [= <- <-] Hst. split; [now apply P_err_left | intros i [=]].
    + destruct (out_info (resolve_implementation_info rt ufunc op_dtypes false))
        as [found |] eqn:Hfound.
      * destruct (info_target found) as [m | promoter].
        -- intros [= <- <-] Hst.
           assert (forall i, Some found = Some i -> Gi i) as HG.
           { intros i [= <-]. exact (G_resolved _ _ Hfound). }
           split; [| exact HG]. apply P_cache; [exact HG | now apply P_err_left].
        -- intros Hrun Hst.
           exact (use_promoter_keeps _ _ _ _ _ _ _ _ Hrec Hlegacy Hrun (P_err_left _ _ Hst)).
      * intros Hrun Hst.
        exact (legacy_fallback_keeps _ _ _ _ _ _ Hlegacy Hrun (P_err_left _ _ Hst)).
Qed.

Lemma promote_no_legacy_keeps depth : recurse_keeps P Gi (promote_no_legacy rt depth ufunc).
Proof.
  assert (recurse_keeps P Gi (fun st' _ => Returns None st')) as Hdead.
  { intros s o info s' [= <- <-] Hs. split; [exact Hs | intros i [=]]. }
  induction depth as [| depth IH]; intros s o info s' Hrun; simpl in Hrun.
  - eapply promote_body_keeps; [| exact Hdead | exact Hrun]. intros f [=].
  - eapply promote_body_keeps; [| exact Hdead | exact Hrun]. intros f [= <-]. exact IH.
Qed.

Lemma promote_and_get_info_keeps depth st op_dtypes allow info st' :
  promote_and_get_info_and_ufuncimpl rt depth ufunc st op_dtypes allow = Returns info st' ->
  P st -> P st' /\ (forall i, info = Some i -> Gi i).
Proof.
  unfold promote_and_get_info_and_ufuncimpl. apply promote_body_keeps.
  - destruct depth as [| depth]; intros f [=]. subst f. apply promote_no_legacy_keeps.
  - apply promote_no_legacy_keeps.
Qed.

End DriverInvariant.

Section RegisteredLoops.
Context (rt : Runtime).

Lemma cache_result_within_loops ufunc key info st :
  (forall i, info = Some i -> In i (_loops ufunc)) ->
  cache_within_loops ufunc st -> cache_within_loops ufunc (cache_result key info st).
Proof.
  intros Hinfo Hst. unfold cache_within_loops, cache_result. simpl.
  destruct info as [i |]; simpl.
  - apply map_Forall_insert_2; [now apply Hinfo | exact Hst].
  - now apply map_Forall_delete.
Qed.

(** The driver with the registered loops: the cache stays within them and
    what is returned is one of them. *)
Lemma driver_within_loops depth ufunc st op_dtypes allow info st' :
  promote_and_get_info_and_ufuncimpl rt depth ufunc st op_dtypes allow = Returns info st' ->
  cache_within_loops ufunc st ->
  cache_within_loops ufunc st' /\ (forall i, info = Some i -> In i (_loops ufunc)).
Proof.
  apply (promote_and_get_info_keeps rt ufunc (cache_within_loops ufunc)
           (fun i => In i (_loops ufunc))).
  - intros exc s Hs. exact Hs.
  - intros s Hs. exact Hs.
  - intros key i s Hi Hs. now apply cache_result_within_loops.
  - intros s key i Hs Hkey. exact (map_Forall_lookup_1 _ _ _ _ Hs Hkey).
  - intros a c r b Ha Hlegacy. unfold cache_within_loops.
    rewrite (legacy_promote_cache rt _ _ _ _ _ Hlegacy). exact Ha.
  - intros op i Hfound. now apply (resolve_out_info_sound rt) in Hfound as [Hin _].
Qed.

(** What the driver returns, if not NULL, is an ArrayMethod info. *)
Lemma driver_returns_method depth ufunc st op_dtypes allow info st' :
  promote_and_get_info_and_ufuncimpl rt depth ufunc st op_dtypes allow = Returns info st' ->
  method_or_null info.
Proof.
  intros Hrun.
  apply (promote_and_get_info_rel rt (fun _ _ => True) method_or_null) in Hrun;
    try (intros; exact I).
  - apply Hrun.
  - intros found [=].
  - intros i Hi found [= <-]. exact Hi.
Qed.

(** X20.  The driver registers nothing and invents nothing: when every
    info in the dispatch cache is one of the ufunc's registered loops at
    the call, this is so at the return as well, and an info the driver
    returns is one of the registered loops and holds an ArrayMethod, not
    a promoter, whichever of the cache, the lookup, the promoters and the
    legacy resolver it came through. *)
Theorem X20_driver_returns_a_registered_method :
  forall (depth : nat) (ufunc : PyUFuncObject) (st : State) (op_dtypes : list PyPtr)
         (allow_legacy_promotion : bool) (info : option Info) (st' : State),
    cache_within_loops ufunc st ->
    promote_and_get_info_and_ufuncimpl rt depth ufunc st op_dtypes allow_legacy_promotion
      = Returns info st' ->
    cache_within_loops ufunc st'
    /\ forall found, info = Some found ->
         In found (_loops ufunc) /\ is_ArrayMethod found = true.
Proof.
  intros depth ufunc st op_dtypes allow info st' Hst Hrun.
  destruct (driver_within_loops _ _ _ _ _ _ _ Hrun Hst) as [Hst' Hin].
  split; [exact Hst' |]. intros found Hfound. split; [now apply Hin |].
  exact (driver_returns_method _ _ _ _ _ _ _ Hrun found Hfound).
Qed.

End RegisteredLoops.

Lemma X20_driver_returns_a_registered_method_witness :
  cache_within_loops add_ufunc (outcome_state (empty_state []) add_mixed_run)
  /\ forall found, outcome_info add_mixed_run = Some found ->
       In found (_loops add_ufunc) /\ is_ArrayMethod found = true.
Proof.
  apply (X20_driver_returns_a_registered_method
           (example_runtime 0 Float64 (fun _ => Float64)) 5 add_ufunc
           (empty_state [NULL; NULL; NULL]) [Int32; Float64; NULL] true).
  - unfold cache_within_loops, empty_state. simpl. apply map_Forall_empty.
  - vm_compute. reflexivity.
Defined.

(** ** A second call with the same operand DTypes *)

Section RepeatCall.
Context (rt : Runtime).

Lemma promote_no_legacy_same_signature depth ufunc :
  recurse_ok same_signature method_or_null (promote_no_legacy rt depth ufunc).
Proof.
  apply promote_no_legacy_rel; unfold same_signature, method_or_null.
  - reflexivity.
  - intros a b c Hab Hbc. congruence.
  - reflexivity.
  - reflexivity.
  - reflexivity.
  - intros found [=].
  - intros i Hi found [= <-]. exact Hi.
Qed.

Lemma call_promoter_same_signature depth ufunc promoter op_dtypes st info st' :
  call_promoter_and_recurse rt
    (match depth with
     | O => None
     | S depth' => Some (promote_no_legacy rt depth' ufunc)
     end) ufunc promoter op_dtypes st = Returns info st' ->
  same_signature st st' /\ method_or_null info.
Proof.
  apply (call_promoter_rel rt same_signature method_or_null);
    unfold same_signature, method_or_null; try reflexivity.
  - intros found [=].
  - destruct depth as [| depth]; intros f [=]. subst f.
    apply promote_no_legacy_same_signature.
Qed.

(** A loop found through the legacy fallback is cached under the
    operand DTypes unless the legacy promotion changed the signature. *)
Lemma legacy_fallback_cached depth ufunc op_dtypes allow st info st' :
  legacy_fallback rt (promote_no_legacy rt depth ufunc) ufunc op_dtypes allow st
    = Returns (Some info) st' ->
  _dispatch_cache st' !! op_dtypes = Some info \/ signature st' <> signature st.
Proof.
  unfold legacy_fallback. destruct (negb allow || _ || _); [discriminate |].
  destruct (legacy_promote_using_legacy_type_resolver rt ufunc st true)
    as [[[new_op_dtypes cacheable] |] b] eqn:Hlegacy; [| discriminate].
  destruct (promote_no_legacy rt depth ufunc b new_op_dtypes) as [info' s |] eqn:Hrun;
    [| discriminate].
  destruct (promote_no_legacy_same_signature _ _ _ _ _ _ Hrun) as [Hsig _].
  apply legacy_cacheable_flag in Hlegacy.
  destruct cacheable; intros [= -> <-].
  - left. simpl. apply lookup_insert_eq.
  - right. unfold same_signature in Hsig. rewrite Hsig.
    symmetry in Hlegacy. simpl in Hlegacy. now apply bool_decide_eq_false in Hlegacy.
Qed.

Lemma use_promoter_cached depth ufunc op_dtypes allow promoter st info st' :
  use_promoter rt
    (match depth with
     | O => None
     | S depth' => Some (promote_no_legacy rt depth' ufunc)
     end) (promote_no_legacy rt depth ufunc) ufunc op_dtypes allow promoter st
    = Returns (Some info) st' ->
  _dispatch_cache st' !! op_dtypes = Some info \/ signature st' <> signature st.
Proof.
  unfold use_promoter.
  destruct (call_promoter_and_recurse _ _ _ _ _ _) as [[found |] s |] eqn:Hcall;
    [| | discriminate].
  - intros [= <- <-]. left. simpl. apply lookup_insert_eq.
  - apply call_promoter_same_signature in Hcall as [Hsig _].
    destruct (PyErr_Occurred s); [discriminate |].
    intros Hfall. apply legacy_fallback_cached in Hfall.
    unfold same_signature in Hsig. now rewrite <- Hsig.
Qed.

Lemma signature_PyErr_Left exc st : signature (PyErr_Left exc st) = signature st.
Proof. destruct exc; reflexivity. Qed.

Lemma driver_success_cached depth ufunc st op_dtypes allow info st' :
  promote_and_get_info_and_ufuncimpl rt depth ufunc st op_dtypes allow
    = Returns (Some info) st' ->
  _dispatch_cache st' !! op_dtypes = Some info \/ signature st' <> signature st.
Proof.
  unfold promote_and_get_info_and_ufuncimpl, promote_body, PyArrayIdentityHash_GetItem.
  destruct (_dispatch_cache st !! op_dtypes) as [hit |] eqn:Hcache.
  - destruct (info_target hit) as [m | promoter].
    + intros [= <- <-]. now left.
    + apply use_promoter_cached.
  - destruct (return_code _ <? 0); [discriminate |].
    destruct (out_info (resolve_implementation_info rt ufunc op_dtypes false))
      as [found |].
    + destruct (info_target found) as [m | promoter].
      * intros [= <- <-]. left. simpl. apply lookup_insert_eq.
      * intros Hrun. apply use_promoter_cached in Hrun.
        now rewrite signature_PyErr_Left in Hrun.
    + intros Hrun. apply legacy_fallback_cached in Hrun.
      now rewrite signature_PyErr_Left in Hrun.
Qed.

(** X18.  A resolution that succeeded without the legacy promotion
    rewriting the signature is answered from the cache from then on: a
    second call of the driver with the same operand DTypes, at any
    recursion depth and with either value of [allow_legacy_promotion],
    returns the same info and leaves the state as it is (no lookup over
    the loops, no promoter and no legacy resolver is run). *)
Theorem X18_second_call_is_answered_from_the_cache :
  forall (depth depth2 : nat) (ufunc : PyUFuncObject) (st st' : State)
         (op_dtypes : list PyPtr) (allow_legacy_promotion allow2 : bool) (info : Info),
    promote_and_get_info_and_ufuncimpl rt depth ufunc st op_dtypes allow_legacy_promotion
      = Returns (Some info) st' ->
    signature st' = signature st ->
    promote_and_get_info_and_ufuncimpl rt depth2 ufunc st' op_dtypes allow2
      = Returns (Some info) st'.
Proof.
  intros depth depth2 ufunc st st' op_dtypes allow allow2 info Hrun Hsig.
  pose proof (driver_returns_method rt _ _ _ _ _ _ _ Hrun info eq_refl) as Hmethod.
  apply driver_success_cached in Hrun as [Hcached | Hchanged]; [| contradiction].
  unfold promote_and_get_info_and_ufuncimpl, promote_body, PyArrayIdentityHash_GetItem.
  rewrite Hcached. unfold is_ArrayMethod in Hmethod.
  destruct (info_target info); [reflexivity | discriminate].
Qed.

End RepeatCall.

Lemma X18_second_call_is_answered_from_the_cache_witness :
  promote_and_get_info_and_ufuncimpl (example_runtime 0 Float64 (fun _ => Float64)) 0
    add_ufunc (outcome_state (empty_state []) add_mixed_run) [Int32; Float64; NULL] false
  = Returns (Some (mkInfo [Float64; Float64; Float64] (ArrayMethod 2)))
      (outcome_state (empty_state []) add_mixed_run).
Proof.
  apply (X18_second_call_is_answered_from_the_cache
           (example_runtime 0 Float64 (fun _ => Float64)) 5 0 add_ufunc
           (empty_state [NULL; NULL; NULL]) _ [Int32; Float64; NULL] true false).
  - vm_compute. reflexivity.
  - reflexivity.
Defined.

(** ** The entry point: errors, ignored operands, the filled signature *)

(** A loop body that rewrites slot [i] only, from slot [i] only. *)
Lemma foldl_slotwise (upd : nat -> PyPtr -> PyPtr) (m : nat) :
  forall (lo : nat) (l : list PyPtr),
    let r := foldl (fun a i => <[i := upd i (item a i)]> a) l (seq lo m) in
    length r = length l
    /\ forall j, item r j =
                 if (lo <=? j)%nat && (j <? lo + m)%nat && (j <? length l)%nat
                 then upd j (item l j) else item l j.
Proof.
  induction m as [| m IH]; intros lo l; cbn [seq foldl]; cbv zeta.
  - split; [reflexivity |]. intros j.
    assert ((j <? lo + 0)%nat && (lo <=? j)%nat = false) as H.
    { destruct (Nat.ltb_spec j (lo + 0)), (Nat.leb_spec lo j); try reflexivity. lia. }
    rewrite (andb_comm (lo <=? j)%nat), H. reflexivity.
  - destruct (IH (S lo) (<[lo := upd lo (item l lo)]> l)) as [Hlen Hitem].
    cbv zeta in Hlen, Hitem. rewrite length_insert in Hlen, Hitem.
    split; [exact Hlen |]. intros j. rewrite Hitem, item_insert.
    destruct (decide (j = lo)) as [-> | Hne].
    + assert ((S lo <=? lo)%nat = false) as -> by (apply Nat.leb_gt; lia).
      rewrite Nat.leb_refl.
      assert ((lo <? lo + S m)%nat = true) as -> by (apply Nat.ltb_lt; lia).
      simpl. case_decide as Hd; destruct (Nat.ltb_spec lo (length l));
        try reflexivity; exfalso; lia.
    + case_decide as Hd; [exfalso; lia |].
      assert ((S lo <=? j)%nat && (j <? S lo + m)%nat
              = (lo <=? j)%nat && (j <? lo + S m)%nat) as ->; [| reflexivity].
      destruct (Nat.leb_spec (S lo) j), (Nat.ltb_spec j (S lo + m)),
               (Nat.leb_spec lo j), (Nat.ltb_spec j (lo + S m));
        try reflexivity; exfalso; lia.
Qed.

Lemma insert_item_id (l : list PyPtr) (i : nat) : <[i := item l i]> l = l.
Proof.
  destruct (l !! i) as [x |] eqn:Hi.
  - apply list_insert_id. unfold item. rewrite nth_lookup, Hi. reflexivity.
  - apply list_insert_ge. now apply lookup_ge_None.
Qed.

Lemma foldl_ext_body {A B : Type} (f g : A -> B -> A) (l : list B) (a : A) :
  (forall x y, f x y = g x y) -> foldl f a l = foldl g a l.
Proof.
  intros Hfg. revert a. induction l as [| y l IH]; intros a; simpl; [reflexivity |].
  now rewrite Hfg, IH.
Qed.

(** The first loop of the entry point, slot by slot. *)
Lemma overlay_signature_slots ufunc sig op_dtypes :
  length (overlay_signature ufunc sig op_dtypes) = length op_dtypes
  /\ forall j, item (overlay_signature ufunc sig op_dtypes) j =
               if (j <? nargs ufunc)%nat && (j <? length op_dtypes)%nat
               then overlay_slot ufunc sig j (item op_dtypes j) else item op_dtypes j.
Proof.
  unfold overlay_signature, for_range. rewrite Nat.sub_0_r.
  rewrite (foldl_ext_body _
             (fun a i => <[i := overlay_slot ufunc sig i (item a i)]> a)).
  - destruct (foldl_slotwise (overlay_slot ufunc sig) (nargs ufunc) 0 op_dtypes)
      as [Hlen Hitem].
    cbv zeta in Hlen, Hitem. split; [exact Hlen |]. intros j. rewrite Hitem.
    reflexivity.
  - intros a i. unfold overlay_slot.
    destruct (negb (ptr_eqb (item sig i) NULL)); [reflexivity |].
    destruct (nin ufunc <=? i)%nat; [reflexivity |]. symmetry. apply insert_item_id.
Qed.

(** The last loop of the entry point, slot by slot. *)
Lemma fill_signature_slots nargs all_dtypes sig :
  length (fill_signature nargs all_dtypes sig) = length sig
  /\ forall j, item (fill_signature nargs all_dtypes sig) j =
               if (j <? nargs)%nat && (j <? length sig)%nat
               then fill_slot all_dtypes j (item sig j) else item sig j.
Proof.
  unfold fill_signature, for_range. rewrite Nat.sub_0_r.
  rewrite (foldl_ext_body _ (fun a i => <[i := fill_slot all_dtypes i (item a i)]> a)).
  - destruct (foldl_slotwise (fill_slot all_dtypes) nargs 0 sig) as [Hlen Hitem].
    cbv zeta in Hlen, Hitem. split; [exact Hlen |]. intros j. rewrite Hitem.
    reflexivity.
  - intros a i. unfold fill_slot.
    destruct (ptr_eqb (item a i) NULL); [reflexivity |]. symmetry. apply insert_item_id.
Qed.

Section EntryPointFacts.
Context (rt : Runtime).

Lemma legacy_promote_failure ufunc st cacheable st' :
  legacy_promote_using_legacy_type_resolver rt ufunc st cacheable = (None, st') ->
  is_Some (PyErr_Occurred st').
Proof.
  unfold legacy_promote_using_legacy_type_resolver.
  destruct (_make_new_typetup rt (nargs ufunc) (signature st)) as [type_tuple |];
    [| intros [= <-]; simpl; eauto].
  destruct (type_resolver ufunc) as [resolver |]; [| intros [= <-]; simpl; eauto].
  destruct (call_type_resolver rt resolver type_tuple); [discriminate |].
  intros [= <-]. simpl. eauto.
Qed.

Lemma body_null_sets_error rerun depth ufunc st op_dtypes force allow ensure st' ops' :
  (ensure = true ->
   forall s o s' o', rerun s o = TopReturns None s' o' -> is_Some (PyErr_Occurred s')) ->
  promote_and_get_ufuncimpl_body rt rerun depth ufunc st op_dtypes force allow ensure
    = TopReturns None st' ops' ->
  is_Some (PyErr_Occurred st').
Proof.
  intros Hrerun. unfold promote_and_get_ufuncimpl_body, initial_op_dtypes.
  assert (forall s ops,
            match promote_and_get_info_and_ufuncimpl rt depth ufunc s ops allow with
            | Returns None s'' =>
                TopReturns None
                  match PyErr_Occurred s'' with
                  | Some _ => s''
                  | None => PyErr_Set (NoLoopFoundError ops) s''
                  end ops
            | Returns (Some info) s'' =>
                if ensure && ptr_eqb (item (signature s'') 0) NULL
                   && negb (ptr_eqb (item (info_dtypes info) 0) (item (info_dtypes info) 2))
                then
                  rerun (with_signature (<[0%nat := item (info_dtypes info) 2]> (signature s''))
                           s'') ops
                else
                  TopReturns (Some (info_target info))
                    (with_signature
                       (fill_signature (nargs ufunc) (info_dtypes info) (signature s'')) s'')
                    ops
            | ReadsUninit => TopReadsUninit
            end = TopReturns None st' ops' ->
            is_Some (PyErr_Occurred st')) as Hdriver.
  { intros s ops.
    destruct (promote_and_get_info_and_ufuncimpl rt depth ufunc s ops allow)
      as [[info |] s'' |]; [| | discriminate].
    - destruct ensure; simpl; [| discriminate].
      destruct (ptr_eqb (item (signature s'') 0) NULL && _); [| discriminate].
      apply Hrerun. reflexivity.
    - intros [= <- _]. destruct (PyErr_Occurred s'') eqn:Herr; [rewrite Herr |]; simpl; eauto. }
  destruct force.
  - destruct (legacy_promote_using_legacy_type_resolver rt ufunc st true)
      as [[[operation_DTypes c] |] b] eqn:Hlegacy.
    + apply Hdriver.
    + intros [= <- _]. exact (legacy_promote_failure _ _ _ _ Hlegacy).
  - apply Hdriver.
Qed.

(** X19.  The entry point never returns NULL without an exception set:
    for a ufunc that has a type resolver when [force_legacy_promotion] is
    set (the source calls it there without testing the pointer), and
    whatever the other flags and the recursion depth, after a NULL return
    the error indicator holds an exception (the one a callee left, or the
    no-loop-found error raised here). *)
Theorem X19_null_return_has_an_exception_set :
  forall (depth : nat) (ufunc : PyUFuncObject) (st : State) (op_dtypes : list PyPtr)
         (force_legacy_promotion allow_legacy_promotion ensure_reduce_compatible : bool),
    (force_legacy_promotion = true -> type_resolver ufunc <> None) ->
    match promote_and_get_ufuncimpl rt depth ufunc st op_dtypes
            force_legacy_promotion allow_legacy_promotion ensure_reduce_compatible with
    | TopReturns None st' _ => is_Some (PyErr_Occurred st')
    | _ => True
    end.
Proof.
  intros depth ufunc st op_dtypes force allow ensure _.
  destruct (promote_and_get_ufuncimpl rt depth ufunc st op_dtypes force allow ensure)
    as [[method |] st' ops' |] eqn:Hrun; try exact I.
  unfold promote_and_get_ufuncimpl in Hrun.
  apply body_null_sets_error in Hrun; [exact Hrun |].
  intros _ s o s' o' Hinner.
  apply body_null_sets_error in Hinner; [exact Hinner | discriminate].
Qed.

(** X21.  When the overlaid operand DTypes are not in the cache, every
    registered loop is rejected by the matching loop, and the legacy
    fallback is off (not allowed, or the ufunc has no type resolver), the
    entry point returns NULL with the no-loop-found error naming the
    overlaid DTypes; the cache, the signature and the resolver's call
    history are as before, and [op_dtypes] is left overlaid. *)
Theorem X21_no_matching_loop_raises_no_loop_found :
  forall (depth : nat) (ufunc : PyUFuncObject) (st : State) (op_dtypes : list PyPtr)
         (allow_legacy_promotion ensure_reduce_compatible : bool),
    let ops := overlay_signature ufunc (signature st) op_dtypes in
    _dispatch_cache st !! ops = None ->
    Forall (fun e => entry_matches rt ufunc ops (info_dtypes e) = slot_break) (_loops ufunc) ->
    allow_legacy_promotion = false \/ type_resolver ufunc = None ->
    PyErr_Occurred st = None ->
    promote_and_get_ufuncimpl rt depth ufunc st op_dtypes false
      allow_legacy_promotion ensure_reduce_compatible
    = TopReturns None (PyErr_Set (NoLoopFoundError ops) st) ops.
Proof.
  intros depth ufunc st op_dtypes allow ensure ops Hmiss Hnone Hoff Herr.
  unfold promote_and_get_ufuncimpl, promote_and_get_ufuncimpl_body, initial_op_dtypes.
  fold ops.
  assert (resolve_implementation_info rt ufunc ops false = mkResolved 0 None None) as Hres.
  { unfold resolve_implementation_info, resolve_implementation_info_body.
    now rewrite (scan_loops_none_match rt _ _ _ _ None Hnone). }
  unfold promote_and_get_info_and_ufuncimpl.
  rewrite (promote_body_nothing_found rt _ _ _ _ _ _ Hmiss Hres).
  unfold legacy_fallback.
  assert (negb allow || bool_decide (type_resolver ufunc = None)
          || (ntypes ufunc =? 0) && negb (userloops ufunc) = true) as ->.
  { destruct Hoff as [-> | Hnull]; [reflexivity |].
    rewrite (bool_decide_eq_true_2 _ Hnull). now rewrite orb_true_r. }
  rewrite Herr. reflexivity.
Qed.

(** X22.  The entry point does not look at an operand DType whose slot
    the signature fixes, nor at that of an output: two calls whose
    [op_dtypes] arrays have the same length and agree on the inputs that
    the signature leaves open (and beyond [nargs]) give the same result,
    state and final [op_dtypes]. *)
Theorem X22_fixed_and_output_operands_are_ignored :
  forall (depth : nat) (ufunc : PyUFuncObject) (st : State) (op_dtypes op_dtypes2 : list PyPtr)
         (force_legacy_promotion allow_legacy_promotion ensure_reduce_compatible : bool),
    length op_dtypes2 = length op_dtypes ->
    (forall j, ((j < nargs ufunc)%nat ->
                (j < nin ufunc)%nat /\ item (signature st) j = NULL) ->
               item op_dtypes2 j = item op_dtypes j) ->
    promote_and_get_ufuncimpl rt depth ufunc st op_dtypes2
      force_legacy_promotion allow_legacy_promotion ensure_reduce_compatible
    = promote_and_get_ufuncimpl rt depth ufunc st op_dtypes
        force_legacy_promotion allow_legacy_promotion ensure_reduce_compatible.
Proof.
  intros depth ufunc st op op2 force allow ensure Hlen Hagree.
  assert (overlay_signature ufunc (signature st) op2
          = overlay_signature ufunc (signature st) op) as Hsame.
  { destruct (overlay_signature_slots ufunc (signature st) op) as [Hl Hi].
    destruct (overlay_signature_slots ufunc (signature st) op2) as [Hl2 Hi2].
    apply (nth_ext _ _ NULL NULL); [congruence |]. intros j _.
    change (item (overlay_signature ufunc (signature st) op2) j
            = item (overlay_signature ufunc (signature st) op) j).
    rewrite Hi, Hi2, Hlen.
    destruct (Nat.ltb_spec j (nargs ufunc)) as [Hj | Hj]; simpl.
    - destruct (Nat.ltb_spec j (length op)) as [Hop | Hop];
        [| unfold item; rewrite !nth_overflow by lia; reflexivity].
      unfold overlay_slot.
      destruct (ptr_eqb (item (signature st) j) NULL) eqn:Hnull; simpl; [| reflexivity].
      destruct (Nat.leb_spec (nin ufunc) j) as [Hout | Hin]; [reflexivity |].
      apply Hagree. intros _. split; [exact Hin | now apply ptr_eqb_eq].
    - apply Hagree. intros; lia. }
  unfold promote_and_get_ufuncimpl, promote_and_get_ufuncimpl_body, initial_op_dtypes.
  rewrite Hsame. reflexivity.
Qed.

End EntryPointFacts.

(** The forced resolution of a legacy ufunc without loops: the resolver
    answers, nothing matches its DTypes, and the NULL return carries the
    no-loop-found error. *)
Lemma X19_null_return_has_an_exception_set_witness :
  top_method forced_run = None
  /\ is_Some (PyErr_Occurred (top_state (empty_state []) forced_run)).
Proof.
  split; [vm_compute; reflexivity |].
  exact (X19_null_return_has_an_exception_set
           (example_runtime 0 Float64 (fun _ => Float64)) 5
           (binary_ufunc [] (Some (other_type_resolver 0)))
           (empty_state [NULL; NULL; NULL]) [Int32; Float64; NULL] true true false
           (fun _ => ltac:(discriminate))).
Defined.

Lemma X21_no_matching_loop_raises_no_loop_found_witness :
  promote_and_get_ufuncimpl (example_runtime 0 Float64 (fun _ => Float64)) 5
    (binary_ufunc [mkInfo [Int32; Int32; Int32] (ArrayMethod 1);
                   mkInfo [Float64; Float64; Float64] (ArrayMethod 2)] None)
    (empty_state [NULL; NULL; NULL]) [Bool; Bool; Int32] false true false
  = TopReturns None
      (PyErr_Set (NoLoopFoundError [Bool; Bool; NULL]) (empty_state [NULL; NULL; NULL]))
      [Bool; Bool; NULL].
Proof.
  apply (X21_no_matching_loop_raises_no_loop_found
           (example_runtime 0 Float64 (fun _ => Float64)) 5
           (binary_ufunc [mkInfo [Int32; Int32; Int32] (ArrayMethod 1);
                          mkInfo [Float64; Float64; Float64] (ArrayMethod 2)] None)
           (empty_state [NULL; NULL; NULL]) [Bool; Bool; Int32] true false).
  - reflexivity.
  - repeat constructor.
  - right. reflexivity.
  - reflexivity.
Defined.

Lemma X22_fixed_and_output_operands_are_ignored_witness :
  promote_and_get_ufuncimpl (example_runtime 0 Float64 (fun _ => Float64)) 5 add_ufunc
    (empty_state [NULL; NULL; NULL]) [Int32; Float64; Bool] false true false
  = promote_and_get_ufuncimpl (example_runtime 0 Float64 (fun _ => Float64)) 5 add_ufunc
      (empty_state [NULL; NULL; NULL]) [Int32; Float64; NULL] false true false.
Proof.
  apply (X22_fixed_and_output_operands_are_ignored
           (example_runtime 0 Float64 (fun _ => Float64)) 5 add_ufunc
           (empty_state [NULL; NULL; NULL]) [Int32; Float64; NULL] [Int32; Float64; Bool]
           false true false).
  - reflexivity.
  - intros [| [| [| j]]] Hj; try reflexivity.
    exfalso. simpl in Hj. assert (2 < 3)%nat as H by lia. apply Hj in H. lia.
Defined.

(** ** The signature after a successful call of the entry point *)

Section FilledSignature.
Context (rt : Runtime).

Lemma legacy_promote_signature_length ufunc a cacheable r b :
  legacy_promote_using_legacy_type_resolver rt ufunc a cacheable = (r, b) ->
  length (signature b) = length (signature a).
Proof.
  unfold legacy_promote_using_legacy_type_resolver.
  destruct (_make_new_typetup rt (nargs ufunc) (signature a)) as [type_tuple |];
    [| intros [= <- <-]; reflexivity].
  destruct (type_resolver ufunc) as [resolver |]; [| intros [= <- <-]; reflexivity].
  destruct (call_type_resolver rt resolver type_tuple) as [out_descrs |];
    intros [= <- <-]; [| reflexivity].
  simpl. unfold overwrite_signature.
  apply (for_range_ind (fun sc : list PyPtr * bool => length sc.1 = length (signature a)));
    [reflexivity |].
  intros i sc _ Hsc. destruct (negb _ && negb _); [| exact Hsc].
  simpl. now rewrite length_insert.
Qed.

Lemma driver_signature_length depth ufunc st op_dtypes allow info st' :
  promote_and_get_info_and_ufuncimpl rt depth ufunc st op_dtypes allow = Returns info st' ->
  length (signature st') = length (signature st).
Proof.
  intros Hrun.
  apply (promote_and_get_info_rel rt
           (fun a b => length (signature b) = length (signature a))
           (fun _ => True)) in Hrun; try (intros; reflexivity || exact I).
  - destruct Hrun as [_ [Hsame | (_ & a & r & b & Ha & Hlegacy & Hb)]]; [exact Hsame |].
    apply legacy_promote_signature_length in Hlegacy. congruence.
  - intros a b c Hab Hbc. congruence.
Qed.

Lemma body_success_fills rerun depth ufunc st op_dtypes force allow ensure method st' ops'
    (Concl : Prop) :
  Forall (fun e => forall i, (i < nargs ufunc)%nat -> item (info_dtypes e) i <> NULL)
    (_loops ufunc) ->
  (forall s o,
     cache_within_loops ufunc s -> (nargs ufunc <= length (signature s))%nat ->
     rerun s o = TopReturns (Some method) st' ops' -> Concl) ->
  ((exists info,
      In info (_loops ufunc) /\ info_target info = method /\ is_ArrayMethod info = true)
   /\ (forall i, (i < nargs ufunc)%nat -> item (signature st') i <> NULL) -> Concl) ->
  cache_within_loops ufunc st ->
  (nargs ufunc <= length (signature st))%nat ->
  promote_and_get_ufuncimpl_body rt rerun depth ufunc st op_dtypes force allow ensure
    = TopReturns (Some method) st' ops' ->
  Concl.
Proof.
  intros Hloops Hrerun Hdone Hcache Hlen.
  unfold promote_and_get_ufuncimpl_body.
  destruct (initial_op_dtypes rt ufunc st op_dtypes force) as [[ops |] s] eqn:Hinit;
    [| discriminate].
  assert (cache_within_loops ufunc s /\ (nargs ufunc <= length (signature s))%nat)
    as [Hcache_s Hlen_s].
  { unfold initial_op_dtypes in Hinit. destruct force.
    - destruct (legacy_promote_using_legacy_type_resolver rt ufunc st true)
        as [[[operation_DTypes c] |] b] eqn:Hlegacy; [| discriminate].
      injection Hinit as _ <-. split.
      + unfold cache_within_loops. now rewrite (legacy_promote_cache rt _ _ _ _ _ Hlegacy).
      + now rewrite (legacy_promote_signature_length _ _ _ _ _ Hlegacy).
    - injection Hinit as _ <-. split; assumption. }
  destruct (promote_and_get_info_and_ufuncimpl rt depth ufunc s ops allow)
    as [[info |] s'' |] eqn:Hrun; [| discriminate | discriminate].
  destruct (driver_within_loops rt _ _ _ _ _ _ _ Hrun Hcache_s) as [Hcache'' Hin].
  specialize (Hin info eq_refl).
  pose proof (driver_returns_method rt _ _ _ _ _ _ _ Hrun info eq_refl) as Hmethod.
  pose proof (driver_signature_length _ _ _ _ _ _ _ Hrun) as Hlen''.
  destruct (ensure && ptr_eqb (item (signature s'') 0) NULL && _).
  - apply Hrerun.
    + exact Hcache''.
    + simpl. rewrite length_insert. lia.
  - intros [= <- <- <-]. apply Hdone. split.
    + exists info. repeat split; assumption.
    + intros i Hi. simpl.
      destruct (fill_signature_slots (nargs ufunc) (info_dtypes info) (signature s''))
        as [_ Hitem].
      rewrite Hitem.
      assert ((i <? nargs ufunc)%nat && (i <? length (signature s''))%nat = true) as ->.
      { apply andb_true_intro. split; apply Nat.ltb_lt; lia. }
      unfold fill_slot.
      destruct (ptr_eqb (item (signature s'') i) NULL) eqn:Hnull.
      * exact (proj1 (List.Forall_forall _ _) Hloops info Hin i Hi).
      * now apply ptr_eqb_neq.
Qed.

(** X23.  After a successful call of the entry point the signature is
    filled, and the method returned is a registered ArrayMethod: with a
    cache that holds registered loops only, registered DType tuples that
    have an item in each of the [nargs] slots (as [PyUFunc_AddLoop]
    demands) and a signature array of at least [nargs] slots, no slot of
    the signature below [nargs] is null at the return, also after the
    re-run of a reduction and after a legacy promotion, and the method
    is the second item of one of the ufunc's loops. *)
Theorem X23_success_fills_the_signature :
  forall (depth : nat) (ufunc : PyUFuncObject) (st : State) (op_dtypes : list PyPtr)
         (force_legacy_promotion allow_legacy_promotion ensure_reduce_compatible : bool)
         (method : Target) (st' : State) (ops' : list PyPtr),
    cache_within_loops ufunc st ->
    Forall (fun e => forall i, (i < nargs ufunc)%nat -> item (info_dtypes e) i <> NULL)
      (_loops ufunc) ->
    (nargs ufunc <= length (signature st))%nat ->
    promote_and_get_ufuncimpl rt depth ufunc st op_dtypes
      force_legacy_promotion allow_legacy_promotion ensure_reduce_compatible
      = TopReturns (Some method) st' ops' ->
    (exists info,
       In info (_loops ufunc) /\ info_target info = method /\ is_ArrayMethod info = true)
    /\ (forall i, (i < nargs ufunc)%nat -> item (signature st') i <> NULL).
Proof.
  intros depth ufunc st op_dtypes force allow ensure method st' ops' Hcache Hloops Hlen.
  unfold promote_and_get_ufuncimpl.
  apply body_success_fills; try assumption; [| trivial].
  intros s o Hs Hlen_s. apply body_success_fills; try assumption; [| trivial].
  discriminate.
Qed.

End FilledSignature.

Lemma X23_success_fills_the_signature_witness :
  (exists info,
     In info (_loops add_ufunc) /\ info_target info = ArrayMethod 2
     /\ is_ArrayMethod info = true)
  /\ (forall i, (i < nargs add_ufunc)%nat ->
        item (signature
                (top_state (empty_state [])
                   (promote_and_get_ufuncimpl
                      (example_runtime 0 Float64 (fun _ => Float64)) 5 add_ufunc
                      (empty_state [NULL; NULL; NULL]) [Int32; Float64; NULL]
                      false true false))) i <> NULL).
Proof.
  apply (X23_success_fills_the_signature
           (example_runtime 0 Float64 (fun _ => Float64)) 5 add_ufunc
           (empty_state [NULL; NULL; NULL]) [Int32; Float64; NULL] false true false
           (ArrayMethod 2) _ [Int32; Float64; NULL]).
  - unfold cache_within_loops, empty_state. simpl. apply map_Forall_empty.
  - repeat constructor; intros [| [| [| i]]] Hi; simpl in *; try discriminate; lia.
  - simpl. lia.
  - vm_compute. reflexivity.
Defined.
